(** * School-meal allergen dashboard (app.py): model and properties

    The program is a Streamlit script.  Its analysis functions send a prompt
    to a chat-completion service, cut a JSON object out of the reply and
    decode it; a second kind of call turns decoded results into a report.
    Everything the script gets from outside (the service, [json], the clock)
    is a parameter of the model; everything the script itself does is a
    definition below. *)

From Stdlib Require Import List ZArith NArith Bool String Ascii Lia Floats DecimalString.
Import ListNotations.

Set Warnings "-register-all,-inexact-float".

(** ** Python text *)

(** A Python [str] is a sequence of Unicode code points. *)
Definition codepoint := N.
Definition pystr := list codepoint.

Module Utf8.
Local Open Scope N_scope.

(** Source literals are written as Rocq strings, which hold UTF-8 bytes;
    [decode] gives back the code points. *)
Fixpoint decode (bs : list N) : pystr :=
  match bs with
  | [] => []
  | b0 :: t0 =>
    if b0 <? 128 then b0 :: decode t0
    else match t0 with
      | [] => []
      | b1 :: t1 =>
        if b0 <? 224 then (b0 mod 32 * 64 + b1 mod 64) :: decode t1
        else match t1 with
          | [] => []
          | b2 :: t2 =>
            if b0 <? 240
            then (b0 mod 16 * 4096 + b1 mod 64 * 64 + b2 mod 64) :: decode t2
            else match t2 with
              | [] => []
              | b3 :: t3 =>
                (b0 mod 8 * 262144 + b1 mod 64 * 4096 + b2 mod 64 * 64 + b3 mod 64)
                  :: decode t3
              end
          end
      end
  end.
End Utf8.

Definition py (s : string) : pystr :=
  Utf8.decode (map N_of_ascii (list_ascii_of_string s)).

Definition str_eqb (a b : pystr) : bool :=
  if list_eq_dec N.eq_dec a b then true else false.

(** [sep.join(parts)] *)
Fixpoint join (sep : pystr) (parts : list pystr) : pystr :=
  match parts with
  | [] => []
  | [p] => p
  | p :: rest => p ++ sep ++ join sep rest
  end.

Definition newline : pystr := [10%N].
Definition dq : pystr := [34%N].
Definition lbrace : codepoint := 123%N.
Definition rbrace : codepoint := 125%N.

(** A double-quoted fragment of a literal. *)
Definition q (s : string) : pystr := dq ++ py s ++ dq.

(** [str.isspace] for one character: the code points CPython lists as
    whitespace. *)
Definition isspace (c : codepoint) : bool :=
  ((9 <=? c) && (c <=? 13) || (28 <=? c) && (c <=? 32)
   || (c =? 133) || (c =? 160) || (c =? 5760)
   || (8192 <=? c) && (c <=? 8202)
   || (c =? 8232) || (c =? 8233) || (c =? 8239) || (c =? 8287)
   || (c =? 12288))%N.

Fixpoint lstrip (s : pystr) : pystr :=
  match s with
  | [] => []
  | c :: t => if isspace c then lstrip t else s
  end.

Definition rstrip (s : pystr) : pystr := rev (lstrip (rev s)).

(** [s.strip()] *)
Definition strip (s : pystr) : pystr := rstrip (lstrip s).

Fixpoint startswith (s prefix : pystr) : bool :=
  match prefix, s with
  | [], _ => true
  | _ :: _, [] => false
  | p :: prefix', c :: s' => (p =? c)%N && startswith s' prefix'
  end.

(** [needle in hay] for two strings. *)
Fixpoint contains (needle hay : pystr) : bool :=
  startswith hay needle ||
  match hay with
  | [] => false
  | _ :: t => contains needle t
  end.

(** ** The regular expression [\{.*\}] with [re.DOTALL] *)

Module Re.
(** [.*\}] at the head of [s]: the star takes one more character whenever
    the rest still matches, and gives it back otherwise. *)
Fixpoint dotstar_rbrace (s : pystr) : option pystr :=
  match s with
  | [] => None
  | c :: t =>
    match dotstar_rbrace t with
    | Some m => Some (c :: m)
    | None => if (c =? rbrace)%N then Some [c] else None
    end
  end.

(** The whole pattern anchored at the head of [s]. *)
Definition match_here (s : pystr) : option pystr :=
  match s with
  | [] => None
  | c :: t =>
    if (c =? lbrace)%N then option_map (cons c) (dotstar_rbrace t) else None
  end.

(** [re.search]: the match at the leftmost position that has one;
    the result is [json_match.group()]. *)
Fixpoint search (s : pystr) : option pystr :=
  match match_here s with
  | Some m => Some m
  | None =>
    match s with
    | [] => None
    | _ :: t => search t
    end
  end.
End Re.

(** ** [base64.b64encode(...).decode()] *)

Module Base64.
Local Open Scope N_scope.

Definition alphabet (i : N) : codepoint :=
  if i <? 26 then 65 + i
  else if i <? 52 then 97 + (i - 26)
  else if i <? 62 then 48 + (i - 52)
  else if i =? 62 then 43 else 47.

Definition pad : codepoint := 61.

Fixpoint b64encode (bs : list N) : pystr :=
  match bs with
  | [] => []
  | [a] => [alphabet (a / 4); alphabet (a mod 4 * 16); pad; pad]
  | [a; b] =>
    [alphabet (a / 4); alphabet (a mod 4 * 16 + b / 16);
     alphabet (b mod 16 * 4); pad]
  | a :: b :: c :: t =>
    alphabet (a / 4) :: alphabet (a mod 4 * 16 + b / 16)
      :: alphabet (b mod 16 * 4 + c / 64) :: alphabet (c mod 64)
      :: b64encode t
  end.
End Base64.

(** ** Values, exceptions, effects *)

(** What [json.loads] returns; a [dict] keeps its keys in order. *)
Inductive json : Type :=
| JNull
| JBool (b : bool)
| JInt (n : Z)
| JFloat (x : float)
| JStr (s : pystr)
| JList (items : list json)
| JDict (fields : list (pystr * json)).

(** The exception classes the script tells apart, all of them subclasses
    of [Exception].  [APITimeoutError] is a subclass of [APIConnectionError];
    [OtherException] stands for every class not named here. *)
Inductive exn_class : Type :=
| RateLimitError | APIConnectionError | APITimeoutError
| JSONDecodeError
| KeyError | TypeError | AttributeError | UnboundLocalError
| OtherException.

(** An exception: its class and what it was raised about. *)
Inductive exn : Type := Exn (c : exn_class) (about : pystr).

Definition class_of (e : exn) : exn_class := let (c, _) := e in c.

(** [except (RateLimitError, APIConnectionError)] *)
Definition is_transient (e : exn) : bool :=
  match class_of e with
  | RateLimitError | APIConnectionError | APITimeoutError => true
  | _ => false
  end.

(** [except json.JSONDecodeError] *)
Definition is_JSONDecodeError (e : exn) : bool :=
  match class_of e with JSONDecodeError => true | _ => false end.

(** A computation either raises or returns. *)
Definition result (A : Type) : Type := (exn + A)%type.

(** One chat-completion request: [model], the single user message,
    [temperature], [max_tokens]. *)
Inductive message : Type :=
| Text (prompt : pystr)
| TextAndImage (prompt : pystr) (image_url : pystr).

Record request : Type := Request {
  model : pystr;
  user_message : message;
  temperature : float;
  max_tokens : Z
}.

(** Streamlit calls that show text.  Layout and input widgets ([st.tabs],
    [st.columns], [st.progress], [st.empty], [st.button], the uploaders)
    show no text of the script's own and leave no event. *)
Module st.
Inductive widget : Type :=
| set_page_config | title | header | subheader | markdown | write
| info | success | warning | error | divider
| image | dataframe | expander | spinner | status_text
| metric (label : pystr)
| text_area (key : pystr)
| download_button (key file_name : pystr).
End st.

(** What a run does to the outside, in order. *)
Inductive event : Type :=
| ApiCall (api_key : pystr) (req : request)
| Sleep (seconds : Z)
| Show (w : st.widget) (shown : pystr)
| Stop.

Definition is_call (e : event) : bool :=
  match e with ApiCall _ _ => true | _ => false end.

Definition api_calls (t : list event) : list event := filter is_call t.

Definition ncalls (t : list event) : nat := List.length (api_calls t).

Fixpoint sleeps (t : list event) : list Z :=
  match t with
  | [] => []
  | Sleep s :: t' => s :: sleeps t'
  | _ :: t' => sleeps t'
  end.

(** A computation is started after some number of calls to the service
    have been made; it raises or returns, and leaves a trace. *)
Definition M (A : Type) : Type := nat -> result A * list event.

Definition ret {A} (a : A) : M A := fun _ => (inr a, []).

Definition raise {A} (e : exn) : M A := fun _ => (inl e, []).

Definition bind {A B} (m : M A) (k : A -> M B) : M B :=
  fun n =>
    let (r, t) := m n in
    match r with
    | inl e => (inl e, t)
    | inr a => let (r', t') := k a (n + ncalls t)%nat in (r', t ++ t')
    end.

Definition lift {A} (r : result A) : M A := fun _ => (r, []).

Definition emit (e : event) : M unit := fun _ => (inr tt, [e]).

(** [try: m] seen from the handlers: the exception becomes a value.  Every
    [exn] is an [Exception], so this is also what [except Exception] sees. *)
Definition try {A} (m : M A) : M (result A) :=
  fun n => let (r, t) := m n in (inr r, t).

Declare Scope py_scope.
Delimit Scope py_scope with py.
Notation "x <- m ;; k" := (bind m (fun x => k))
  (at level 61, m at next level, right associativity) : py_scope.
Notation "m ;; k" := (bind m (fun _ => k))
  (at level 61, right associativity) : py_scope.
Open Scope py_scope.

Definition show (w : st.widget) (shown : pystr) : M unit := emit (Show w shown).

(** [range(n)] *)
Definition py_range (n : Z) : list Z := map Z.of_nat (seq 0 (Z.to_nat n)).

(** ** 1. The allergen catalog *)

Definition MAJOR_ALLERGENS : list pystr :=
  [ py "우유/유제품"; py "달걀/난류"; py "땅콩"; py "견과류"; py "밀/글루텐";
    py "대두/콩"; py "생선/어류"; py "갑각류(새우,게,랍스터)"; py "조개류/패류";
    py "참깨"; py "아황산염"; py "메밀"; py "돼지고기"; py "소고기"; py "닭고기";
    py "복숭아"; py "토마토"; py "키위"; py "바나나"; py "아보카도" ].

Definition image_prompt : pystr :=
  join newline
  [ [];
    py "    당신은 학교 급식 영양사이자 알레르기 전문가입니다. ";
    py "    이 이미지를 매우 자세히 분석하여 다음 작업을 수행해주세요:";
    [];
    py "    1. 이미지에 있는 모든 음식/메뉴를 식별하세요";
    py "    2. 각 음식의 일반적인 재료와 조리법을 고려하세요";
    py "    3. 숨겨진 알레르기 유발 요소까지 찾아내세요";
    py "    4. 한국 학교 급식의 특성을 고려하세요";
    [];
    py "    주요 확인 알레르기: " ++ join (py ", ") MAJOR_ALLERGENS;
    [];
    py "    다음 JSON 형식으로 매우 상세하게 응답해주세요:";
    py "    {";
    py "        " ++ q "menu_items" ++ py ": [";
    py "            {";
    py "                " ++ q "name" ++ py ": " ++ q "음식명" ++ py ",";
    py "                " ++ q "ingredients" ++ py ": [" ++ q "주재료1" ++ py ", " ++ q "주재료2" ++ py ", " ++ q "부재료1" ++ py ", ...],";
    py "                " ++ q "cooking_method" ++ py ": " ++ q "조리 방법" ++ py ",";
    py "                " ++ q "allergens" ++ py ": [";
    py "                    {";
    py "                        " ++ q "allergen" ++ py ": " ++ q "알레르기 유발 물질" ++ py ",";
    py "                        " ++ q "source" ++ py ": " ++ q "어떤 재료에서 유래" ++ py ",";
    py "                        " ++ q "risk_level" ++ py ": " ++ q "고도/중등도/경도" ++ py ",";
    py "                        " ++ q "hidden" ++ py ": true/false,";
    py "                        " ++ q "cross_contamination" ++ py ": true/false";
    py "                    }";
    py "                ],";
    py "                " ++ q "nutrition_notes" ++ py ": " ++ q "영양학적 특징";
    py "            }";
    py "        ],";
    py "        " ++ q "overall_assessment" ++ py ": {";
    py "            " ++ q "total_allergens" ++ py ": [" ++ q "전체 알레르기 목록" ++ py "],";
    py "            " ++ q "high_risk_items" ++ py ": [" ++ q "고위험 항목들" ++ py "],";
    py "            " ++ q "hidden_allergens" ++ py ": [" ++ q "숨겨진 알레르기 유발 요소" ++ py "],";
    py "            " ++ q "safety_notes" ++ py ": " ++ q "전반적인 안전 주의사항";
    py "        },";
    py "        " ++ q "recommendations" ++ py ": {";
    py "            " ++ q "substitutions" ++ py ": [" ++ q "대체 가능한 메뉴" ++ py "],";
    py "            " ++ q "preparation_tips" ++ py ": [" ++ q "조리시 주의사항" ++ py "],";
    py "            " ++ q "serving_guidelines" ++ py ": [" ++ q "배식시 주의사항" ++ py "]";
    py "        }";
    py "    }";
    [];
    py "    중요: ";
    py "    - 조미료, 소스, 양념에 숨겨진 알레르기 성분도 찾아주세요";
    py "    - 교차 오염 가능성도 평가해주세요";
    py "    - 한국 음식의 특성(고추장, 된장, 새우젓 등)을 고려하세요";
    py "    " ].

Definition text_prompt (text : pystr) : pystr :=
  join newline
  [ [];
    py "    당신은 학교 급식 영양사이자 알레르기 전문가입니다.";
    py "    다음 텍스트(급식 메뉴 또는 식단표)를 분석하여 알레르기 정보를 추출해주세요.";
    [];
    py "    텍스트: " ++ text;
    [];
    py "    주요 확인 알레르기: " ++ join (py ", ") MAJOR_ALLERGENS;
    [];
    py "    다음 JSON 형식으로 상세하게 응답해주세요:";
    py "    {";
    py "        " ++ q "identified_menus" ++ py ": [";
    py "            {";
    py "                " ++ q "menu_name" ++ py ": " ++ q "메뉴명" ++ py ",";
    py "                " ++ q "likely_ingredients" ++ py ": [" ++ q "추정 재료들" ++ py "],";
    py "                " ++ q "allergen_analysis" ++ py ": [";
    py "                    {";
    py "                        " ++ q "allergen" ++ py ": " ++ q "알레르기 유발 물질" ++ py ",";
    py "                        " ++ q "confidence" ++ py ": " ++ q "확실함/가능성높음/가능성있음" ++ py ",";
    py "                        " ++ q "source_ingredient" ++ py ": " ++ q "유래 재료" ++ py ",";
    py "                        " ++ q "risk_level" ++ py ": " ++ q "고도/중등도/경도" ++ py ",";
    py "                        " ++ q "notes" ++ py ": " ++ q "추가 설명";
    py "                    }";
    py "                ]";
    py "            }";
    py "        ],";
    py "        " ++ q "summary" ++ py ": {";
    py "            " ++ q "total_allergens_found" ++ py ": [" ++ q "발견된 모든 알레르기" ++ py "],";
    py "            " ++ q "high_confidence_allergens" ++ py ": [" ++ q "확실한 알레르기" ++ py "],";
    py "            " ++ q "possible_allergens" ++ py ": [" ++ q "가능성 있는 알레르기" ++ py "],";
    py "            " ++ q "menu_safety_score" ++ py ": " ++ q "1-10점" ++ py ",";
    py "            " ++ q "special_warnings" ++ py ": [" ++ q "특별 주의사항" ++ py "]";
    py "        },";
    py "        " ++ q "detailed_recommendations" ++ py ": {";
    py "            " ++ q "for_allergic_students" ++ py ": [" ++ q "알레르기 학생을 위한 조언" ++ py "],";
    py "            " ++ q "for_kitchen_staff" ++ py ": [" ++ q "조리실 직원을 위한 조언" ++ py "],";
    py "            " ++ q "alternative_options" ++ py ": [" ++ q "대체 메뉴 제안" ++ py "]";
    py "        }";
    py "    }";
    [];
    py "    참고사항:";
    py "    - 한국 음식의 일반적인 재료를 고려하세요";
    py "    - 숨겨진 알레르기 성분(소스, 양념 등)도 추정하세요";
    py "    - 조리 과정에서의 교차 오염 가능성도 언급하세요";
    py "    " ].

Definition report_prompt (source_type results_summary now : pystr) : pystr :=
  join newline
  [ [];
    py "    당신은 학교 보건교사이자 알레르기 전문가입니다.";
    py "    다음 분석 결과를 바탕으로 학교 급식 알레르기 종합 보고서를 작성해주세요.";
    [];
    py "    분석 대상: " ++ source_type;
    py "    분석 결과: " ++ results_summary;
    [];
    py "    보고서는 다음 형식으로 작성해주세요:";
    [];
    py "    ═══════════════════════════════════════════════════════════════════";
    py "                        학교 급식 알레르기 종합 분석 보고서";
    py "    ═══════════════════════════════════════════════════════════════════";
    py "    ";
    py "    📅 분석 정보";
    py "    - 분석일시: " ++ now;
    py "    - 분석대상: " ++ source_type;
    py "    ";
    py "    📊 분석 요약";
    py "    [전체적인 분석 결과 요약 - 3-4줄]";
    py "    ";
    py "    🚨 알레르기 위험도 평가";
    py "    ";
    py "    【고위험 알레르기】";
    py "    [생명을 위협할 수 있는 알레르기 상세 설명]";
    py "    ";
    py "    【중등도 위험 알레르기】";
    py "    [주의가 필요한 알레르기 상세 설명]";
    py "    ";
    py "    【경도 위험 알레르기】";
    py "    [관리 가능한 알레르기 설명]";
    py "    ";
    py "    🔍 상세 분석 결과";
    py "    ";
    py "    [각 메뉴별 상세 분석]";
    py "    ";
    py "    ⚠️ 숨겨진 알레르기 유발 요소";
    py "    [눈에 띄지 않지만 주의해야 할 요소들]";
    py "    ";
    py "    💡 대처 방안";
    py "    ";
    py "    【즉시 시행사항】";
    py "    1. [구체적인 조치사항]";
    py "    2. [구체적인 조치사항]";
    py "    ";
    py "    【예방 조치】";
    py "    - [조리실에서의 예방 조치]";
    py "    - [배식 시 주의사항]";
    py "    - [학생 지도 사항]";
    py "    ";
    py "    【응급 대응 프로토콜】";
    py "    1. 경미한 증상: [대처법]";
    py "    2. 중등도 증상: [대처법]";
    py "    3. 심각한 증상: [대처법]";
    py "    ";
    py "    📋 대체 메뉴 제안";
    py "    [알레르기 학생을 위한 대체 메뉴 제안]";
    py "    ";
    py "    📞 비상 연락망";
    py "    - 보건실: 내선 [번호]";
    py "    - 119 구급대: 119";
    py "    - 학교 인근 병원: [병원명] [전화번호]";
    py "    - 응급의료정보센터: 1339";
    py "    ";
    py "    ✅ 체크리스트";
    py "    □ 알레르기 학생 명단 확인";
    py "    □ 대체 급식 준비";
    py "    □ 조리실 직원 브리핑";
    py "    □ 담임교사 통보";
    py "    □ 보건실 의약품 확인";
    py "    ";
    py "    💬 추가 권고사항";
    py "    [전문가로서의 추가 조언]";
    py "    ";
    py "    ═══════════════════════════════════════════════════════════════════";
    py "    ";
    py "    작성 시 주의사항:";
    py "    1. 의학적으로 정확하면서도 이해하기 쉽게 작성";
    py "    2. 실제 학교 현장에서 바로 활용 가능한 구체적인 내용";
    py "    3. 위험도에 따른 우선순위 명확히 구분";
    py "    4. 한국 학교 급식 환경에 맞는 현실적인 조언";
    py "    " ].

Definition medical_prompt (allergen : pystr) : pystr :=
  join newline
  [ [];
    py "    당신은 소아 알레르기 전문의입니다.";
    py "    " ++ allergen ++ py " 알레르기에 대해 학교 관계자들이 알아야 할 의학적 정보를 제공해주세요.";
    [];
    py "    다음 JSON 형식으로 응답해주세요:";
    py "    {";
    py "        " ++ q "medical_name" ++ py ": " ++ q "의학적 명칭" ++ py ",";
    py "        " ++ q "prevalence" ++ py ": " ++ q "한국 학생 유병률" ++ py ",";
    py "        " ++ q "mechanism" ++ py ": " ++ q "알레르기 발생 기전 (쉽게 설명)" ++ py ",";
    py "        " ++ q "symptoms" ++ py ": {";
    py "            " ++ q "immediate" ++ py ": [" ++ q "즉각적 증상들" ++ py "],";
    py "            " ++ q "delayed" ++ py ": [" ++ q "지연성 증상들" ++ py "],";
    py "            " ++ q "severe" ++ py ": [" ++ q "심각한 증상들" ++ py "]";
    py "        },";
    py "        " ++ q "onset_time" ++ py ": " ++ q "증상 발현 시간" ++ py ",";
    py "        " ++ q "cross_reactivity" ++ py ": [" ++ q "교차 반응 가능 물질들" ++ py "],";
    py "        " ++ q "diagnosis" ++ py ": " ++ q "진단 방법" ++ py ",";
    py "        " ++ q "treatment" ++ py ": {";
    py "            " ++ q "emergency" ++ py ": " ++ q "응급 처치" ++ py ",";
    py "            " ++ q "medication" ++ py ": " ++ q "사용 가능 약물" ++ py ",";
    py "            " ++ q "long_term" ++ py ": " ++ q "장기 관리 방법";
    py "        },";
    py "        " ++ q "school_management" ++ py ": {";
    py "            " ++ q "prevention" ++ py ": [" ++ q "학교에서의 예방 조치" ++ py "],";
    py "            " ++ q "monitoring" ++ py ": [" ++ q "관찰 포인트" ++ py "],";
    py "            " ++ q "documentation" ++ py ": [" ++ q "필요 서류" ++ py "]";
    py "        },";
    py "        " ++ q "prognosis" ++ py ": " ++ q "예후 및 성장에 따른 변화";
    py "    }";
    py "    " ].

Definition emergency_guide : pystr :=
  join newline
  [ [];
    py "    **아나필락시스 증상**";
    py "    - 호흡곤란, 목 조임";
    py "    - 전신 두드러기";
    py "    - 혈압 급락";
    py "    - 의식 저하";
    py "    ";
    py "    **즉시 조치**";
    py "    1. 119 신고";
    py "    2. 에피펜 투여";
    py "    3. 평평하게 눕히기";
    py "    4. 하지 거상";
    py "    " ].

Definition usage_guide : pystr :=
  join newline
  [ [];
    py "    ### 🤖 AI 분석 시스템 특징";
    py "    - **고급 이미지 인식**: 음식 사진에서 재료와 조리법을 추정";
    py "    - **컨텍스트 이해**: 한국 급식의 특성을 고려한 분석";
    py "    - **숨겨진 알레르기 탐지**: 소스, 양념 등에 숨어있는 알레르기 성분 발견";
    py "    - **종합 보고서**: 실무에 바로 활용 가능한 상세 보고서 자동 생성";
    py "    ";
    py "    ### 🎯 사용 방법";
    py "    1. 분석하고자 하는 자료 형태에 맞는 탭 선택";
    py "    2. 파일 업로드 또는 텍스트 입력";
    py "    3. AI 분석 시작 버튼 클릭";
    py "    4. 생성된 보고서 확인 및 다운로드";
    py "    ";
    py "    ### ⚠️ 중요 안전 수칙";
    py "    - AI 분석 결과는 **참고용**입니다";
    py "    - 심각한 알레르기가 있는 학생은 **전문의 상담** 필수";
    py "    - 의심스러운 경우 **섭취 금지** 원칙";
    py "    - 정기적인 **알레르기 검사** 권장";
    py "    ";
    py "    ### 📞 비상 연락처";
    py "    - **119**: 응급상황 (아나필락시스, 호흡곤란)";
    py "    - **1339**: 응급의료정보센터";
    py "    - **학교 보건실**: 즉각적인 1차 대응";
    py "    " ].

Definition extra_style : pystr :=
  join newline
  [ [];
    py "<style>";
    py "    .stButton > button[kind=" ++ q "primary" ++ py "] {";
    py "        background-color: #ff4b4b;";
    py "        color: white;";
    py "        font-weight: bold;";
    py "    }";
    py "    .stExpander {";
    py "        border: 1px solid #ddd;";
    py "        border-radius: 10px;";
    py "        margin-bottom: 10px;";
    py "    }";
    py "    div[data-testid=" ++ q "metric-container" ++ py "] {";
    py "        border: 1px solid #ddd;";
    py "        padding: 10px;";
    py "        border-radius: 10px;";
    py "        box-shadow: 0 2px 4px rgba(0,0,0,0.1);";
    py "    }";
    py "</style>";
    [] ].

Definition default_model : pystr := py "gpt-4o-mini".
Definition default_max_retries : Z := 2.

(** [str(n)] for a count. *)
Definition str_of_nat (n : nat) : pystr := py (NilZero.string_of_uint (Nat.to_uint n)).

(** ** Python operations on decoded values *)

Module Py.

Fixpoint lookup (k : pystr) (fields : list (pystr * json)) : option json :=
  match fields with
  | [] => None
  | (k', v) :: rest => if str_eqb k' k then Some v else lookup k rest
  end.

(** [bool(v)] *)
Definition truthy (v : json) : bool :=
  match v with
  | JNull => false
  | JBool b => b
  | JInt n => negb (n =? 0)%Z
  | JFloat x => negb (PrimFloat.eqb x 0)
  | JStr s => negb (Nat.eqb (List.length s) 0)
  | JList items => negb (Nat.eqb (List.length items) 0)
  | JDict fields => negb (Nat.eqb (List.length fields) 0)
  end.

(** [v == "s"] *)
Definition eq_str (v : json) (s : pystr) : bool :=
  match v with
  | JStr t => str_eqb t s
  | _ => false
  end.

(** ["k" in v] *)
Definition has (k : pystr) (v : json) : result bool :=
  match v with
  | JDict fields => inr (match lookup k fields with Some _ => true | None => false end)
  | JList items => inr (existsb (fun x => eq_str x k) items)
  | JStr s => inr (contains k s)
  | _ => inl (Exn TypeError (py "in"))
  end.

(** [v["k"]] *)
Definition getitem (v : json) (k : pystr) : result json :=
  match v with
  | JDict fields =>
    match lookup k fields with
    | Some x => inr x
    | None => inl (Exn KeyError k)
    end
  | _ => inl (Exn TypeError (py "[]"))
  end.

(** [v.get("k", default)] *)
Definition get (v : json) (k : pystr) (default : json) : result json :=
  match v with
  | JDict fields =>
    match lookup k fields with
    | Some x => inr x
    | None => inr default
    end
  | _ => inl (Exn AttributeError (py "get"))
  end.

(** The items [for x in v] goes through. *)
Definition iter (v : json) : result (list json) :=
  match v with
  | JList items => inr items
  | JDict fields => inr (map (fun kv => JStr (fst kv)) fields)
  | JStr s => inr (map (fun c => JStr [c]) s)
  | _ => inl (Exn TypeError (py "iter"))
  end.

(** [len(v)] *)
Definition len (v : json) : result nat :=
  match v with
  | JList items => inr (List.length items)
  | JDict fields => inr (List.length fields)
  | JStr s => inr (List.length s)
  | _ => inl (Exn TypeError (py "len"))
  end.

Fixpoint all_str (items : list json) : result (list pystr) :=
  match items with
  | [] => inr []
  | JStr s :: rest =>
    match all_str rest with
    | inr ss => inr (s :: ss)
    | inl e => inl e
    end
  | _ :: _ => inl (Exn TypeError (py "join"))
  end.

(** [sep.join(v)]: every item has to be a [str]. *)
Definition join_items (sep : pystr) (v : json) : result pystr :=
  match iter v with
  | inl e => inl e
  | inr items =>
    match all_str items with
    | inl e => inl e
    | inr ss => inr (join sep ss)
    end
  end.

End Py.

(** [for x in xs: body(x)] *)
Fixpoint for_each {A} (xs : list A) (body : A -> M unit) : M unit :=
  match xs with
  | [] => ret tt
  | x :: rest => body x ;; for_each rest body
  end.

(** [for i, x in enumerate(xs): body(i, x)], from index [i]. *)
Fixpoint for_each_from {A} (i : nat) (xs : list A) (body : nat -> A -> M unit) : M unit :=
  match xs with
  | [] => ret tt
  | x :: rest => body i x ;; for_each_from (S i) rest body
  end.

(** ** What the script reads *)

(** A PDF as [pypdf] presents it: [PdfReader(pdf_file)] raises, or there are
    pages, and [extract_text()] of a page raises or returns its text. *)
Definition pdf_file : Type := result (list (result pystr)).

(** A cell of a data frame: missing ([NaN], [None], [NaT]), a [str], or
    another object together with what [str()] makes of it. *)
Inductive cell : Type :=
| NA
| Str (s : pystr)
| Obj (as_str : pystr).

Inductive dtype : Type := object | int64 | float64 | bool_ | datetime64.

(** A column: [str(col)] of its label, its dtype, its cells.  The labels of a
    frame that [pd.read_excel] returns are distinct, so [df[col]] is the
    column itself. *)
Record column : Type := Column {
  label : pystr;
  col_dtype : dtype;
  cells : list cell
}.

Definition dataframe : Type := list column.

(** [st.secrets]: the mapping is read from the secrets files when the script
    first touches it.  With no secrets file, or with one that cannot be
    parsed, that reading raises, and so does every use of the mapping.  What
    Streamlit itself draws about an exception that ends the run is no call
    of the script and leaves no event. *)
Definition secrets_file : Type := result (list (pystr * pystr)).

Module Secrets.

Fixpoint lookup (key : pystr) (fields : list (pystr * pystr)) : option pystr :=
  match fields with
  | [] => None
  | (k, v) :: rest => if str_eqb k key then Some v else lookup key rest
  end.

(** [key in st.secrets] *)
Definition contains (key : pystr) (secrets : secrets_file) : result bool :=
  match secrets with
  | inl e => inl e
  | inr fields =>
    match lookup key fields with
    | Some _ => inr true
    | None => inr false
    end
  end.

(** [st.secrets[key]] *)
Definition getitem (secrets : secrets_file) (key : pystr) : result pystr :=
  match secrets with
  | inl e => inl e
  | inr fields =>
    match lookup key fields with
    | Some v => inr v
    | None => inl (Exn KeyError key)
    end
  end.

End Secrets.

(** One run of the script: the secrets and the state of the widgets. *)
Record session : Type := Session {
  secrets : secrets_file;
  selected_allergen : pystr;
  get_medical_info : bool;
  uploaded_images : list (list N);
  analyze_images : bool;
  text_input : pystr;
  analyze_text : bool;
  uploaded_excel : option (result dataframe);
  analyze_excel : bool;
  uploaded_pdf : option pdf_file;
  analyze_pdf : bool
}.

(** [{"error": msg}] and [{"error": msg, "raw": content}] *)
Definition error_dict (msg : pystr) : json := JDict [(py "error", JStr msg)].

Definition error_raw_dict (msg content : pystr) : json :=
  JDict [(py "error", JStr msg); (py "raw", JStr content)].

(** [res.choices[0].message.content.strip()]; the content may be [None]. *)
Definition stripped_content (reply : option pystr) : result pystr :=
  match reply with
  | None => inl (Exn AttributeError (py "strip"))
  | Some text => inr (strip text)
  end.

(** How the [for ... try ... break] loop is left. *)
Inductive loop_exit : Type :=
| Break (reply : option pystr)     (* [res] is bound, the loop was left by [break] *)
| Return (v : json)                (* the function returned from inside the loop *)
| Fallthrough.                     (* the range ran out; [res] was never bound *)

(** ** 6. PDF text, and the text of a spreadsheet *)

Fixpoint extract_pages (pages : list (result pystr)) (text : pystr) : result pystr :=
  match pages with
  | [] => inr text
  | inl e :: _ => inl e
  | inr page_text :: rest => extract_pages rest (text ++ page_text ++ newline)
  end.

(** The body of the [try] in [extract_pdf_text]. *)
Definition read_pdf (pdf : pdf_file) : result pystr :=
  match pdf with
  | inl e => inl e
  | inr pages => extract_pages pages []
  end.

(** [df[col].dropna().astype(str).values] *)
Fixpoint dropna_astype_str (cs : list cell) : list pystr :=
  match cs with
  | [] => []
  | NA :: rest => dropna_astype_str rest
  | Str s :: rest => s :: dropna_astype_str rest
  | Obj s :: rest => s :: dropna_astype_str rest
  end.

Definition is_object (d : dtype) : bool :=
  match d with object => true | _ => false end.

(** The loop of the Excel tab that builds [all_text], started from the text
    built so far. *)
Fixpoint all_text_from (all_text : pystr) (df : dataframe) : pystr :=
  match df with
  | [] => all_text
  | col :: rest =>
    if is_object (col_dtype col)
    then all_text_from
           ((all_text ++ newline ++ py "[" ++ label col ++ py "]" ++ newline)
              ++ join newline (dropna_astype_str (cells col)) ++ newline)
           rest
    else all_text_from all_text rest
  end.

Definition all_text (df : dataframe) : pystr := all_text_from [] df.

Section Program.

(** The service.  [openai api_key n req] is what the call [req] gets when it
    is call number [n] of the run (from 0): an exception, or
    [res.choices[0].message.content], which may be [None]. *)
Variable openai : pystr -> nat -> request -> result (option pystr).

(** [json.loads], and [json.dumps(..., ensure_ascii=False, indent=2)] *)
Variable json_loads : pystr -> result json.
Variable json_dumps : json -> pystr.

(** [str(v)] of a decoded value that is not a [str], and [str(e)]. *)
Variable py_repr : json -> pystr.
Variable exn_str : exn -> pystr.

(** [datetime.now().strftime(fmt)] *)
Variable strftime_now : pystr -> pystr.

(** [st.image] opens the upload it is given to draw it: it raises on bytes
    that are no image. *)
Variable image_open : list N -> result unit.

(** [f"{v}"] *)
Definition fmt (v : json) : pystr :=
  match v with
  | JStr s => s
  | _ => py_repr v
  end.

(** [OpenAI(api_key=api_key).chat.completions.create(...)] *)
Definition create (api_key : pystr) (req : request) : M (option pystr) :=
  fun n => (openai api_key n req, [ApiCall api_key req]).

(** [time.sleep] *)
Definition sleep (seconds : Z) : M unit := emit (Sleep seconds).

(** *** 2, 3. The analysis functions *)

(** [for i in range(max_retries + 1): try: res = create(...); break
     except (RateLimitError, APIConnectionError):
       if i == max_retries: return {"error": "API 호출 실패"}
       time.sleep(2 ** i)].
    Both analysis functions contain this loop; [range] is what is left of
    [range(max_retries + 1)]. *)
Fixpoint retry_loop (api_key : pystr) (req : request) (max_retries : Z)
    (range : list Z) : M loop_exit :=
  match range with
  | [] => ret Fallthrough
  | i :: rest =>
    r <- try (create api_key req) ;;
    match r with
    | inr reply => ret (Break reply)
    | inl e =>
      if is_transient e then
        if (i =? max_retries)%Z then ret (Return (error_dict (py "API 호출 실패")))
        else sleep (2 ^ i) ;; retry_loop api_key req max_retries rest
      else raise e
    end
  end.

(** The second [try] block of both analysis functions: the stripped
    content, the search for [\{.*\}], [json.loads] of the match; only
    [json.JSONDecodeError] is caught. *)
Definition parse_reply (reply : option pystr) : result json :=
  match stripped_content reply with
  | inl e => inl e
  | inr content =>
    match Re.search content with
    | Some json_match =>
      match json_loads json_match with
      | inr v => inr v
      | inl e =>
        if is_JSONDecodeError e
        then inr (error_raw_dict (py "JSON 파싱 오류") content)
        else inl e
      end
    | None => inr (error_raw_dict (py "응답 파싱 실패") content)
    end
  end.

(** What follows the loop. *)
Definition after_loop (x : loop_exit) : M json :=
  match x with
  | Return v => ret v
  | Break reply => lift (parse_reply reply)
  | Fallthrough => raise (Exn UnboundLocalError (py "res"))
  end.

Definition image_request (image_bytes : list N) (model : pystr) : request :=
  let b64 := Base64.b64encode image_bytes in
  {| model := model;
     user_message := TextAndImage image_prompt (py "data:image/png;base64," ++ b64);
     temperature := 0.3;
     max_tokens := 2000 |}.

Definition analyze_food_image_with_ai (image_bytes : list N)
    (api_key model : pystr) (max_retries : Z) : M json :=
  x <- retry_loop api_key (image_request image_bytes model) max_retries
         (py_range (max_retries + 1)) ;;
  after_loop x.

Definition text_request (text model : pystr) : request :=
  {| model := model;
     user_message := Text (text_prompt text);
     temperature := 0.3;
     max_tokens := 2000 |}.

Definition analyze_text_with_ai (text api_key model : pystr)
    (max_retries : Z) : M json :=
  x <- retry_loop api_key (text_request text model) max_retries
         (py_range (max_retries + 1)) ;;
  after_loop x.

(** *** 4. The report *)

Definition report_request (analysis_results : list json) (source_type model : pystr)
    : request :=
  let results_summary := json_dumps (JList analysis_results) in
  {| model := model;
     user_message :=
       Text (report_prompt source_type results_summary
               (strftime_now (py "%Y년 %m월 %d일 %H시 %M분")));
     temperature := 0.4;
     max_tokens := 3000 |}.

Definition report_failure (e : exn) : pystr := py "보고서 생성 실패: " ++ exn_str e.

(** One [try] around the call and the [strip]; [except Exception] turns
    whatever was raised into the text that is returned. *)
Definition generate_ai_report (analysis_results : list json)
    (source_type api_key model : pystr) : M pystr :=
  r <- try (reply <- create api_key (report_request analysis_results source_type model) ;;
            lift (stripped_content reply)) ;;
  match r with
  | inr report => ret report
  | inl e => ret (report_failure e)
  end.

(** *** 5. Medical information *)

Definition medical_request (allergen model : pystr) : request :=
  {| model := model;
     user_message := Text (medical_prompt allergen);
     temperature := 0.3;
     max_tokens := 1500 |}.

Definition get_medical_info_for_allergen (allergen api_key model : pystr) : M json :=
  r <- try (reply <- create api_key (medical_request allergen model) ;;
            content <- lift (stripped_content reply) ;;
            match Re.search content with
            | Some json_match => lift (json_loads json_match)
            | None => ret (error_dict (py "의학 정보 파싱 실패"))
            end) ;;
  match r with
  | inr v => ret v
  | inl e => ret (error_dict (py "의학 정보 생성 실패: " ++ exn_str e))
  end.

(** *** 6. PDF text *)

Definition extract_pdf_text (pdf : pdf_file) : pystr :=
  match read_pdf pdf with
  | inr text => text
  | inl e => py "PDF 읽기 오류: " ++ exn_str e
  end.

(** *** 7. The Streamlit script *)

Definition report_file_name : pystr :=
  py "AI_알레르기분석보고서_" ++ strftime_now (py "%Y%m%d_%H%M%S") ++ py ".txt".

(** The report area and the download button that close every tab. *)
Definition show_report (report area_key download_key : pystr) : M unit :=
  show st.markdown (py "### 📊 AI 종합 분석 보고서") ;;
  show (st.text_area area_key) report ;;
  show (st.download_button download_key report_file_name) report.

(** **** Sidebar *)

Definition show_medical_info (medical_info : json) (selected : pystr) : M unit :=
  name <- lift (Py.get medical_info (py "medical_name") (JStr selected)) ;;
  show st.markdown (py "### 🏥 " ++ fmt name) ;;
  prevalence <- lift (Py.get medical_info (py "prevalence") (JStr (py "정보 없음"))) ;;
  show st.info (py "**유병률**: " ++ fmt prevalence) ;;
  show st.expander (py "🔬 발생 기전") ;;
  mechanism <- lift (Py.get medical_info (py "mechanism") (JStr [])) ;;
  show st.write (fmt mechanism) ;;
  show st.expander (py "⚡ 증상") ;;
  symptoms <- lift (Py.get medical_info (py "symptoms") JNull) ;;
  (if Py.truthy symptoms then
     show st.write (py "**즉각적 증상**") ;;
     immediate <- lift (Py.get symptoms (py "immediate") (JList [])) ;;
     xs <- lift (Py.iter immediate) ;;
     for_each xs (fun s => show st.write (py "- " ++ fmt s)) ;;
     show st.write (py "**심각한 증상**") ;;
     severe <- lift (Py.get symptoms (py "severe") (JList [])) ;;
     ys <- lift (Py.iter severe) ;;
     for_each ys (fun s => show st.write (py "- 🚨 " ++ fmt s))
   else ret tt) ;;
  show st.expander (py "💊 치료 및 관리") ;;
  treatment <- lift (Py.get medical_info (py "treatment") JNull) ;;
  (if Py.truthy treatment then
     emergency <- lift (Py.get treatment (py "emergency") (JStr [])) ;;
     show st.error (py "**응급처치**: " ++ fmt emergency) ;;
     medication <- lift (Py.get treatment (py "medication") (JStr [])) ;;
     show st.warning (py "**약물**: " ++ fmt medication) ;;
     long_term <- lift (Py.get treatment (py "long_term") (JStr [])) ;;
     show st.success (py "**장기관리**: " ++ fmt long_term)
   else ret tt) ;;
  show st.expander (py "🏫 학교 관리 지침") ;;
  management <- lift (Py.get medical_info (py "school_management") JNull) ;;
  (if Py.truthy management then
     show st.write (py "**예방 조치**") ;;
     prevention <- lift (Py.get management (py "prevention") (JList [])) ;;
     ps <- lift (Py.iter prevention) ;;
     for_each ps (fun p => show st.write (py "✓ " ++ fmt p))
   else ret tt).

Definition sidebar (api_key : pystr) (s : session) : M unit :=
  show st.header (py "📚 알레르기 정보 센터") ;;
  show st.subheader (py "🔍 알레르기 상세 정보 조회") ;;
  (if get_medical_info s then
     show st.spinner (selected_allergen s ++ py " 정보를 가져오는 중...") ;;
     medical_info <- get_medical_info_for_allergen (selected_allergen s) api_key
                       default_model ;;
     has_error <- lift (Py.has (py "error") medical_info) ;;
     if negb has_error then show_medical_info medical_info (selected_allergen s)
     else
       e <- lift (Py.getitem medical_info (py "error")) ;;
       show st.error (fmt e)
   else ret tt) ;;
  show st.divider [] ;;
  show st.subheader (py "⚡ 응급 대응 가이드") ;;
  show st.error emergency_guide.

(** **** Tab 1: images *)

Definition risk_emoji (risk_level : json) : pystr :=
  if Py.eq_str risk_level (py "고도") then py "🔴"
  else if Py.eq_str risk_level (py "중등도") then py "🟡"
  else py "🟢".

Definition show_item_allergen (allergen : json) : M unit :=
  risk_level <- lift (Py.getitem allergen (py "risk_level")) ;;
  name <- lift (Py.getitem allergen (py "allergen")) ;;
  source <- lift (Py.getitem allergen (py "source")) ;;
  show st.write (risk_emoji risk_level ++ py " **" ++ fmt name ++ py "** (출처: "
                   ++ fmt source ++ py ")").

Definition show_menu_item (item : json) : M unit :=
  name <- lift (Py.getitem item (py "name")) ;;
  show st.markdown (py "### 🍽️ " ++ fmt name) ;;
  ingredients <- lift (Py.getitem item (py "ingredients")) ;;
  joined <- lift (Py.join_items (py ", ") ingredients) ;;
  show st.write (py "**재료**: " ++ joined) ;;
  allergens <- lift (Py.get item (py "allergens") JNull) ;;
  if Py.truthy allergens then
    n <- lift (Py.len allergens) ;;
    show st.warning (py "⚠️ 발견된 알레르기: " ++ str_of_nat n ++ py "개") ;;
    xs <- lift (Py.iter allergens) ;;
    for_each xs show_item_allergen
  else ret tt.

(** The expander shown for an image whose result has no ["error"]. *)
Definition show_image_result (i : nat) (result : json) : M unit :=
  show st.expander (py "📋 이미지 " ++ str_of_nat (i + 1) ++ py " 분석 결과") ;;
  has_items <- lift (Py.has (py "menu_items") result) ;;
  (if has_items then
     items <- lift (Py.getitem result (py "menu_items")) ;;
     xs <- lift (Py.iter items) ;;
     for_each xs show_menu_item
   else ret tt) ;;
  has_assessment <- lift (Py.has (py "overall_assessment") result) ;;
  if has_assessment then
    assessment <- lift (Py.getitem result (py "overall_assessment")) ;;
    high_risk <- lift (Py.get assessment (py "high_risk_items") JNull) ;;
    if Py.truthy high_risk then
      joined <- lift (Py.join_items (py ", ") high_risk) ;;
      show st.error (py "🚨 고위험 항목: " ++ joined)
    else ret tt
  else ret tt.

Definition image_failure (i : nat) (e : json) : pystr :=
  py "이미지 " ++ str_of_nat (i + 1) ++ py " 분석 실패: " ++ fmt e.

(** The loop over [enumerate(uploaded_images)], from index [i], with the
    [analysis_results] collected so far; [total] is [len(uploaded_images)]. *)
Fixpoint image_loop (api_key : pystr) (total i : nat) (images : list (list N))
    (analysis_results : list json) : M (list json) :=
  match images with
  | [] => ret analysis_results
  | image :: rest =>
    show st.status_text (py "이미지 " ++ str_of_nat (i + 1) ++ py "/" ++ str_of_nat total
                           ++ py " 분석 중...") ;;
    show st.spinner (py "AI가 이미지 " ++ str_of_nat (i + 1) ++ py "을 분석하고 있습니다...") ;;
    result <- analyze_food_image_with_ai image api_key default_model
                default_max_retries ;;
    has_error <- lift (Py.has (py "error") result) ;;
    if negb has_error then
      show_image_result i result ;;
      image_loop api_key total (S i) rest (analysis_results ++ [result])
    else
      e <- lift (Py.get result (py "error") (JStr (py "알 수 없는 오류"))) ;;
      show st.error (image_failure i e) ;;
      image_loop api_key total (S i) rest analysis_results
  end.

(** What the "analyze" button of the image tab does. *)
Definition analyze_images_handler (api_key : pystr) (images : list (list N)) : M unit :=
  analysis_results <- image_loop api_key (List.length images) 0 images [] ;;
  show st.status_text (py "분석 완료!") ;;
  match analysis_results with
  | [] => ret tt
  | _ :: _ =>
    show st.success (py "✅ " ++ str_of_nat (List.length analysis_results)
                       ++ py "개 이미지 분석 완료!") ;;
    show st.spinner (py "AI가 종합 보고서를 작성 중입니다...") ;;
    report <- generate_ai_report analysis_results (py "이미지 파일") api_key
                default_model ;;
    show_report report (py "image_report") (py "download_image_report")
  end.

Definition image_tab (api_key : pystr) (s : session) : M unit :=
  show st.subheader (py "급식 사진 AI 분석") ;;
  show st.info (py "급식 사진이나 식단표 이미지를 업로드하면 AI가 알레르기 위험을 상세히 분석합니다.") ;;
  match uploaded_images s with
  | [] => ret tt
  | _ :: _ =>
    for_each_from 0 (uploaded_images s)
      (fun i image =>
         lift (image_open image) ;;
         show st.image (py "이미지 " ++ str_of_nat (i + 1))) ;;
    if analyze_images s then analyze_images_handler api_key (uploaded_images s)
    else ret tt
  end.

(** **** Tab 2: text *)

Definition confidence_emoji (confidence : json) : pystr :=
  if Py.eq_str confidence (py "확실함") then py "✅"
  else if Py.eq_str confidence (py "가능성높음") then py "⚠️"
  else py "❓".

Definition risk_color (risk_level : json) : pystr :=
  if Py.eq_str risk_level (py "고도") then py "red"
  else if Py.eq_str risk_level (py "중등도") then py "orange"
  else py "green".

Definition show_menu_allergen (allergen : json) : M unit :=
  confidence <- lift (Py.getitem allergen (py "confidence")) ;;
  risk_level <- lift (Py.getitem allergen (py "risk_level")) ;;
  name <- lift (Py.getitem allergen (py "allergen")) ;;
  show st.markdown (confidence_emoji confidence ++ py " :" ++ risk_color risk_level
                      ++ py "[**" ++ fmt name ++ py "**] - " ++ fmt confidence) ;;
  source <- lift (Py.getitem allergen (py "source_ingredient")) ;;
  show st.write (py "   출처: " ++ fmt source ++ py " | 위험도: " ++ fmt risk_level) ;;
  notes <- lift (Py.get allergen (py "notes") JNull) ;;
  if Py.truthy notes then show st.info (py "   💡 " ++ fmt notes) else ret tt.

Definition show_menu (menu : json) : M unit :=
  name <- lift (Py.getitem menu (py "menu_name")) ;;
  show st.expander (py "📌 " ++ fmt name) ;;
  ingredients <- lift (Py.getitem menu (py "likely_ingredients")) ;;
  joined <- lift (Py.join_items (py ", ") ingredients) ;;
  show st.write (py "**추정 재료**: " ++ joined) ;;
  analysis <- lift (Py.get menu (py "allergen_analysis") JNull) ;;
  if Py.truthy analysis then
    xs <- lift (Py.iter analysis) ;;
    for_each xs show_menu_allergen
  else ret tt.

Definition show_summary (summary : json) : M unit :=
  found <- lift (Py.get summary (py "total_allergens_found") (JList [])) ;;
  n_found <- lift (Py.len found) ;;
  show (st.metric (py "발견된 알레르기")) (str_of_nat n_found) ;;
  score <- lift (Py.get summary (py "menu_safety_score") (JInt 0)) ;;
  show (st.metric (py "안전도 점수")) (fmt score ++ py "/10") ;;
  high <- lift (Py.get summary (py "high_confidence_allergens") (JList [])) ;;
  n_high <- lift (Py.len high) ;;
  show (st.metric (py "고위험 알레르기")) (str_of_nat n_high) ;;
  warnings <- lift (Py.get summary (py "special_warnings") JNull) ;;
  if Py.truthy warnings then
    show st.error (py "⚠️ **특별 주의사항**") ;;
    ws <- lift (Py.iter warnings) ;;
    for_each ws (fun w => show st.write (py "- " ++ fmt w))
  else ret tt.

Definition show_text_result (result : json) : M unit :=
  has_menus <- lift (Py.has (py "identified_menus") result) ;;
  (if has_menus then
     show st.markdown (py "### 🍽️ 메뉴별 분석 결과") ;;
     menus <- lift (Py.getitem result (py "identified_menus")) ;;
     ms <- lift (Py.iter menus) ;;
     for_each ms show_menu
   else ret tt) ;;
  has_summary <- lift (Py.has (py "summary") result) ;;
  if has_summary then
    summary <- lift (Py.getitem result (py "summary")) ;;
    show_summary summary
  else ret tt.

Definition analysis_failure (e : json) : pystr := py "분석 실패: " ++ fmt e.

Definition analyze_text_handler (api_key text : pystr) : M unit :=
  match strip text with
  | [] => show st.warning (py "분석할 텍스트를 입력해주세요.")
  | _ :: _ =>
    show st.spinner (py "AI가 메뉴를 분석하고 있습니다...") ;;
    result <- analyze_text_with_ai text api_key default_model default_max_retries ;;
    has_error <- lift (Py.has (py "error") result) ;;
    if negb has_error then
      show st.success (py "✅ 분석 완료!") ;;
      show_text_result result ;;
      show st.spinner (py "AI가 상세 보고서를 작성 중입니다...") ;;
      report <- generate_ai_report [result] (py "텍스트 입력") api_key default_model ;;
      show_report report (py "text_report_area") (py "download_text_report")
    else
      e <- lift (Py.get result (py "error") (JStr (py "알 수 없는 오류"))) ;;
      show st.error (analysis_failure e)
  end.

Definition text_tab (api_key : pystr) (s : session) : M unit :=
  show st.subheader (py "급식 메뉴 텍스트 AI 분석") ;;
  show st.info (py "급식 메뉴나 식단을 입력하면 AI가 알레르기 위험을 분석합니다.") ;;
  if analyze_text s then analyze_text_handler api_key (text_input s) else ret tt.

(** **** Tab 3: Excel *)

(** One row of [allergen_data] for every allergen of every menu; the six
    values of a row in the order of the source. *)
Definition allergen_row (menu allergen : json) : M (list json) :=
  name <- lift (Py.getitem menu (py "menu_name")) ;;
  a <- lift (Py.getitem allergen (py "allergen")) ;;
  confidence <- lift (Py.getitem allergen (py "confidence")) ;;
  risk_level <- lift (Py.getitem allergen (py "risk_level")) ;;
  source <- lift (Py.getitem allergen (py "source_ingredient")) ;;
  notes <- lift (Py.get allergen (py "notes") (JStr [])) ;;
  ret [name; a; confidence; risk_level; source; notes].

Fixpoint menu_rows (menu : json) (allergens : list json) (allergen_data : list (list json))
    : M (list (list json)) :=
  match allergens with
  | [] => ret allergen_data
  | allergen :: rest =>
    row <- allergen_row menu allergen ;;
    menu_rows menu rest (allergen_data ++ [row])
  end.

Fixpoint all_rows (menus : list json) (allergen_data : list (list json))
    : M (list (list json)) :=
  match menus with
  | [] => ret allergen_data
  | menu :: rest =>
    analysis <- lift (Py.get menu (py "allergen_analysis") (JList [])) ;;
    allergens <- lift (Py.iter analysis) ;;
    allergen_data' <- menu_rows menu allergens allergen_data ;;
    all_rows rest allergen_data'
  end.

(** The styled table itself is not recorded. *)
Definition show_excel_result (result : json) : M unit :=
  has_menus <- lift (Py.has (py "identified_menus") result) ;;
  if has_menus then
    menus <- lift (Py.getitem result (py "identified_menus")) ;;
    ms <- lift (Py.iter menus) ;;
    allergen_data <- all_rows ms [] ;;
    match allergen_data with
    | [] => ret tt
    | _ :: _ =>
      show st.markdown (py "### 🔍 알레르기 분석 결과") ;;
      show st.dataframe []
    end
  else ret tt.

Definition analyze_excel_handler (api_key : pystr) (df : dataframe) : M unit :=
  show st.spinner (py "AI가 Excel 데이터를 분석하고 있습니다...") ;;
  result <- analyze_text_with_ai (all_text df) api_key default_model
              default_max_retries ;;
  has_error <- lift (Py.has (py "error") result) ;;
  if negb has_error then
    show st.success (py "✅ 분석 완료!") ;;
    show_excel_result result ;;
    show st.spinner (py "AI가 종합 보고서를 작성 중입니다...") ;;
    report <- generate_ai_report [result] (py "Excel 파일") api_key default_model ;;
    show_report report (py "excel_report_area") (py "download_excel_report")
  else
    e <- lift (Py.get result (py "error") (JStr (py "알 수 없는 오류"))) ;;
    show st.error (analysis_failure e).

(** The whole tab body is one [try]; [except Exception] shows whatever was
    raised under it as a read error. *)
Definition excel_tab (api_key : pystr) (s : session) : M unit :=
  show st.subheader (py "Excel 식단표 AI 분석") ;;
  show st.info (py "Excel 형식의 급식 식단표를 업로드하면 AI가 전체 내용을 분석합니다.") ;;
  match uploaded_excel s with
  | None => ret tt
  | Some read_excel =>
    r <- try (df <- lift read_excel ;;
              show st.write (py "📊 Excel 데이터 미리보기:") ;;
              show st.dataframe [] ;;
              if analyze_excel s then analyze_excel_handler api_key df else ret tt) ;;
    match r with
    | inr _ => ret tt
    | inl e => show st.error (py "Excel 파일 읽기 오류: " ++ exn_str e)
    end
  end.

(** **** Tab 4: PDF *)

Definition show_pdf_result (result : json) : M unit :=
  has_summary <- lift (Py.has (py "summary") result) ;;
  if has_summary then
    summary <- lift (Py.getitem result (py "summary")) ;;
    found <- lift (Py.get summary (py "total_allergens_found") JNull) ;;
    (if Py.truthy found then
       joined <- lift (Py.join_items (py ", ") found) ;;
       show st.warning (py "⚠️ 발견된 알레르기: " ++ joined)
     else ret tt) ;;
    warnings <- lift (Py.get summary (py "special_warnings") JNull) ;;
    if Py.truthy warnings then
      ws <- lift (Py.iter warnings) ;;
      for_each ws (fun w => show st.error (py "🚨 " ++ fmt w))
    else ret tt
  else ret tt.

(** What the "analyze" button of the PDF tab does. *)
Definition analyze_pdf_handler (api_key : pystr) (pdf : pdf_file) : M unit :=
  show st.spinner (py "PDF에서 텍스트를 추출하고 있습니다...") ;;
  let pdf_text := extract_pdf_text pdf in
  if negb (contains (py "오류") pdf_text) then
    show st.write (py "📄 추출된 텍스트 미리보기:") ;;
    show (st.text_area (py "pdf_preview")) (firstn 1000 pdf_text ++ py "...") ;;
    show st.spinner (py "AI가 내용을 분석하고 있습니다...") ;;
    result <- analyze_text_with_ai pdf_text api_key default_model default_max_retries ;;
    has_error <- lift (Py.has (py "error") result) ;;
    if negb has_error then
      show st.success (py "✅ 분석 완료!") ;;
      show_pdf_result result ;;
      show st.spinner (py "AI가 종합 보고서를 작성 중입니다...") ;;
      report <- generate_ai_report [result] (py "PDF 파일") api_key default_model ;;
      show_report report (py "pdf_report_area") (py "download_pdf_report")
    else
      e <- lift (Py.get result (py "error") (JStr (py "알 수 없는 오류"))) ;;
      show st.error (analysis_failure e)
  else show st.error pdf_text.

Definition pdf_tab (api_key : pystr) (s : session) : M unit :=
  show st.subheader (py "PDF 식단표 AI 분석") ;;
  show st.info (py "PDF 형식의 급식 식단표를 업로드하면 AI가 내용을 추출하여 분석합니다.") ;;
  match uploaded_pdf s with
  | None => ret tt
  | Some pdf => if analyze_pdf s then analyze_pdf_handler api_key pdf else ret tt
  end.

(** **** The script from top to bottom *)

Definition page_head : M unit :=
  show st.set_page_config (py "🍽️ AI 학교 급식 알레르기 분석 시스템") ;;
  show st.title (py "🍽️ AI 기반 학교 급식 알레르기 분석 시스템") ;;
  show st.markdown (py "인공지능이 급식 메뉴의 알레르기 위험을 상세히 분석하고 종합 보고서를 생성합니다.").

Definition missing_key_message : pystr :=
  py "⚠️ OpenAI API 키가 설정되지 않았습니다. Streamlit secrets에 OPENAI_API_KEY를 추가해주세요.".

Definition page_foot : M unit :=
  show st.markdown (py "---") ;;
  show st.expander (py "📋 시스템 사용 안내") ;;
  show st.markdown usage_guide ;;
  show st.markdown extra_style.

(** [st.stop()] ends the run: what the script has below it is not reached.
    The membership test is the script's first use of [st.secrets]. *)
Definition app (s : session) : M unit :=
  page_head ;;
  has_key <- lift (Secrets.contains (py "OPENAI_API_KEY") (secrets s)) ;;
  if negb has_key then show st.error missing_key_message ;; emit Stop
  else
    api_key <- lift (Secrets.getitem (secrets s) (py "OPENAI_API_KEY")) ;;
    sidebar api_key s ;;
    image_tab api_key s ;;
    text_tab api_key s ;;
    excel_tab api_key s ;;
    pdf_tab api_key s ;;
    page_foot.

End Program.

(** * Vocabulary of the properties *)

(** A [{] with a [}] somewhere after it. *)
Definition has_span (s : pystr) : Prop :=
  exists a b c, s = a ++ lbrace :: b ++ rbrace :: c.

(** The calls [n], [n+1], ..., [n+count-1] of the run, made with [req], all
    fail with a transient error. *)
Definition transient_calls (openai : pystr -> nat -> request -> result (option pystr))
    (api_key : pystr) (req : request) (n count : nat) : Prop :=
  forall k, (k < count)%nat ->
    exists e, openai api_key (n + k)%nat req = inl e /\ is_transient e = true.

(** [count] failed attempts, numbered from [i], each followed by its sleep,
    and one more attempt. *)
Definition retry_trace_from (api_key : pystr) (req : request) (i count : nat) : list event :=
  flat_map (fun j => [ApiCall api_key req; Sleep (2 ^ Z.of_nat j)]) (seq i count)
    ++ [ApiCall api_key req].

Definition retry_trace (api_key : pystr) (req : request) (count : nat) : list event :=
  retry_trace_from api_key req 0 count.

(** [1; 2; 4; ...]: the first [count] powers of two. *)
Definition backoff (count : nat) : list Z := map (fun j => 2 ^ Z.of_nat j)%Z (seq 0 count).

(** * Concrete surroundings for the examples *)

Module Sample.

Definition api_key : pystr := py "sk-test".

(** An answer that lists one menu item without a name. *)
Definition unnamed_item : pystr := py "{" ++ q "menu_items" ++ py ": [{}]}".

(** A decoder that knows the two texts the examples decode. *)
Definition json_loads (s : pystr) : result json :=
  if str_eqb s (py "{}") then inr (JDict [])
  else if str_eqb s unnamed_item
       then inr (JDict [(py "menu_items", JList [JDict []])])
       else inl (Exn JSONDecodeError s).

Definition json_dumps (v : json) : pystr :=
  match v with
  | JList [] => py "[]"
  | JList [JDict []] => join newline [py "["; py "  {}"; py "]"]
  | _ => py "[...]"
  end.

Definition py_repr (v : json) : pystr :=
  match v with
  | JNull => py "None"
  | JBool true => py "True"
  | JBool false => py "False"
  | _ => py "..."
  end.

(** The message is what the exception was raised about. *)
Definition exn_str (e : exn) : pystr := let (_, about) := e in about.

Definition strftime_now (fmt : pystr) : pystr :=
  if str_eqb fmt (py "%Y%m%d_%H%M%S") then py "20250302_090000"
  else py "2025년 03월 02일 09시 00분".

(** A service that is rate-limited, then unreachable, then answers with an
    empty object wrapped in prose. *)
Definition flaky (_ : pystr) (n : nat) (_ : request) : result (option pystr) :=
  match n with
  | 0%nat => inl (Exn RateLimitError (py "429"))
  | 1%nat => inl (Exn APIConnectionError (py "connection reset"))
  | _ => inr (Some (py "  결과입니다: {} 이상입니다.  "))
  end.

(** A service that cannot be reached. *)
Definition down (_ : pystr) (_ : nat) (_ : request) : result (option pystr) :=
  inl (Exn APIConnectionError (py "unreachable")).

(** A service that always gives the same answer. *)
Definition says (reply : pystr) (_ : pystr) (_ : nat) (_ : request) : result (option pystr) :=
  inr (Some reply).

(** A service that answers the first call with an empty object and rejects
    every later one (a bad request, say), which is not a transient failure. *)
Definition rejects_after_first (_ : pystr) (n : nat) (_ : request) : result (option pystr) :=
  match n with
  | 0%nat => inr (Some (py "{}"))
  | _ => inl (Exn OtherException (py "400 invalid image"))
  end.

(** A service that answers the first call with an empty object, cannot be
    reached for the next three, and then writes a report. *)
Definition recovers_for_report (_ : pystr) (n : nat) (_ : request)
    : result (option pystr) :=
  match n with
  | 0%nat => inr (Some (py "{}"))
  | 1%nat | 2%nat | 3%nat => inl (Exn APIConnectionError (py "unreachable"))
  | _ => inr (Some (py " 종합 보고서 "))
  end.

(** A picture of one white pixel, as a PNG file. *)
Definition png : list N :=
  [ 137; 80; 78; 71; 13; 10; 26; 10;
    0; 0; 0; 13; 73; 72; 68; 82; 0; 0; 0; 1; 0; 0; 0; 1; 8; 0; 0; 0; 0;
    58; 126; 155; 85;
    0; 0; 0; 10; 73; 68; 65; 84; 120; 218; 99; 248; 15; 0; 1; 1; 1; 0;
    28; 176; 140; 153;
    0; 0; 0; 0; 73; 69; 78; 68; 174; 66; 96; 130 ]%N.

(** A decoder that knows the one picture the examples upload. *)
Definition image_open (bytes : list N) : result unit :=
  if str_eqb bytes png then inr tt
  else inl (Exn OtherException (py "cannot identify image file")).

(** No secrets file: reading the secrets raises a [FileNotFoundError]. *)
Definition no_secrets_file : secrets_file :=
  inl (Exn OtherException (py "No secrets files found.")).

(** A secrets file with other entries than the key. *)
Definition secrets_without_key : secrets_file :=
  inr [(py "DB_PASSWORD", py "1234")].

Definition secrets_with_key : secrets_file :=
  inr [(py "OPENAI_API_KEY", api_key)].

(** A run in which everything is uploaded and every button is pressed. *)
Definition busy_session (secrets : secrets_file) : session :=
  {| secrets := secrets;
     selected_allergen := py "땅콩";
     get_medical_info := true;
     uploaded_images := [png];
     analyze_images := true;
     text_input := py "쌀밥, 된장찌개(두부), 우유";
     analyze_text := true;
     uploaded_excel := Some (inr [ {| label := py "메뉴"; col_dtype := object;
                                      cells := [Str (py "쌀밥"); NA] |} ]);
     analyze_excel := true;
     uploaded_pdf := Some (inr [inr (py "3월 식단표")]);
     analyze_pdf := true |}.

End Sample.

(** ** The text of a spreadsheet, column by column *)









(** The table of the example: a text column and a numeric one.  [gap] is
    the middle cell of the text column; [pd.read_excel] loads the empty
    string there as [NA]. *)
Definition lunch_table (gap : cell) : dataframe :=
  [ {| label := py "메뉴"; col_dtype := object;
       cells := [Str (py "쌀밥"); gap; Str (py "김치")] |};
    {| label := py "열량"; col_dtype := int64;
       cells := [Obj (py "300"); Obj (py "0"); Obj (py "15")] |} ].

(** ** The key *)

(** The key the configuration holds: none when there is no secrets file to
    read, and none when the secrets have no entry for it. *)
Definition configured_key (secrets : secrets_file) : option pystr :=
  match secrets with
  | inl _ => None
  | inr fields => Secrets.lookup (py "OPENAI_API_KEY") fields
  end.

(** ** Reading a trace *)

Definition is_show (ev : event) : bool :=
  match ev with Show _ _ => true | _ => false end.

(** A call whose message is a plain text: the report and the text analysis
    send one, the image analysis does not. *)
Definition sends_text (ev : event) : bool :=
  match ev with
  | ApiCall _ req => match user_message req with Text _ => true | _ => false end
  | _ => false
  end.

(** A computation that only shows things. *)
Definition quiet {A} (m : M A) : Prop := forall n, Forall (fun ev => is_show ev = true) (snd (m n)).

(** What [generate_ai_report] returns, by what its call gets. *)
Definition report_of (exn_str : exn -> pystr) (answer : result (option pystr)) : pystr :=
  match answer with
  | inr (Some reply) => strip reply
  | inr None => report_failure exn_str (Exn AttributeError (py "strip"))
  | inl e => report_failure exn_str e
  end.

(** A result counts as a success when it has no ["error"]. *)
Definition succeeded (result : json) : bool :=
  match Py.has (py "error") result with
  | inr false => true
  | _ => false
  end.

(** The results of analysing the images one after the other, the first
    analysis starting as call number [n] of the run; an exception when one of
    the analyses raises. *)
Fixpoint analyses (openai : pystr -> nat -> request -> result (option pystr))
    (json_loads : pystr -> result json) (api_key : pystr) (images : list (list N))
    (n : nat) : result (list json) :=
  match images with
  | [] => inr []
  | image :: rest =>
    let run := analyze_food_image_with_ai openai json_loads image api_key default_model
                 default_max_retries n in
    match fst run with
    | inl e => inl e
    | inr v =>
      match analyses openai json_loads api_key rest (n + ncalls (snd run)) with
      | inl e => inl e
      | inr vs => inr (v :: vs)
      end
    end
  end.

(** ** Properties of whole runs *)

(** Every event a computation leaves satisfies [P]. *)
Definition always {A} (P : event -> Prop) (m : M A) : Prop :=
  forall n, Forall P (snd (m n)).

(** A computation that returns, whatever came before it. *)
Definition returns {A} (m : M A) : Prop := forall n, exists a, fst (m n) = inr a.

(** What the script may do to the outside when the secrets hold [key]: call
    the service with that key and the default model, and sleep for one or
    for two seconds. *)
Definition within_limits (key : option pystr) (ev : event) : Prop :=
  match ev with
  | ApiCall k req => key = Some k /\ model req = default_model
  | Sleep seconds => seconds = 1%Z \/ seconds = 2%Z
  | Show _ _ => True
  | Stop => True
  end.

(** No button is pressed. *)
Definition idle (s : session) : Prop :=
  get_medical_info s = false /\ analyze_images s = false /\ analyze_text s = false /\
  analyze_excel s = false /\ analyze_pdf s = false.

(** The seconds slept in all. *)
Definition total_sleep (t : list event) : Z := fold_right Z.add 0%Z (sleeps t).

(** ** More surroundings for the examples *)

Module Scenario.

(** A service that is rate-limited once and then refuses the key. *)
Definition throttled_then_refused (_ : pystr) (n : nat) (_ : request)
    : result (option pystr) :=
  match n with
  | 0%nat => inl (Exn RateLimitError (py "429"))
  | _ => inl (Exn OtherException (py "401 invalid api key"))
  end.

(** A service whose answers have no content. *)
Definition silent (_ : pystr) (_ : nat) (_ : request) : result (option pystr) :=
  inr None.

(** Everything is uploaded and typed, and no button is pressed. *)
Definition idle_session : session :=
  let s := Sample.busy_session Sample.secrets_with_key in
  {| secrets := secrets s;
     selected_allergen := selected_allergen s;
     get_medical_info := false;
     uploaded_images := uploaded_images s;
     analyze_images := false;
     text_input := text_input s;
     analyze_text := false;
     uploaded_excel := uploaded_excel s;
     analyze_excel := false;
     uploaded_pdf := uploaded_pdf s;
     analyze_pdf := false |}.

(** A PDF whose second page cannot be read. *)
Definition broken_pdf : pdf_file :=
  inr [inr (py "3월 식단표"); inl (Exn OtherException (py "broken stream"))].

(** A table of numbers only. *)
Definition calorie_table : dataframe :=
  [ {| label := py "열량"; col_dtype := int64;
       cells := [Obj (py "300"); Obj (py "0"); Obj (py "15")] |} ].

End Scenario.

(** * The model on concrete inputs *)

Example strip_removes_unicode_blanks :
  strip (py "　 {a} " ++ newline ++ [9%N]) = py "{a}".
Proof. vm_compute. reflexivity. Qed.

Example search_is_greedy : Re.search (py "ab {x} y } z") = Some (py "{x} y }").
Proof. vm_compute. reflexivity. Qed.

Example search_needs_the_brace_order : Re.search (py "} no {") = None.
Proof. vm_compute. reflexivity. Qed.

Example b64encode_Man : Base64.b64encode [77; 97; 110]%N = py "TWFu".
Proof. vm_compute. reflexivity. Qed.

Example b64encode_pads : Base64.b64encode [77]%N = py "TQ==".
Proof. vm_compute. reflexivity. Qed.

Example error_text_has_the_error_word :
  contains (py "오류") (extract_pdf_text Sample.exn_str (inl (Exn OtherException (py "EOF"))))
  = true.
Proof. vm_compute. reflexivity. Qed.

(** * Facts about text *)

Lemma lstrip_suffix (s : pystr) : exists a, s = a ++ lstrip s.
Proof.
  induction s as [|c t [a Ha]]; simpl.
  - exists []. reflexivity.
  - destruct (isspace c).
    + exists (c :: a). simpl. f_equal. exact Ha.
    + exists []. reflexivity.
Qed.

Lemma lstrip_keeps (pre : pystr) (c : codepoint) (rest : pystr) :
  isspace c = false -> lstrip (pre ++ c :: rest) = lstrip pre ++ c :: rest.
Proof.
  intros Hc. induction pre as [|p pre IH]; simpl.
  - rewrite Hc. reflexivity.
  - destruct (isspace p); [exact IH | reflexivity].
Qed.

Lemma rstrip_keeps (pre : pystr) (c : codepoint) (post : pystr) :
  isspace c = false -> rstrip (pre ++ c :: post) = pre ++ c :: rstrip post.
Proof.
  intros Hc. unfold rstrip.
  rewrite rev_app_distr. simpl. rewrite <- app_assoc. simpl.
  rewrite (lstrip_keeps _ _ _ Hc), rev_app_distr. simpl.
  rewrite rev_involutive, <- app_assoc. reflexivity.
Qed.

Lemma rstrip_prefix (s : pystr) : exists b, s = rstrip s ++ b.
Proof.
  unfold rstrip. destruct (lstrip_suffix (rev s)) as [a Ha].
  exists (rev a). rewrite <- rev_app_distr, <- Ha, rev_involutive. reflexivity.
Qed.

(** [strip] only removes characters at the two ends. *)
Lemma strip_inside (s : pystr) : exists a b, s = a ++ strip s ++ b.
Proof.
  unfold strip. destruct (lstrip_suffix s) as [a Ha].
  destruct (rstrip_prefix (lstrip s)) as [b Hb].
  exists a, b. rewrite <- Hb. exact Ha.
Qed.

(** Text between two characters that are not whitespace survives [strip]. *)
Lemma strip_between (pre : pystr) (c1 : codepoint) (mid : pystr) (c2 : codepoint) (post : pystr) :
  isspace c1 = false -> isspace c2 = false ->
  strip (pre ++ c1 :: mid ++ c2 :: post) = lstrip pre ++ c1 :: mid ++ c2 :: rstrip post.
Proof.
  intros H1 H2. unfold strip. rewrite (lstrip_keeps _ _ _ H1).
  replace (lstrip pre ++ c1 :: mid ++ c2 :: post)
    with ((lstrip pre ++ c1 :: mid) ++ c2 :: post) by (rewrite <- app_assoc; reflexivity).
  rewrite (rstrip_keeps _ _ _ H2), <- app_assoc. reflexivity.
Qed.

Lemma not_in_lstrip (x : codepoint) (s : pystr) : ~ In x s -> ~ In x (lstrip s).
Proof.
  destruct (lstrip_suffix s) as [a Ha]. intros H Hin. apply H.
  rewrite Ha. apply in_or_app. right. exact Hin.
Qed.

Lemma not_in_rstrip (x : codepoint) (s : pystr) : ~ In x s -> ~ In x (rstrip s).
Proof.
  destruct (rstrip_prefix s) as [b Hb]. intros H Hin. apply H.
  rewrite Hb. apply in_or_app. left. exact Hin.
Qed.

(** The first and the last occurrence of a character. *)
Lemma split_first (x : codepoint) (s : pystr) :
  In x s -> exists pre post, s = pre ++ x :: post /\ ~ In x pre.
Proof.
  induction s as [|c t IH]; intros Hin; [destruct Hin|].
  destruct (N.eq_dec c x) as [->|Hne].
  - exists [], t. split; [reflexivity | intros []].
  - destruct Hin as [E|Hin]; [contradiction|].
    destruct (IH Hin) as (pre & post & -> & Hpre).
    exists (c :: pre), post. split; [reflexivity|].
    intros [E|H]; [contradiction | exact (Hpre H)].
Qed.

Lemma split_last (x : codepoint) (s : pystr) :
  In x s -> exists pre post, s = pre ++ x :: post /\ ~ In x post.
Proof.
  intros Hin. apply in_rev in Hin.
  destruct (split_first _ _ Hin) as (pre & post & E & Hpre).
  exists (rev post), (rev pre). split.
  - rewrite <- (rev_involutive s), E, rev_app_distr. simpl.
    rewrite <- app_assoc. reflexivity.
  - intros H. apply Hpre. apply in_rev. exact H.
Qed.

(** * The regular expression *)

Lemma dotstar_rbrace_none (s : pystr) : ~ In rbrace s -> Re.dotstar_rbrace s = None.
Proof.
  induction s as [|c t IH]; intros H; simpl; [reflexivity|].
  rewrite IH by (intros Hin; apply H; right; exact Hin).
  destruct (N.eqb_spec c rbrace) as [->|]; [|reflexivity].
  exfalso. apply H. left. reflexivity.
Qed.

Lemma dotstar_rbrace_last (mid post : pystr) :
  ~ In rbrace post -> Re.dotstar_rbrace (mid ++ rbrace :: post) = Some (mid ++ [rbrace]).
Proof.
  intros H. induction mid as [|c mid IH]; simpl.
  - rewrite (dotstar_rbrace_none _ H). reflexivity.
  - rewrite IH. reflexivity.
Qed.

Lemma dotstar_rbrace_some (s m : pystr) :
  Re.dotstar_rbrace s = Some m ->
  exists mid post, s = mid ++ rbrace :: post /\ m = mid ++ [rbrace] /\ ~ In rbrace post.
Proof.
  revert m. induction s as [|c t IH]; intros m; simpl; [discriminate|].
  destruct (Re.dotstar_rbrace t) as [m'|] eqn:E.
  - intros [= <-]. destruct (IH m' eq_refl) as (mid & post & -> & -> & Hpost).
    exists (c :: mid), post. repeat split; assumption.
  - destruct (N.eqb_spec c rbrace) as [->|]; [|discriminate].
    intros [= <-]. exists [], t. repeat split.
    intros Hin. destruct (split_last _ _ Hin) as (a & b & -> & Hb).
    rewrite (dotstar_rbrace_last _ _ Hb) in E. discriminate.
Qed.

(** [re.search] returns the text from the first [{] through the last [}]. *)
Lemma search_span (pre mid post : pystr) :
  ~ In lbrace pre -> ~ In rbrace post ->
  Re.search (pre ++ lbrace :: mid ++ rbrace :: post) = Some (lbrace :: mid ++ [rbrace]).
Proof.
  intros Hpre Hpost. induction pre as [|c pre IH]; simpl.
  - rewrite (dotstar_rbrace_last _ _ Hpost). reflexivity.
  - destruct (N.eqb_spec c lbrace) as [->|Hne].
    + exfalso. apply Hpre. left. reflexivity.
    + apply IH. intros Hin. apply Hpre. right. exact Hin.
Qed.

Lemma has_span_first_last (s : pystr) :
  has_span s ->
  exists pre mid post,
    s = pre ++ lbrace :: mid ++ rbrace :: post /\ ~ In lbrace pre /\ ~ In rbrace post.
Proof.
  intros (a & b & c & ->).
  assert (Hl : In lbrace (a ++ lbrace :: b ++ rbrace :: c))
    by (apply in_or_app; right; left; reflexivity).
  destruct (split_first _ _ Hl) as (pre & rest & E & Hpre).
  assert (Hr : In rbrace rest).
  { assert (H : In rbrace (pre ++ lbrace :: rest)).
    { rewrite <- E. apply in_or_app. right. right. apply in_or_app. right. left. reflexivity. }
    apply in_app_or in H. destruct H as [H|[H|H]]; [| discriminate H | exact H].
    (* the [}] lies before the first [{]: then it is in [a], before the [{] of [a ++ ...] *)
    clear Hl. revert a E H. induction pre as [|p pre IH]; intros a E H; [destruct H|].
    destruct a as [|a0 a]; simpl in E.
    - injection E as E1 E2. exfalso. apply Hpre. left. symmetry. exact E1.
    - injection E as E1 E2. subst a0.
      assert (Hpre' : ~ In lbrace pre) by (intros Hin; apply Hpre; right; exact Hin).
      destruct H as [H|H].
      + subst p. (* the tail still holds the later [}] *)
        assert (Hin : In rbrace (pre ++ lbrace :: rest)).
        { rewrite <- E2. apply in_or_app. right. right. apply in_or_app. right. left. reflexivity. }
        apply in_app_or in Hin. destruct Hin as [Hin|[Hin|Hin]]; [| discriminate Hin | exact Hin].
        exact (IH Hpre' a E2 Hin).
      + exact (IH Hpre' a E2 H). }
  destruct (split_last _ _ Hr) as (mid & post & -> & Hpost).
  exists pre, mid, post. repeat split; assumption.
Qed.

Lemma search_none_iff (s : pystr) : Re.search s = None <-> ~ has_span s.
Proof.
  split.
  - intros E H. destruct (has_span_first_last _ H) as (pre & mid & post & -> & Hpre & Hpost).
    rewrite (search_span _ _ _ Hpre Hpost) in E. discriminate.
  - intros H. destruct (Re.search s) as [m|] eqn:E; [|reflexivity].
    exfalso. apply H. clear H. revert m E.
    induction s as [|c t IH]; intros m; simpl; [discriminate|].
    destruct (N.eqb_spec c lbrace) as [->|Hne].
    + destruct (Re.dotstar_rbrace t) as [m'|] eqn:Em; simpl.
      * intros _. destruct (dotstar_rbrace_some _ _ Em) as (mid & post & -> & _ & _).
        exists [], mid, post. reflexivity.
      * intros E. destruct (IH _ E) as (a & b & c & ->).
        exists (lbrace :: a), b, c. reflexivity.
    + intros E. destruct (IH _ E) as (a & b & c' & ->).
      exists (c :: a), b, c'. reflexivity.
Qed.

Lemma has_span_strip (s : pystr) : has_span (strip s) <-> has_span s.
Proof.
  split.
  - intros (a & b & c & E). destruct (strip_inside s) as (x & y & Hs).
    exists (x ++ a), b, (c ++ y). rewrite Hs at 1. rewrite E.
    repeat (rewrite <- ?app_assoc; simpl). reflexivity.
  - intros (a & b & c & ->). rewrite strip_between by reflexivity.
    exists (lstrip a), b, (rstrip c). reflexivity.
Qed.

(** * The retry loop *)

Lemma ncalls_app (t1 t2 : list event) : ncalls (t1 ++ t2) = (ncalls t1 + ncalls t2)%nat.
Proof. unfold ncalls, api_calls. rewrite filter_app, length_app. reflexivity. Qed.

Lemma sleeps_app (t1 t2 : list event) : sleeps (t1 ++ t2) = sleeps t1 ++ sleeps t2.
Proof.
  induction t1 as [|e t1 IH]; simpl; [reflexivity|].
  destruct e; simpl; rewrite IH; reflexivity.
Qed.

Lemma ncalls_retry_trace_from (api_key : pystr) (req : request) (i count : nat) :
  ncalls (retry_trace_from api_key req i count) = (count + 1)%nat.
Proof.
  unfold retry_trace_from. revert i. induction count as [|c IH]; intros i; simpl.
  - reflexivity.
  - unfold ncalls in *. simpl. rewrite IH. reflexivity.
Qed.

Lemma sleeps_retry_trace_from (api_key : pystr) (req : request) (i count : nat) :
  sleeps (retry_trace_from api_key req i count)
  = map (fun j => 2 ^ Z.of_nat j)%Z (seq i count).
Proof.
  unfold retry_trace_from. revert i. induction count as [|c IH]; intros i; simpl.
  - reflexivity.
  - rewrite IH. reflexivity.
Qed.

Section Retry.

Variable openai : pystr -> nat -> request -> result (option pystr).
Variable api_key : pystr.
Variable req : request.
Variable max_retries : Z.

(** One turn of the loop, by what the service answers. *)
Lemma retry_loop_break (i : Z) (rest : list Z) (n : nat) (reply : option pystr) :
  openai api_key n req = inr reply ->
  retry_loop openai api_key req max_retries (i :: rest) n
  = (inr (Break reply), [ApiCall api_key req]).
Proof.
  intros E. simpl. unfold bind, try, create. rewrite E. reflexivity.
Qed.

Lemma retry_loop_last (rest : list Z) (n : nat) (e : exn) :
  openai api_key n req = inl e -> is_transient e = true ->
  retry_loop openai api_key req max_retries (max_retries :: rest) n
  = (inr (Return (error_dict (py "API 호출 실패"))), [ApiCall api_key req]).
Proof.
  intros E T. simpl. unfold bind, try, create. rewrite E. simpl. rewrite T, Z.eqb_refl.
  reflexivity.
Qed.

Lemma retry_loop_again (i : Z) (rest : list Z) (n : nat) (e : exn) :
  openai api_key n req = inl e -> is_transient e = true -> i <> max_retries ->
  retry_loop openai api_key req max_retries (i :: rest) n
  = (fst (retry_loop openai api_key req max_retries rest (S n)),
     ApiCall api_key req :: Sleep (2 ^ i)
       :: snd (retry_loop openai api_key req max_retries rest (S n))).
Proof.
  intros E T Hi. simpl. unfold bind at 1. unfold try, create. rewrite E. simpl.
  rewrite T. destruct (Z.eqb_spec i max_retries) as [|_]; [contradiction|].
  unfold bind, sleep, emit. simpl.
  replace (n + ncalls _ + ncalls _)%nat with (S n) by (unfold ncalls; simpl; lia).
  destruct (retry_loop openai api_key req max_retries rest (S n)) as [r t].
  reflexivity.
Qed.

Lemma retry_loop_raise (i : Z) (rest : list Z) (n : nat) (e : exn) :
  openai api_key n req = inl e -> is_transient e = false ->
  retry_loop openai api_key req max_retries (i :: rest) n = (inl e, [ApiCall api_key req]).
Proof.
  intros E T. simpl. unfold bind, try, create. rewrite E. simpl. rewrite T. reflexivity.
Qed.

(** [count] transient failures, then an answer, with attempts to spare. *)
Lemma retry_loop_recovers (count : nat) :
  forall (i len n : nat) (reply : option pystr),
  (Z.of_nat (i + len) = max_retries + 1)%Z -> (count < len)%nat ->
  transient_calls openai api_key req n count ->
  openai api_key (n + count)%nat req = inr reply ->
  retry_loop openai api_key req max_retries (map Z.of_nat (seq i len)) n
  = (inr (Break reply), retry_trace_from api_key req i count).
Proof.
  induction count as [|c IH]; intros i len n reply Hlen Hc Hfail Hok.
  - destruct len as [|len]; [lia|]. simpl seq. simpl map.
    rewrite Nat.add_0_r in Hok. rewrite (retry_loop_break _ _ _ _ Hok). reflexivity.
  - destruct len as [|len]; [lia|]. simpl seq. simpl map.
    destruct (Hfail 0%nat ltac:(lia)) as (e & E & T). rewrite Nat.add_0_r in E.
    rewrite (retry_loop_again _ _ _ _ E T) by lia.
    rewrite (IH (S i) len (S n) reply); try lia.
    + reflexivity.
    + intros k Hk. destruct (Hfail (S k) ltac:(lia)) as (e' & E' & T').
      exists e'. split; [|exact T']. rewrite <- E'. f_equal. lia.
    + rewrite <- Hok. f_equal. lia.
Qed.

(** Transient failures on every attempt. *)
Lemma retry_loop_exhausted (len : nat) :
  forall (i n : nat),
  (Z.of_nat (i + S len) = max_retries + 1)%Z ->
  transient_calls openai api_key req n (S len) ->
  retry_loop openai api_key req max_retries (map Z.of_nat (seq i (S len))) n
  = (inr (Return (error_dict (py "API 호출 실패"))), retry_trace_from api_key req i len).
Proof.
  induction len as [|len IH]; intros i n Hlen Hfail.
  - simpl seq. simpl map.
    destruct (Hfail 0%nat ltac:(lia)) as (e & E & T). rewrite Nat.add_0_r in E.
    replace (Z.of_nat i) with max_retries by lia.
    rewrite (retry_loop_last _ _ _ E T). reflexivity.
  - change (seq i (S (S len))) with (i :: seq (S i) (S len)). rewrite map_cons.
    destruct (Hfail 0%nat ltac:(lia)) as (e & E & T). rewrite Nat.add_0_r in E.
    rewrite (retry_loop_again _ _ _ _ E T) by lia.
    rewrite (IH (S i) (S n)); try lia.
    + reflexivity.
    + intros k Hk. destruct (Hfail (S k) ltac:(lia)) as (e' & E' & T').
      exists e'. split; [|exact T']. rewrite <- E'. f_equal. lia.
Qed.

(** The loop only calls the service with [req] and sleeps. *)
Lemma retry_loop_events (range : list Z) :
  forall n, Forall (fun ev => ev = ApiCall api_key req \/ exists s, ev = Sleep s)
              (snd (retry_loop openai api_key req max_retries range n)).
Proof.
  induction range as [|i rest IH]; intros n; [constructor|].
  destruct (openai api_key n req) as [e|reply] eqn:E.
  - destruct (is_transient e) eqn:T.
    + destruct (Z.eq_dec i max_retries) as [->|Hi].
      * rewrite (retry_loop_last _ _ _ E T). repeat constructor.
      * rewrite (retry_loop_again _ _ _ _ E T Hi). simpl.
        constructor; [left; reflexivity|]. constructor; [right; eexists; reflexivity|].
        apply IH.
    + rewrite (retry_loop_raise _ _ _ _ E T). repeat constructor.
  - rewrite (retry_loop_break _ _ _ _ E). repeat constructor.
Qed.

End Retry.

(** * The analysis functions *)

Lemma py_range_succ (n : Z) :
  (0 <= n)%Z -> py_range (n + 1) = map Z.of_nat (seq 0 (S (Z.to_nat n))).
Proof.
  intros H. unfold py_range. replace (Z.to_nat (n + 1)) with (S (Z.to_nat n)) by lia.
  reflexivity.
Qed.

Section AnalysisFacts.

Variable openai : pystr -> nat -> request -> result (option pystr).
Variable json_loads : pystr -> result json.

(** Both analysis functions are the loop followed by the parse step; what
    differs is the request. *)
Lemma loop_then_parse_recovers (api_key : pystr) (req : request) (max_retries : Z)
    (n count : nat) (reply : option pystr) :
  (Z.of_nat count <= max_retries)%Z ->
  transient_calls openai api_key req n count ->
  openai api_key (n + count)%nat req = inr reply ->
  bind (retry_loop openai api_key req max_retries (py_range (max_retries + 1)))
       (after_loop json_loads) n
  = (parse_reply json_loads reply, retry_trace api_key req count).
Proof.
  intros Hc Hfail Hok. unfold bind.
  rewrite py_range_succ by lia.
  rewrite (retry_loop_recovers openai api_key req max_retries count 0 _ n reply);
    try assumption; try lia.
  simpl. unfold lift. rewrite app_nil_r. reflexivity.
Qed.

Lemma loop_then_parse_gives_up (api_key : pystr) (req : request) (max_retries : Z)
    (n : nat) :
  (0 <= max_retries)%Z ->
  transient_calls openai api_key req n (Z.to_nat max_retries + 1) ->
  bind (retry_loop openai api_key req max_retries (py_range (max_retries + 1)))
       (after_loop json_loads) n
  = (inr (error_dict (py "API 호출 실패")), retry_trace api_key req (Z.to_nat max_retries)).
Proof.
  intros H0 Hfail. unfold bind.
  rewrite py_range_succ by lia.
  rewrite (retry_loop_exhausted openai api_key req max_retries (Z.to_nat max_retries) 0 n);
    try lia.
  - simpl. unfold ret. rewrite app_nil_r. reflexivity.
  - replace (S (Z.to_nat max_retries)) with (Z.to_nat max_retries + 1)%nat by lia.
    exact Hfail.
Qed.

Lemma analyze_text_with_ai_eq (text api_key model : pystr) (max_retries : Z) (n : nat) :
  analyze_text_with_ai openai json_loads text api_key model max_retries n
  = bind (retry_loop openai api_key (text_request text model) max_retries
            (py_range (max_retries + 1)))
         (after_loop json_loads) n.
Proof. reflexivity. Qed.

Lemma analyze_food_image_with_ai_eq (image_bytes : list N) (api_key model : pystr)
    (max_retries : Z) (n : nat) :
  analyze_food_image_with_ai openai json_loads image_bytes api_key model max_retries n
  = bind (retry_loop openai api_key (image_request image_bytes model) max_retries
            (py_range (max_retries + 1)))
         (after_loop json_loads) n.
Proof. reflexivity. Qed.

(** With no attempt allowed, nothing is called and [res] is unbound. *)
Lemma loop_then_parse_no_attempt (api_key : pystr) (req : request) (max_retries : Z)
    (n : nat) :
  (max_retries < 0)%Z ->
  bind (retry_loop openai api_key req max_retries (py_range (max_retries + 1)))
       (after_loop json_loads) n
  = (inl (Exn UnboundLocalError (py "res")), []).
Proof.
  intros H. unfold py_range. replace (Z.to_nat (max_retries + 1)) with 0%nat by lia.
  reflexivity.
Qed.

(** The first attempt succeeds. *)
Lemma loop_then_parse_first (api_key : pystr) (req : request) (max_retries : Z)
    (n : nat) (reply : option pystr) :
  (0 <= max_retries)%Z ->
  openai api_key n req = inr reply ->
  bind (retry_loop openai api_key req max_retries (py_range (max_retries + 1)))
       (after_loop json_loads) n
  = (parse_reply json_loads reply, [ApiCall api_key req]).
Proof.
  intros H0 Hok.
  apply (loop_then_parse_recovers api_key req max_retries n 0 reply).
  - lia.
  - intros k Hk. lia.
  - rewrite Nat.add_0_r. exact Hok.
Qed.

(** The parse step on a reply with a span, and on one without. *)
Lemma parse_reply_span (reply pre mid post : pystr) :
  strip reply = pre ++ lbrace :: mid ++ rbrace :: post ->
  ~ In lbrace pre -> ~ In rbrace post ->
  parse_reply json_loads (Some reply)
  = match json_loads (lbrace :: mid ++ [rbrace]) with
    | inr v => inr v
    | inl e =>
      if is_JSONDecodeError e
      then inr (error_raw_dict (py "JSON 파싱 오류") (strip reply))
      else inl e
    end.
Proof.
  intros E Hpre Hpost. unfold parse_reply, stripped_content.
  rewrite E at 1. rewrite (search_span _ _ _ Hpre Hpost). reflexivity.
Qed.

Lemma parse_reply_no_span (reply : pystr) :
  ~ has_span reply ->
  parse_reply json_loads (Some reply)
  = inr (error_raw_dict (py "응답 파싱 실패") (strip reply)).
Proof.
  intros H. unfold parse_reply, stripped_content.
  assert (E : Re.search (strip reply) = None).
  { apply search_none_iff. intros Hs. apply H. apply has_span_strip. exact Hs. }
  rewrite E. reflexivity.
Qed.

(** C1.  With [0 <= max_retries], in both analysis functions: when the first
    [count <= max_retries] calls fail with a transient error and the next one
    answers, the function goes on to parse that answer, having made
    [count + 1] calls and slept 1, 2, ..., 2^(count-1) seconds, each sleep
    right after its failed call; when all [max_retries + 1] calls fail with a
    transient error, the function returns [{"error": "API 호출 실패"}] after
    exactly [max_retries + 1] calls. *)
Theorem retry_then_parse_or_give_up
    (max_retries : Z) (image_bytes : list N) (text api_key model : pystr) (n : nat) :
  (0 <= max_retries)%Z ->
  let text_req := text_request text model in
  let image_req := image_request image_bytes model in
  let text_run := analyze_text_with_ai openai json_loads text api_key model max_retries n in
  let image_run :=
    analyze_food_image_with_ai openai json_loads image_bytes api_key model max_retries n in
  (forall (count : nat) (reply : option pystr),
     (Z.of_nat count <= max_retries)%Z ->
     transient_calls openai api_key text_req n count ->
     openai api_key (n + count)%nat text_req = inr reply ->
     fst text_run = parse_reply json_loads reply /\
     snd text_run = retry_trace api_key text_req count /\
     ncalls (snd text_run) = (count + 1)%nat /\
     sleeps (snd text_run) = backoff count)
  /\
  (forall (count : nat) (reply : option pystr),
     (Z.of_nat count <= max_retries)%Z ->
     transient_calls openai api_key image_req n count ->
     openai api_key (n + count)%nat image_req = inr reply ->
     fst image_run = parse_reply json_loads reply /\
     snd image_run = retry_trace api_key image_req count /\
     ncalls (snd image_run) = (count + 1)%nat /\
     sleeps (snd image_run) = backoff count)
  /\
  (transient_calls openai api_key text_req n (Z.to_nat max_retries + 1) ->
     fst text_run = inr (error_dict (py "API 호출 실패")) /\
     snd text_run = retry_trace api_key text_req (Z.to_nat max_retries) /\
     ncalls (snd text_run) = (Z.to_nat max_retries + 1)%nat /\
     sleeps (snd text_run) = backoff (Z.to_nat max_retries))
  /\
  (transient_calls openai api_key image_req n (Z.to_nat max_retries + 1) ->
     fst image_run = inr (error_dict (py "API 호출 실패")) /\
     snd image_run = retry_trace api_key image_req (Z.to_nat max_retries) /\
     ncalls (snd image_run) = (Z.to_nat max_retries + 1)%nat /\
     sleeps (snd image_run) = backoff (Z.to_nat max_retries)).
Proof.
  intros H0 text_req image_req text_run image_run.
  assert (Shape : forall (req : request) (run : result json * list event)
                         (count : nat) (r : result json),
            run = (r, retry_trace api_key req count) ->
            fst run = r /\ snd run = retry_trace api_key req count /\
            ncalls (snd run) = (count + 1)%nat /\ sleeps (snd run) = backoff count).
  { intros req run count r ->. simpl. repeat split.
    - apply ncalls_retry_trace_from.
    - apply sleeps_retry_trace_from. }
  split; [|split; [|split]].
  - intros count reply Hc Hfail Hok. apply Shape.
    apply loop_then_parse_recovers; assumption.
  - intros count reply Hc Hfail Hok. apply Shape.
    apply loop_then_parse_recovers; assumption.
  - intros Hfail. apply Shape. apply loop_then_parse_gives_up; assumption.
  - intros Hfail. apply Shape. apply loop_then_parse_gives_up; assumption.
Qed.

(** C2.  When the service answers the first attempt with a text, in both
    analysis functions: if the text has a [{] with a [}] after it, [json.loads]
    is applied to the part of the stripped text from its first [{] through its
    last [}], and its outcome decides the result; in particular a text that
    holds one JSON object and no brace outside it yields the decoded value. *)
Theorem parse_first_to_last_brace
    (max_retries : Z) (image_bytes : list N) (text api_key model reply : pystr) (n : nat) :
  (0 <= max_retries)%Z ->
  openai api_key n (text_request text model) = inr (Some reply) ->
  openai api_key n (image_request image_bytes model) = inr (Some reply) ->
  let text_result :=
    fst (analyze_text_with_ai openai json_loads text api_key model max_retries n) in
  let image_result :=
    fst (analyze_food_image_with_ai openai json_loads image_bytes api_key model
           max_retries n) in
  (has_span reply ->
   exists pre mid post,
     strip reply = pre ++ lbrace :: mid ++ rbrace :: post /\
     ~ In lbrace pre /\ ~ In rbrace post /\
     let outcome :=
       match json_loads (lbrace :: mid ++ [rbrace]) with
       | inr v => inr v
       | inl e =>
         if is_JSONDecodeError e
         then inr (error_raw_dict (py "JSON 파싱 오류") (strip reply))
         else inl e
       end in
     text_result = outcome /\ image_result = outcome)
  /\
  (forall (pre mid post : pystr) (v : json),
     reply = pre ++ lbrace :: mid ++ rbrace :: post ->
     ~ In lbrace pre -> ~ In rbrace pre -> ~ In lbrace post -> ~ In rbrace post ->
     json_loads (lbrace :: mid ++ [rbrace]) = inr v ->
     text_result = inr v /\ image_result = inr v).
Proof.
  intros H0 Etext Eimage text_result image_result.
  assert (Rtext : text_result = parse_reply json_loads (Some reply)).
  { unfold text_result. rewrite analyze_text_with_ai_eq.
    rewrite (loop_then_parse_first api_key _ max_retries n (Some reply) H0 Etext).
    reflexivity. }
  assert (Rimage : image_result = parse_reply json_loads (Some reply)).
  { unfold image_result. rewrite analyze_food_image_with_ai_eq.
    rewrite (loop_then_parse_first api_key _ max_retries n (Some reply) H0 Eimage).
    reflexivity. }
  rewrite Rtext, Rimage. split.
  - intros Hs. apply has_span_strip in Hs.
    destruct (has_span_first_last _ Hs) as (pre & mid & post & E & Hpre & Hpost).
    exists pre, mid, post. repeat split; try assumption;
      apply (parse_reply_span reply pre mid post E Hpre Hpost).
  - intros pre mid post v -> Hl _ _ Hr Hv.
    assert (E : strip (pre ++ lbrace :: mid ++ rbrace :: post)
                = lstrip pre ++ lbrace :: mid ++ rbrace :: rstrip post)
      by (apply strip_between; reflexivity).
    rewrite (parse_reply_span _ _ _ _ E (not_in_lstrip _ _ Hl) (not_in_rstrip _ _ Hr)).
    rewrite Hv. split; reflexivity.
Qed.

(** C3, amended.  When the service answers the first attempt with a text, in
    both analysis functions: a text without a [{]-to-[}] span yields
    [{"error": "응답 파싱 실패", "raw": ...}], and one whose span [json.loads]
    rejects with [JSONDecodeError] yields [{"error": "JSON 파싱 오류", "raw": ...}];
    in both, ["raw"] holds the text after [strip()], and nothing is raised. *)
Theorem parse_failure_keeps_stripped_reply
    (max_retries : Z) (image_bytes : list N) (text api_key model reply : pystr) (n : nat) :
  (0 <= max_retries)%Z ->
  openai api_key n (text_request text model) = inr (Some reply) ->
  openai api_key n (image_request image_bytes model) = inr (Some reply) ->
  let text_result :=
    fst (analyze_text_with_ai openai json_loads text api_key model max_retries n) in
  let image_result :=
    fst (analyze_food_image_with_ai openai json_loads image_bytes api_key model
           max_retries n) in
  (~ has_span reply ->
   let marker := error_raw_dict (py "응답 파싱 실패") (strip reply) in
   text_result = inr marker /\ image_result = inr marker /\
   Py.has (py "error") marker = inr true /\
   Py.getitem marker (py "raw") = inr (JStr (strip reply)))
  /\
  (forall (pre mid post : pystr) (e : exn),
     strip reply = pre ++ lbrace :: mid ++ rbrace :: post ->
     ~ In lbrace pre -> ~ In rbrace post ->
     json_loads (lbrace :: mid ++ [rbrace]) = inl e -> is_JSONDecodeError e = true ->
     let marker := error_raw_dict (py "JSON 파싱 오류") (strip reply) in
     text_result = inr marker /\ image_result = inr marker /\
     Py.has (py "error") marker = inr true /\
     Py.getitem marker (py "raw") = inr (JStr (strip reply))).
Proof.
  intros H0 Etext Eimage text_result image_result.
  assert (Rtext : text_result = parse_reply json_loads (Some reply)).
  { unfold text_result. rewrite analyze_text_with_ai_eq.
    rewrite (loop_then_parse_first api_key _ max_retries n (Some reply) H0 Etext).
    reflexivity. }
  assert (Rimage : image_result = parse_reply json_loads (Some reply)).
  { unfold image_result. rewrite analyze_food_image_with_ai_eq.
    rewrite (loop_then_parse_first api_key _ max_retries n (Some reply) H0 Eimage).
    reflexivity. }
  rewrite Rtext, Rimage. split.
  - intros Hs marker. rewrite (parse_reply_no_span reply Hs).
    repeat split; reflexivity.
  - intros pre mid post e E Hpre Hpost He Hd marker.
    rewrite (parse_reply_span reply pre mid post E Hpre Hpost), He, Hd.
    repeat split; reflexivity.
Qed.

End AnalysisFacts.

(** Two failures and an answer within [max_retries = 2]; three failures. *)
Lemma retry_then_parse_or_give_up_witness :
  (let run := analyze_text_with_ai Sample.flaky Sample.json_loads (py "쌀밥, 우유")
                Sample.api_key default_model 2 0 in
   fst run = inr (JDict []) /\ ncalls (snd run) = 3%nat /\ sleeps (snd run) = [1; 2]%Z)
  /\
  (let run := analyze_food_image_with_ai Sample.down Sample.json_loads [137; 80; 78; 71]%N
                Sample.api_key default_model 2 0 in
   fst run = inr (error_dict (py "API 호출 실패")) /\
   ncalls (snd run) = 3%nat /\ sleeps (snd run) = [1; 2]%Z).
Proof.
  split.
  - destruct (retry_then_parse_or_give_up Sample.flaky Sample.json_loads 2
                [137; 80; 78; 71]%N (py "쌀밥, 우유") Sample.api_key default_model 0
                ltac:(lia)) as (H & _).
    destruct (H 2%nat (Some (py "  결과입니다: {} 이상입니다.  "))) as (A & _ & C & D).
    + lia.
    + intros k Hk. destruct k as [|[|k]]; [eexists; split; reflexivity.. | lia].
    + reflexivity.
    + cbv zeta. rewrite A, C, D. split; [vm_compute; reflexivity | split; reflexivity].
  - destruct (retry_then_parse_or_give_up Sample.down Sample.json_loads 2
                [137; 80; 78; 71]%N (py "쌀밥, 우유") Sample.api_key default_model 0
                ltac:(lia)) as (_ & _ & _ & H).
    destruct H as (A & _ & C & D).
    + intros k Hk. eexists. split; reflexivity.
    + cbv zeta. rewrite A, C, D. split; [reflexivity | split; reflexivity].
Defined.

(** A reply with prose around one object. *)
Lemma parse_first_to_last_brace_witness :
  fst (analyze_text_with_ai (Sample.says (py "  결과입니다: {} 이상입니다.  "))
         Sample.json_loads (py "쌀밥, 우유") Sample.api_key default_model 2 0)
  = inr (JDict []) /\
  fst (analyze_food_image_with_ai (Sample.says (py "  결과입니다: {} 이상입니다.  "))
         Sample.json_loads [137; 80; 78; 71]%N Sample.api_key default_model 2 0)
  = inr (JDict []).
Proof.
  destruct (parse_first_to_last_brace (Sample.says (py "  결과입니다: {} 이상입니다.  "))
              Sample.json_loads 2 [137; 80; 78; 71]%N (py "쌀밥, 우유") Sample.api_key
              default_model (py "  결과입니다: {} 이상입니다.  ") 0
              ltac:(lia) eq_refl eq_refl) as (_ & H).
  apply (H (py "  결과입니다: ") [] (py " 이상입니다.  ") (JDict [])).
  - reflexivity.
  - vm_compute. intuition discriminate.
  - vm_compute. intuition discriminate.
  - vm_compute. intuition discriminate.
  - vm_compute. intuition discriminate.
  - reflexivity.
Defined.

(** A reply without any brace, and one whose span is not JSON. *)
Lemma parse_failure_keeps_stripped_reply_witness :
  fst (analyze_text_with_ai (Sample.says (py " 메뉴를 알 수 없습니다. ")) Sample.json_loads
         (py "급식") Sample.api_key default_model 2 0)
  = inr (error_raw_dict (py "응답 파싱 실패") (py "메뉴를 알 수 없습니다."))
  /\
  fst (analyze_text_with_ai (Sample.says (py "{우유}")) Sample.json_loads
         (py "급식") Sample.api_key default_model 2 0)
  = inr (error_raw_dict (py "JSON 파싱 오류") (py "{우유}")).
Proof.
  split.
  - destruct (parse_failure_keeps_stripped_reply (Sample.says (py " 메뉴를 알 수 없습니다. "))
                Sample.json_loads 2 [] (py "급식") Sample.api_key default_model
                (py " 메뉴를 알 수 없습니다. ") 0 ltac:(lia) eq_refl eq_refl) as (H & _).
    destruct H as (A & _).
    + apply search_none_iff. vm_compute. reflexivity.
    + rewrite A. vm_compute. reflexivity.
  - destruct (parse_failure_keeps_stripped_reply (Sample.says (py "{우유}"))
                Sample.json_loads 2 [] (py "급식") Sample.api_key default_model
                (py "{우유}") 0 ltac:(lia) eq_refl eq_refl) as (_ & H).
    destruct (H [] (py "우유") [] (Exn JSONDecodeError (py "{우유}"))) as (A & _).
    + vm_compute. reflexivity.
    + intros [].
    + intros [].
    + vm_compute. reflexivity.
    + reflexivity.
    + rewrite A. vm_compute. reflexivity.
Defined.

(** C3 as stated fails: a reply with blanks around it is not kept as it was;
    ["raw"] holds it without them. *)
Lemma raw_is_not_the_original_reply :
  let reply := py " 메뉴를 알 수 없습니다. " in
  let result :=
    fst (analyze_text_with_ai (Sample.says reply) Sample.json_loads (py "급식")
           Sample.api_key default_model default_max_retries 0) in
  ~ has_span reply /\
  result = inr (error_raw_dict (py "응답 파싱 실패") (py "메뉴를 알 수 없습니다.")) /\
  result <> inr (error_raw_dict (py "응답 파싱 실패") reply).
Proof.
  cbv zeta. split; [|split].
  - apply search_none_iff. vm_compute. reflexivity.
  - vm_compute. reflexivity.
  - vm_compute. discriminate.
Qed.

(** * The report *)

Lemma report_failure_nonempty (exn_str : exn -> pystr) (e : exn) :
  report_failure exn_str e <> [].
Proof. unfold report_failure. vm_compute. discriminate. Qed.

(** C4, amended.  [generate_ai_report] makes one call and never raises: when
    the call answers with a text it returns that text stripped, which is the
    empty text when the answer is blank; when the call raises, or the answer
    has no content, it returns "보고서 생성 실패: " followed by the exception's
    text, which is never empty. *)
Theorem generate_ai_report_returns_text
    (openai : pystr -> nat -> request -> result (option pystr))
    (json_dumps : json -> pystr) (exn_str : exn -> pystr) (strftime_now : pystr -> pystr)
    (analysis_results : list json) (source_type api_key model : pystr) (n : nat) :
  let req := report_request json_dumps strftime_now analysis_results source_type model in
  let run := generate_ai_report openai json_dumps exn_str strftime_now analysis_results
               source_type api_key model n in
  snd run = [ApiCall api_key req] /\
  fst run = inr match openai api_key n req with
                | inr (Some reply) => strip reply
                | inr None => report_failure exn_str (Exn AttributeError (py "strip"))
                | inl e => report_failure exn_str e
                end /\
  (forall e, report_failure exn_str e = py "보고서 생성 실패: " ++ exn_str e /\
             report_failure exn_str e <> []).
Proof.
  intros req run. unfold run, generate_ai_report, bind, try, create, lift. fold req.
  destruct (openai api_key n req) as [e|[reply|]]; simpl;
    (split; [reflexivity | split; [reflexivity |]]);
    intros e'; (split; [reflexivity | apply report_failure_nonempty]).
Qed.

(** C4 as stated fails: a blank answer makes the report the empty text. *)
Lemma blank_answer_gives_empty_report :
  fst (generate_ai_report (Sample.says (py "   ")) Sample.json_dumps Sample.exn_str
         Sample.strftime_now [JDict []] (py "텍스트 입력") Sample.api_key default_model 0)
  = inr [].
Proof. vm_compute. reflexivity. Qed.

(** * PDF text *)

Lemma extract_pages_all (texts : list pystr) (text : pystr) :
  extract_pages (map inr texts) text
  = inr (text ++ List.concat (map (fun t => t ++ newline) texts)).
Proof.
  revert text. induction texts as [|t texts IH]; intros text; simpl.
  - rewrite app_nil_r. reflexivity.
  - rewrite IH, <- !app_assoc. reflexivity.
Qed.

Lemma extract_pages_stops (before : list pystr) (e : exn) (after : list (result pystr))
    (text : pystr) :
  extract_pages (map inr before ++ inl e :: after) text = inl e.
Proof.
  revert text. induction before as [|t before IH]; intros text; simpl.
  - reflexivity.
  - apply IH.
Qed.

Lemma pages_all_or_first_failure (pages : list (result pystr)) :
  (exists texts, pages = map inr texts) \/
  (exists before e after, pages = map inr before ++ inl e :: after).
Proof.
  induction pages as [|[e|t] pages IH].
  - left. exists []. reflexivity.
  - right. exists [], e, pages. reflexivity.
  - destruct IH as [(texts & ->)|(before & e & after & ->)].
    + left. exists (t :: texts). reflexivity.
    + right. exists (t :: before), e, after. reflexivity.
Qed.

(** C7.  [extract_pdf_text] never raises.  When every page gives its text the
    result is the texts in page order, each followed by a newline.  When
    [PdfReader] raises, or a page's [extract_text] does, the result is
    "PDF 읽기 오류: " followed by the exception's text.  Every PDF is one of
    the three; the function reads nothing but its argument and changes
    nothing. *)
Theorem extract_pdf_text_pages_or_error (exn_str : exn -> pystr) :
  (forall texts : list pystr,
     extract_pdf_text exn_str (inr (map inr texts))
     = List.concat (map (fun t => t ++ newline) texts))
  /\
  (forall e : exn,
     extract_pdf_text exn_str (inl e) = py "PDF 읽기 오류: " ++ exn_str e)
  /\
  (forall (before : list pystr) (e : exn) (after : list (result pystr)),
     extract_pdf_text exn_str (inr (map inr before ++ inl e :: after))
     = py "PDF 읽기 오류: " ++ exn_str e)
  /\
  (forall pdf : pdf_file,
     (exists texts, pdf = inr (map inr texts)) \/
     (exists e, pdf = inl e) \/
     (exists before e after, pdf = inr (map inr before ++ inl e :: after))).
Proof.
  unfold extract_pdf_text, read_pdf. repeat split.
  - intros texts. rewrite extract_pages_all. reflexivity.
  - intros before e after. rewrite extract_pages_stops. reflexivity.
  - intros [e|pages].
    + right. left. exists e. reflexivity.
    + destruct (pages_all_or_first_failure pages) as [(texts & ->)|(b & e & a & ->)].
      * left. exists texts. reflexivity.
      * right. right. exists b, e, a. reflexivity.
Qed.

(** * The prompt of the text analysis *)

Lemma join_cons2 (sep p q : pystr) (rest : list pystr) :
  join sep (p :: q :: rest) = p ++ sep ++ join sep (q :: rest).
Proof. reflexivity. Qed.

(** C8.  The catalog has 20 entries.  The prompt is a fixed text, the input
    text as it is, a fixed text, the 20 entries joined by ", ", and a fixed
    text; the three fixed texts do not depend on the input.  It is the only
    message [analyze_text_with_ai] ever sends, whatever the service does. *)
Theorem text_prompt_holds_text_and_catalog :
  List.length MAJOR_ALLERGENS = 20%nat /\
  (exists before between after : pystr, forall text : pystr,
     text_prompt text
     = before ++ text ++ between ++ join (py ", ") MAJOR_ALLERGENS ++ after)
  /\
  (forall (openai : pystr -> nat -> request -> result (option pystr))
          (json_loads : pystr -> result json)
          (text api_key model : pystr) (max_retries : Z) (n : nat),
     user_message (text_request text model) = Text (text_prompt text) /\
     Forall (fun ev => ev = ApiCall api_key (text_request text model))
       (api_calls (snd (analyze_text_with_ai openai json_loads text api_key model
                          max_retries n)))).
Proof.
  split; [reflexivity|]. split.
  - do 3 eexists. intros text. unfold text_prompt.
    match goal with
    | |- join newline (?x1 :: ?x2 :: ?x3 :: ?x4 :: (?p1 ++ text) :: ?x6 :: (?p2 ++ ?cat) :: ?rest)
         = ?A ++ text ++ ?B ++ _ ++ ?C =>
      unify A (x1 ++ newline ++ x2 ++ newline ++ x3 ++ newline ++ x4 ++ newline ++ p1);
      unify B (newline ++ x6 ++ newline ++ p2);
      unify C (newline ++ join newline rest)
    end.
    rewrite !join_cons2, <- !app_assoc. reflexivity.
  - intros openai json_loads text api_key model max_retries n.
    split; [reflexivity|].
    rewrite analyze_text_with_ai_eq. unfold bind.
    pose proof (retry_loop_events openai api_key (text_request text model) max_retries
                  (py_range (max_retries + 1)) n) as H.
    destruct (retry_loop openai api_key (text_request text model) max_retries
                (py_range (max_retries + 1)) n) as [[e|x] t]; simpl in *.
    + clear -H. induction H as [|ev t [->|[s ->]] _ IH]; simpl; auto.
    + assert (E : snd (after_loop json_loads x (n + ncalls t)) = []) by (destruct x; reflexivity).
      destruct (after_loop json_loads x (n + ncalls t)) as [r t']. simpl in E. subst t'.
      simpl. rewrite app_nil_r.
      clear -H. induction H as [|ev t [->|[s ->]] _ IH]; simpl; auto.
Qed.

(** * Traces of composed computations *)

Lemma bind_run {A B} (m : M A) (k : A -> M B) (n : nat) :
  bind m k n
  = match fst (m n) with
    | inl e => (inl e, snd (m n))
    | inr a => (fst (k a (n + ncalls (snd (m n)))%nat),
                snd (m n) ++ snd (k a (n + ncalls (snd (m n)))%nat))
    end.
Proof.
  unfold bind. destruct (m n) as [[e|a] t]; simpl; [reflexivity|].
  destruct (k a (n + ncalls t)%nat). reflexivity.
Qed.

Lemma show_then {B} (w : st.widget) (shown : pystr) (k : unit -> M B) (n : nat) :
  bind (show w shown) k n = (fst (k tt n), Show w shown :: snd (k tt n)).
Proof.
  rewrite bind_run. simpl. rewrite Nat.add_0_r. reflexivity.
Qed.

(** * The text of a spreadsheet *)








(** * The script without its key *)

Section Script.

Variable openai : pystr -> nat -> request -> result (option pystr).
Variable json_loads : pystr -> result json.
Variable json_dumps : json -> pystr.
Variable py_repr : json -> pystr.
Variable exn_str : exn -> pystr.
Variable strftime_now : pystr -> pystr.
Variable image_open : list N -> result unit.

(** C5.  When the configuration holds no OPENAI_API_KEY, the run shows the
    page head, ends in a blocking error and does nothing else: whatever was
    uploaded or pressed, no sidebar and no tab code runs, and the service is
    not called.  When the secrets are read and have no entry for the key,
    the error is the configuration message, followed by [st.stop()]; when
    there is no secrets file to read, it is the exception that the first
    look at [st.secrets] raises, which ends the run at the same place. *)
Theorem missing_key_stops_before_anything_else (s : session) (n : nat) :
  configured_key (secrets s) = None ->
  let run := app openai json_loads json_dumps py_repr exn_str strftime_now image_open s n in
  fst run = match secrets s with
            | inl e => inl e
            | inr _ => inr tt
            end /\
  snd run = [ Show st.set_page_config (py "🍽️ AI 학교 급식 알레르기 분석 시스템");
              Show st.title (py "🍽️ AI 기반 학교 급식 알레르기 분석 시스템");
              Show st.markdown (py "인공지능이 급식 메뉴의 알레르기 위험을 상세히 분석하고 종합 보고서를 생성합니다.") ]
            ++ match secrets s with
               | inl _ => []
               | inr _ => [Show st.error missing_key_message; Stop]
               end /\
  api_calls (snd run) = [] /\ sleeps (snd run) = [].
Proof.
  intros H run. unfold run, app, page_head, Secrets.contains.
  unfold configured_key in H. destruct (secrets s) as [e|fields].
  - repeat split.
  - rewrite H. repeat split.
Qed.

End Script.

(** * The PDF tab *)

Section PdfTab.

Variable openai : pystr -> nat -> request -> result (option pystr).
Variable json_loads : pystr -> result json.
Variable json_dumps : json -> pystr.
Variable py_repr : json -> pystr.
Variable exn_str : exn -> pystr.
Variable strftime_now : pystr -> pystr.

(** With attempts allowed, an analysis starts by calling the service. *)
Lemma retry_loop_starts_with_call (api_key : pystr) (req : request) (max_retries i : Z)
    (rest : list Z) (n : nat) :
  exists t, snd (retry_loop openai api_key req max_retries (i :: rest) n)
            = ApiCall api_key req :: t.
Proof.
  destruct (openai api_key n req) as [e|reply] eqn:E.
  - destruct (is_transient e) eqn:T.
    + destruct (Z.eq_dec i max_retries) as [->|Hi].
      * rewrite (retry_loop_last _ _ _ _ _ _ _ E T). eexists. reflexivity.
      * rewrite (retry_loop_again _ _ _ _ _ _ _ _ E T Hi). eexists. reflexivity.
    + rewrite (retry_loop_raise _ _ _ _ _ _ _ _ E T). eexists. reflexivity.
  - rewrite (retry_loop_break _ _ _ _ _ _ _ _ E). eexists. reflexivity.
Qed.

Lemma analyze_text_starts_with_call (text api_key : pystr) (n : nat) :
  exists t,
    snd (analyze_text_with_ai openai json_loads text api_key default_model
           default_max_retries n)
    = ApiCall api_key (text_request text default_model) :: t.
Proof.
  rewrite analyze_text_with_ai_eq, bind_run.
  change (py_range (default_max_retries + 1)) with [0; 1; 2]%Z.
  destruct (retry_loop_starts_with_call api_key (text_request text default_model)
              default_max_retries 0 [1; 2]%Z n) as (t & E).
  rewrite E. destruct (fst _); eexists; reflexivity.
Qed.

(** C10.  The PDF tab goes on to the analysis exactly when the text that
    [extract_pdf_text] returned does not contain "오류".  When it does, the tab
    shows that text as an error and calls nothing; when it does not, the
    preview is shown and the service is called with the text.  There is a
    PDF whose pages are all read and whose own text contains "오류": its text
    is shown as an error and it is never analysed. *)
Theorem pdf_tab_analyzes_iff_no_error_word (api_key : pystr) :
  (forall (pdf : pdf_file) (n : nat),
     let pdf_text := extract_pdf_text exn_str pdf in
     let run := analyze_pdf_handler openai json_loads json_dumps py_repr exn_str
                  strftime_now api_key pdf n in
     (api_calls (snd run) <> [] <-> contains (py "오류") pdf_text = false) /\
     (contains (py "오류") pdf_text = true ->
      run = (inr tt, [ Show st.spinner (py "PDF에서 텍스트를 추출하고 있습니다...");
                       Show st.error pdf_text ])) /\
     (contains (py "오류") pdf_text = false ->
      exists rest,
        snd run = [ Show st.spinner (py "PDF에서 텍스트를 추출하고 있습니다...");
                    Show st.write (py "📄 추출된 텍스트 미리보기:");
                    Show (st.text_area (py "pdf_preview")) (firstn 1000 pdf_text ++ py "...");
                    Show st.spinner (py "AI가 내용을 분석하고 있습니다...");
                    ApiCall api_key (text_request pdf_text default_model) ] ++ rest))
  /\
  (exists pages : list pystr,
     let pdf : pdf_file := inr (map inr pages) in
     extract_pdf_text exn_str pdf = List.concat (map (fun t => t ++ newline) pages) /\
     contains (py "오류") (extract_pdf_text exn_str pdf) = true /\
     forall n,
       analyze_pdf_handler openai json_loads json_dumps py_repr exn_str strftime_now
         api_key pdf n
       = (inr tt, [ Show st.spinner (py "PDF에서 텍스트를 추출하고 있습니다...");
                    Show st.error (extract_pdf_text exn_str pdf) ])).
Proof.
  assert (Yes : forall pdf n,
            contains (py "오류") (extract_pdf_text exn_str pdf) = true ->
            analyze_pdf_handler openai json_loads json_dumps py_repr exn_str strftime_now
              api_key pdf n
            = (inr tt, [ Show st.spinner (py "PDF에서 텍스트를 추출하고 있습니다...");
                         Show st.error (extract_pdf_text exn_str pdf) ])).
  { intros pdf n H. unfold analyze_pdf_handler. rewrite show_then, H. reflexivity. }
  assert (No : forall pdf n,
            contains (py "오류") (extract_pdf_text exn_str pdf) = false ->
            exists rest,
              snd (analyze_pdf_handler openai json_loads json_dumps py_repr exn_str
                     strftime_now api_key pdf n)
              = [ Show st.spinner (py "PDF에서 텍스트를 추출하고 있습니다...");
                  Show st.write (py "📄 추출된 텍스트 미리보기:");
                  Show (st.text_area (py "pdf_preview"))
                    (firstn 1000 (extract_pdf_text exn_str pdf) ++ py "...");
                  Show st.spinner (py "AI가 내용을 분석하고 있습니다...");
                  ApiCall api_key (text_request (extract_pdf_text exn_str pdf) default_model) ]
                ++ rest).
  { intros pdf n H. unfold analyze_pdf_handler. rewrite show_then, H.
    cbn [negb]. rewrite !show_then, bind_run.
    destruct (analyze_text_starts_with_call (extract_pdf_text exn_str pdf) api_key n)
      as (t & E).
    rewrite E. destruct (fst (analyze_text_with_ai _ _ _ _ _ _ _)); eexists; reflexivity. }
  split.
  - intros pdf n pdf_text run. split; [|split].
    + split.
      * intros Hcalls. destruct (contains (py "오류") pdf_text) eqn:C; [|reflexivity].
        exfalso. apply Hcalls. unfold run. rewrite (Yes pdf n C). reflexivity.
      * intros C Hcalls. destruct (No pdf n C) as (rest & E).
        unfold run in Hcalls. rewrite E in Hcalls. discriminate Hcalls.
    + apply Yes.
    + apply No.
  - exists [py "급식 오류 신고 안내"].
    assert (C : contains (py "오류")
                  (extract_pdf_text exn_str (inr (map inr [py "급식 오류 신고 안내"]))) = true)
      by (vm_compute; reflexivity).
    split; [|split].
    + unfold extract_pdf_text, read_pdf. rewrite extract_pages_all. reflexivity.
    + exact C.
    + intros n. apply Yes. exact C.
Qed.

End PdfTab.

(** * Computations that only show *)

Lemma quiet_ret {A} (a : A) : quiet (ret a).
Proof. intros n. constructor. Qed.

Lemma quiet_lift {A} (r : result A) : quiet (lift r).
Proof. intros n. constructor. Qed.

Lemma quiet_show (w : st.widget) (shown : pystr) : quiet (show w shown).
Proof. intros n. repeat constructor. Qed.

Lemma quiet_bind {A B} (m : M A) (k : A -> M B) :
  quiet m -> (forall a, quiet (k a)) -> quiet (bind m k).
Proof.
  intros Hm Hk n. rewrite bind_run. destruct (fst (m n)) as [e|a]; simpl.
  - apply Hm.
  - apply Forall_app. split; [apply Hm | apply Hk].
Qed.

Lemma quiet_for_each {A} (xs : list A) (body : A -> M unit) :
  (forall x, quiet (body x)) -> quiet (for_each xs body).
Proof.
  intros H. induction xs as [|x xs IH]; simpl.
  - apply quiet_ret.
  - apply quiet_bind; [apply H | intros _; exact IH].
Qed.

Ltac quiet :=
  repeat first
    [ apply quiet_ret | apply quiet_lift | apply quiet_show
    | apply quiet_for_each; intros
    | apply quiet_bind; [|intros]
    | match goal with |- quiet (if ?b then _ else _) => destruct b end ].

Lemma quiet_show_image_result (py_repr : json -> pystr) (i : nat) (result : json) :
  quiet (show_image_result py_repr i result).
Proof.
  unfold show_image_result, show_menu_item, show_item_allergen. quiet.
Qed.

Lemma quiet_ncalls (t : list event) :
  Forall (fun ev => is_show ev = true) t -> ncalls t = 0%nat.
Proof.
  induction 1 as [|ev t H _ IH]; [reflexivity|].
  destruct ev; try discriminate H. exact IH.
Qed.

Lemma quiet_sends_no_text (t : list event) :
  Forall (fun ev => is_show ev = true) t -> Forall (fun ev => sends_text ev = false) t.
Proof.
  induction 1 as [|ev t H _ IH]; constructor; [|exact IH].
  destruct ev; try discriminate H. reflexivity.
Qed.

Lemma lift_then {A B} (r : result A) (k : A -> M B) (n : nat) :
  bind (lift r) k n
  = match r with
    | inl e => (inl e, [])
    | inr a => k a n
    end.
Proof.
  unfold bind, lift. destruct r as [e|a]; [reflexivity|].
  simpl. rewrite Nat.add_0_r. destruct (k a n). reflexivity.
Qed.

Lemma quiet_then {A B} (m : M A) (k : A -> M B) (n : nat) :
  quiet m ->
  bind m k n
  = match fst (m n) with
    | inl e => (inl e, snd (m n))
    | inr a => (fst (k a n), snd (m n) ++ snd (k a n))
    end.
Proof.
  intros H. rewrite bind_run, (quiet_ncalls _ (H n)), Nat.add_0_r. reflexivity.
Qed.

(** * The image tab *)

Section ImageTab.

Variable openai : pystr -> nat -> request -> result (option pystr).
Variable json_loads : pystr -> result json.
Variable json_dumps : json -> pystr.
Variable py_repr : json -> pystr.
Variable exn_str : exn -> pystr.
Variable strftime_now : pystr -> pystr.

Lemma generate_ai_report_run (analysis_results : list json)
    (source_type api_key model : pystr) (n : nat) :
  generate_ai_report openai json_dumps exn_str strftime_now analysis_results source_type
    api_key model n
  = (inr (report_of exn_str
            (openai api_key n
               (report_request json_dumps strftime_now analysis_results source_type model))),
     [ApiCall api_key
        (report_request json_dumps strftime_now analysis_results source_type model)]).
Proof.
  unfold generate_ai_report, bind, try, create, lift, report_of.
  destruct (openai api_key n _) as [e|[reply|]]; reflexivity.
Qed.

Lemma after_loop_trace (x : loop_exit) (n : nat) : snd (after_loop json_loads x n) = [].
Proof. destruct x; reflexivity. Qed.

Lemma analyze_image_sends_no_text (image_bytes : list N) (api_key model : pystr)
    (max_retries : Z) (n : nat) :
  Forall (fun ev => sends_text ev = false)
    (snd (analyze_food_image_with_ai openai json_loads image_bytes api_key model
            max_retries n)).
Proof.
  rewrite analyze_food_image_with_ai_eq, bind_run.
  pose proof (retry_loop_events openai api_key (image_request image_bytes model)
                max_retries (py_range (max_retries + 1)) n) as H.
  assert (Hl : Forall (fun ev => sends_text ev = false)
                 (snd (retry_loop openai api_key (image_request image_bytes model)
                         max_retries (py_range (max_retries + 1)) n))).
  { induction H as [|ev t [->|[s ->]] _ IH]; constructor; auto. }
  destruct (fst _); simpl; [exact Hl|].
  rewrite after_loop_trace, app_nil_r. exact Hl.
Qed.

(** The loop over the images: what it collects, and what it leaves in the
    trace, when it comes to its end. *)
Lemma image_loop_collects (api_key : pystr) (total : nat) (images : list (list N)) :
  forall (i : nat) (collected_before : list json) (n : nat)
         (collected : list json) (t : list event),
  image_loop openai json_loads py_repr api_key total i images collected_before n
  = (inr collected, t) ->
  exists results,
    analyses openai json_loads api_key images n = inr results /\
    collected = collected_before ++ filter succeeded results /\
    Forall (fun ev => sends_text ev = false) t /\
    (forall (j : nat) (result : json),
       nth_error results j = Some result -> succeeded result = false ->
       exists e,
         Py.get result (py "error") (JStr (py "알 수 없는 오류")) = inr e /\
         In (Show st.error (image_failure py_repr (i + j) e)) t).
Proof.
  induction images as [|image rest IH]; intros i acc n collected t.
  - simpl. unfold ret. intros [= <- <-]. exists []. repeat split.
    + rewrite app_nil_r. reflexivity.
    + constructor.
    + intros [|j] result; discriminate.
  - cbn [image_loop analyses]. rewrite !show_then, bind_run.
    pose proof (analyze_image_sends_no_text image api_key default_model
                  default_max_retries n) as Hcalls.
    destruct (analyze_food_image_with_ai openai json_loads image api_key default_model
                default_max_retries n) as [[e|result] ta]; cbn [fst snd] in *;
      [discriminate|].
    rewrite lift_then.
    destruct (Py.has (py "error") result) as [e|has_error] eqn:Ehas; [discriminate|].
    destruct has_error; cbn [negb].
    + (* the result has an "error" *)
      rewrite lift_then.
      destruct (Py.get result (py "error") (JStr (py "알 수 없는 오류"))) as [e|e] eqn:Eget;
        [discriminate|].
      rewrite show_then.
      destruct (image_loop openai json_loads py_repr api_key total (S i) rest acc
                  (n + ncalls ta)) as [r t'] eqn:Eloop.
      cbn [fst snd]. intros [= -> <-].
      destruct (IH _ _ _ _ _ Eloop) as (results & Ea & Ec & Ht & Hf).
      rewrite Ea. exists (result :: results). repeat split.
      * cbn [filter]. unfold succeeded at 1. rewrite Ehas. exact Ec.
      * repeat constructor. apply Forall_app. split; [exact Hcalls|].
        constructor; [reflexivity | exact Ht].
      * intros [|j] res Hnth Hres.
        -- injection Hnth as <-. exists e. split; [exact Eget|].
           rewrite Nat.add_0_r. right. right. apply in_or_app. right. left. reflexivity.
        -- destruct (Hf j res Hnth Hres) as (e' & Eg & Hin).
           exists e'. split; [exact Eg|].
           replace (i + S j)%nat with (S i + j)%nat by lia.
           right. right. apply in_or_app. right. right. exact Hin.
    + (* the result has none *)
      rewrite (quiet_then _ _ _ (quiet_show_image_result py_repr i result)).
      pose proof (quiet_show_image_result py_repr i result (n + ncalls ta)%nat) as Hq.
      destruct (show_image_result py_repr i result (n + ncalls ta)%nat) as [[e|[]] td];
        cbn [fst snd] in *; [discriminate|].
      destruct (image_loop openai json_loads py_repr api_key total (S i) rest
                  (acc ++ [result]) (n + ncalls ta)) as [r t'] eqn:Eloop.
      cbn [fst snd]. intros [= -> <-].
      destruct (IH _ _ _ _ _ Eloop) as (results & Ea & Ec & Ht & Hf).
      rewrite Ea. exists (result :: results). repeat split.
      * cbn [filter]. unfold succeeded at 1. rewrite Ehas, Ec, <- app_assoc. reflexivity.
      * repeat constructor. apply Forall_app. split; [exact Hcalls|].
        apply Forall_app. split; [apply quiet_sends_no_text; exact Hq | exact Ht].
      * intros [|j] res Hnth Hres.
        -- injection Hnth as <-. unfold succeeded in Hres. rewrite Ehas in Hres.
           discriminate.
        -- destruct (Hf j res Hnth Hres) as (e' & Eg & Hin).
           exists e'. split; [exact Eg|].
           replace (i + S j)%nat with (S i + j)%nat by lia.
           right. right. apply in_or_app. right. apply in_or_app. right. exact Hin.
Qed.

Lemma analyses_length (api_key : pystr) (images : list (list N)) :
  forall (n : nat) (results : list json),
  analyses openai json_loads api_key images n = inr results ->
  List.length results = List.length images.
Proof.
  induction images as [|image rest IH]; intros n results; cbn [analyses].
  - intros [= <-]. reflexivity.
  - destruct (fst _); [discriminate|].
    destruct (analyses openai json_loads api_key rest _) as [e|vs] eqn:E; [discriminate|].
    intros [= <-]. simpl. f_equal. exact (IH _ _ E).
Qed.

End ImageTab.

Section ImageTabReport.

Variable openai : pystr -> nat -> request -> result (option pystr).
Variable json_loads : pystr -> result json.
Variable json_dumps : json -> pystr.
Variable py_repr : json -> pystr.
Variable exn_str : exn -> pystr.
Variable strftime_now : pystr -> pystr.

(** C9, amended.  Whenever the handler of the image tab runs to its end
    without an exception: every image was analysed, in order; a result with
    an ["error"] was shown as the failure of its image and left out of the
    collected results; and after "분석 완료!" the report was asked for, with
    exactly the results without ["error"], in order, and shown -- or, when
    there is no such result, nothing more was done.  No report is asked for
    before that point. *)
Theorem image_tab_reports_on_the_successes
    (api_key : pystr) (images : list (list N)) (n : nat) :
  let run := analyze_images_handler openai json_loads json_dumps py_repr exn_str
               strftime_now api_key images n in
  fst run = inr tt ->
  exists (results : list json) (loop_trace : list event),
    analyses openai json_loads api_key images n = inr results /\
    List.length results = List.length images /\
    Forall (fun ev => sends_text ev = false) loop_trace /\
    (forall (j : nat) (result : json),
       nth_error results j = Some result -> succeeded result = false ->
       exists e,
         Py.get result (py "error") (JStr (py "알 수 없는 오류")) = inr e /\
         In (Show st.error (image_failure py_repr j e)) loop_trace) /\
    snd run
    = loop_trace ++ Show st.status_text (py "분석 완료!")
        :: match filter succeeded results with
           | [] => []
           | (_ :: _) as good =>
             let req := report_request json_dumps strftime_now good (py "이미지 파일")
                          default_model in
             let report := report_of exn_str (openai api_key (n + ncalls loop_trace)%nat req) in
             [ Show st.success (py "✅ " ++ str_of_nat (List.length good)
                                  ++ py "개 이미지 분석 완료!");
               Show st.spinner (py "AI가 종합 보고서를 작성 중입니다...");
               ApiCall api_key req;
               Show st.markdown (py "### 📊 AI 종합 분석 보고서");
               Show (st.text_area (py "image_report")) report;
               Show (st.download_button (py "download_image_report")
                       (report_file_name strftime_now)) report ]
           end.
Proof.
  intros run. unfold run, analyze_images_handler. rewrite bind_run.
  destruct (image_loop openai json_loads py_repr api_key (List.length images) 0 images [] n)
    as [[e|collected] t] eqn:Eloop; cbn [fst snd]; [discriminate|].
  intros _.
  destruct (image_loop_collects openai json_loads py_repr api_key _ _ _ _ _ _ _ Eloop)
    as (results & Ea & Ec & Ht & Hf).
  exists results, t. split; [exact Ea|].
  split; [exact (analyses_length openai json_loads api_key images n results Ea)|].
  split; [exact Ht|]. split; [exact Hf|].
  f_equal. rewrite show_then. cbn [snd]. f_equal.
  simpl in Ec. rewrite <- Ec.
  destruct collected as [|r rs]; [reflexivity|].
  rewrite !show_then. cbn [snd]. rewrite bind_run, generate_ai_report_run. cbn [fst snd].
  unfold show_report. rewrite !show_then. reflexivity.
Qed.

End ImageTabReport.

(** One image analysed, three unreachable attempts for the other, and a
    report on the first. *)
Lemma image_tab_reports_on_the_successes_witness :
  let images := [[137; 80; 78; 71]; [255; 216; 255]]%N in
  let run := analyze_images_handler Sample.recovers_for_report Sample.json_loads
               Sample.json_dumps Sample.py_repr Sample.exn_str Sample.strftime_now
               Sample.api_key images 0 in
  fst run = inr tt /\
  exists (results : list json) (loop_trace : list event),
    analyses Sample.recovers_for_report Sample.json_loads Sample.api_key images 0
    = inr results /\
    filter succeeded results = [JDict []] /\
    In (Show st.error (py "이미지 2 분석 실패: API 호출 실패")) loop_trace /\
    Forall (fun ev => sends_text ev = false) loop_trace /\
    exists report,
      snd run
      = loop_trace ++
        [ Show st.status_text (py "분석 완료!");
          Show st.success (py "✅ 1개 이미지 분석 완료!");
          Show st.spinner (py "AI가 종합 보고서를 작성 중입니다...");
          ApiCall Sample.api_key
            (report_request Sample.json_dumps Sample.strftime_now [JDict []]
               (py "이미지 파일") default_model);
          Show st.markdown (py "### 📊 AI 종합 분석 보고서");
          Show (st.text_area (py "image_report")) report;
          Show (st.download_button (py "download_image_report")
                  (py "AI_알레르기분석보고서_20250302_090000.txt")) report ].
Proof.
  cbv zeta.
  assert (Hend : fst (analyze_images_handler Sample.recovers_for_report Sample.json_loads
                        Sample.json_dumps Sample.py_repr Sample.exn_str
                        Sample.strftime_now Sample.api_key
                        [[137; 80; 78; 71]; [255; 216; 255]]%N 0) = inr tt)
    by (vm_compute; reflexivity).
  split; [exact Hend|].
  destruct (image_tab_reports_on_the_successes Sample.recovers_for_report
              Sample.json_loads Sample.json_dumps Sample.py_repr Sample.exn_str
              Sample.strftime_now Sample.api_key [[137; 80; 78; 71]; [255; 216; 255]]%N 0
              Hend) as (results & loop_trace & Ea & _ & Ht & Hf & Et).
  exists results, loop_trace.
  assert (Er : results = [JDict []; error_dict (py "API 호출 실패")]).
  { vm_compute in Ea. injection Ea as <-. vm_compute. reflexivity. }
  subst results. split; [exact Ea|]. split; [vm_compute; reflexivity|]. split.
  - destruct (Hf 1%nat (error_dict (py "API 호출 실패")) eq_refl eq_refl) as (e & Eg & Hin).
    vm_compute in Eg. injection Eg as <-. exact Hin.
  - split; [exact Ht|].
    exists (report_of Sample.exn_str
              (Sample.recovers_for_report Sample.api_key (0 + ncalls loop_trace)
                 (report_request Sample.json_dumps Sample.strftime_now [JDict []]
                    (py "이미지 파일") default_model))).
    vm_compute in Et. vm_compute. exact Et.
Defined.

(** C9 as stated fails: the first image is analysed and has no ["error"], the
    request for the second is rejected, and the handler ends in that
    exception: no report is asked for and none is shown. *)
Lemma rejected_image_loses_the_report :
  let images := [[137; 80; 78; 71]; [255; 216; 255]]%N in
  let run := analyze_images_handler Sample.rejects_after_first Sample.json_loads
               Sample.json_dumps Sample.py_repr Sample.exn_str Sample.strftime_now
               Sample.api_key images 0 in
  fst (analyze_food_image_with_ai Sample.rejects_after_first Sample.json_loads
         [137; 80; 78; 71]%N Sample.api_key default_model default_max_retries 0)
  = inr (JDict []) /\
  succeeded (JDict []) = true /\
  fst run = inl (Exn OtherException (py "400 invalid image")) /\
  existsb sends_text (snd run) = false /\
  existsb (fun ev => match ev with
                     | Show (st.text_area _) _ => true
                     | _ => false
                     end) (snd run) = false.
Proof. cbv zeta. repeat split; vm_compute; reflexivity. Qed.

(** The display of a result can end the handler as well: a menu item without
    a ["name"] is no ["error"], and showing it raises [KeyError]. *)
Example unnamed_menu_item_ends_the_handler :
  let run := analyze_images_handler (Sample.says Sample.unnamed_item) Sample.json_loads
               Sample.json_dumps Sample.py_repr Sample.exn_str Sample.strftime_now
               Sample.api_key [[137; 80; 78; 71]%N] 0 in
  fst run = inl (Exn KeyError (py "name")) /\ existsb sends_text (snd run) = false.
Proof. cbv zeta. split; vm_compute; reflexivity. Qed.

(** Without the key nothing is called, whatever is uploaded and pressed:
    with no secrets file the run ends in the exception of the first look at
    the secrets, after the three calls of the page head; with a secrets file
    that lacks the key it shows the message and stops. *)
Lemma missing_key_stops_before_anything_else_witness :
  (let run := app (Sample.says (py "{}")) Sample.json_loads Sample.json_dumps
                Sample.py_repr Sample.exn_str Sample.strftime_now Sample.image_open
                (Sample.busy_session Sample.no_secrets_file) 0 in
   fst run = inl (Exn OtherException (py "No secrets files found.")) /\
   List.length (snd run) = 3%nat /\
   api_calls (snd run) = [] /\ sleeps (snd run) = [])
  /\
  (let run := app (Sample.says (py "{}")) Sample.json_loads Sample.json_dumps
                Sample.py_repr Sample.exn_str Sample.strftime_now Sample.image_open
                (Sample.busy_session Sample.secrets_without_key) 0 in
   fst run = inr tt /\ List.length (snd run) = 5%nat /\
   api_calls (snd run) = [] /\ sleeps (snd run) = []).
Proof.
  cbv zeta. split.
  - destruct (missing_key_stops_before_anything_else (Sample.says (py "{}"))
                Sample.json_loads Sample.json_dumps Sample.py_repr Sample.exn_str
                Sample.strftime_now Sample.image_open
                (Sample.busy_session Sample.no_secrets_file) 0 eq_refl)
      as (A & B & C & D).
    rewrite A, C, D, B. repeat split.
  - destruct (missing_key_stops_before_anything_else (Sample.says (py "{}"))
                Sample.json_loads Sample.json_dumps Sample.py_repr Sample.exn_str
                Sample.strftime_now Sample.image_open
                (Sample.busy_session Sample.secrets_without_key) 0 eq_refl)
      as (A & B & C & D).
    rewrite A, C, D, B. repeat split.
Defined.

(** With the key, the same run calls the service for the sidebar and for
    every tab: twice per tab, once to analyse and once to report. *)
Example key_present_run_calls_the_service :
  let run := app (Sample.says (py "{}")) Sample.json_loads Sample.json_dumps
               Sample.py_repr Sample.exn_str Sample.strftime_now Sample.image_open
               (Sample.busy_session Sample.secrets_with_key) 0 in
  fst run = inr tt /\ ncalls (snd run) = 9%nat.
Proof. vm_compute. split; reflexivity. Qed.

(** An upload that is no picture ends the run where it is previewed, before
    the button of the tab is looked at. *)
Example upload_that_is_no_image_ends_the_run :
  let s := Sample.busy_session Sample.secrets_with_key in
  let run := app (Sample.says (py "{}")) Sample.json_loads Sample.json_dumps
               Sample.py_repr Sample.exn_str Sample.strftime_now Sample.image_open
               {| secrets := secrets s;
                  selected_allergen := selected_allergen s;
                  get_medical_info := false;
                  uploaded_images := [[137; 80; 78; 71]%N];
                  analyze_images := true;
                  text_input := text_input s;
                  analyze_text := true;
                  uploaded_excel := uploaded_excel s;
                  analyze_excel := true;
                  uploaded_pdf := uploaded_pdf s;
                  analyze_pdf := true |} 0 in
  fst run = inl (Exn OtherException (py "cannot identify image file")) /\
  ncalls (snd run) = 0%nat.
Proof. vm_compute. split; reflexivity. Qed.

(** * More on the retry loop *)

Lemma sum_backoff_from (i count : nat) :
  (fold_right Z.add 0 (map (fun j => 2 ^ Z.of_nat j) (seq i count))
   = 2 ^ Z.of_nat (i + count) - 2 ^ Z.of_nat i)%Z.
Proof.
  revert i. induction count as [|c IH]; intros i.
  - simpl. rewrite Nat.add_0_r. lia.
  - cbn [seq map fold_right]. rewrite IH.
    replace (i + S c)%nat with (S i + c)%nat by lia.
    replace (Z.of_nat (S i)) with (Z.of_nat i + 1)%Z by lia.
    rewrite (Z.pow_add_r 2 (Z.of_nat i) 1) by lia. lia.
Qed.

Section RetryShape.

Variable openai : pystr -> nat -> request -> result (option pystr).
Variable json_loads : pystr -> result json.

(** Whatever the service does, the loop leaves some failed attempts, each
    followed by its sleep, and one last attempt. *)
Lemma retry_loop_shape (api_key : pystr) (req : request) (max_retries : Z) (len : nat) :
  forall (i n : nat),
  (Z.of_nat (i + S len) = max_retries + 1)%Z ->
  exists k, (k <= len)%nat /\
    snd (retry_loop openai api_key req max_retries (map Z.of_nat (seq i (S len))) n)
    = retry_trace_from api_key req i k.
Proof.
  induction len as [|len IH]; intros i n Hlen;
    change (seq i (S ?l)) with (i :: seq (S i) l); rewrite map_cons;
    destruct (openai api_key n req) as [e|reply] eqn:E.
  - destruct (is_transient e) eqn:T.
    + replace (Z.of_nat i) with max_retries by lia.
      rewrite (retry_loop_last _ _ _ _ _ _ _ E T). exists 0%nat. split; [lia | reflexivity].
    + rewrite (retry_loop_raise _ _ _ _ _ _ _ _ E T). exists 0%nat. split; [lia | reflexivity].
  - rewrite (retry_loop_break _ _ _ _ _ _ _ _ E). exists 0%nat. split; [lia | reflexivity].
  - destruct (is_transient e) eqn:T.
    + rewrite (retry_loop_again _ _ _ _ _ _ _ _ E T) by lia.
      destruct (IH (S i) (S n)) as (k & Hk & Ek); [lia|].
      exists (S k). split; [lia|]. cbn [snd]. rewrite Ek. reflexivity.
    + rewrite (retry_loop_raise _ _ _ _ _ _ _ _ E T). exists 0%nat. split; [lia | reflexivity].
  - rewrite (retry_loop_break _ _ _ _ _ _ _ _ E). exists 0%nat. split; [lia | reflexivity].
Qed.

Lemma loop_then_parse_shape (api_key : pystr) (req : request) (max_retries : Z) (n : nat) :
  (0 <= max_retries)%Z ->
  exists k, (Z.of_nat k <= max_retries)%Z /\
    snd (bind (retry_loop openai api_key req max_retries (py_range (max_retries + 1)))
              (after_loop json_loads) n)
    = retry_trace api_key req k.
Proof.
  intros H0. rewrite bind_run, py_range_succ by lia.
  destruct (retry_loop_shape api_key req max_retries (Z.to_nat max_retries) 0 n)
    as (k & Hk & Ek); [lia|].
  exists k. split; [lia|]. rewrite Ek.
  destruct (fst _); cbn [snd]; [reflexivity|].
  rewrite after_loop_trace, app_nil_r. reflexivity.
Qed.

(** X1.  Whatever the service answers or raises, and with [0 <= max_retries],
    a run of either analysis function is [k <= max_retries] failed attempts,
    each followed at once by its sleep, and one last attempt: at least one
    and at most [max_retries + 1] calls, the sleeps 1, 2, ..., 2^(k-1) in
    this order, [2^k - 1] seconds in all. *)
Theorem analysis_attempts_are_bounded
    (max_retries : Z) (image_bytes : list N) (text api_key model : pystr) (n : nat) :
  (0 <= max_retries)%Z ->
  (exists k : nat,
     (Z.of_nat k <= max_retries)%Z /\
     let t := snd (analyze_text_with_ai openai json_loads text api_key model max_retries n) in
     t = retry_trace api_key (text_request text model) k /\
     ncalls t = (k + 1)%nat /\ sleeps t = backoff k /\
     total_sleep t = (2 ^ Z.of_nat k - 1)%Z)
  /\
  (exists k : nat,
     (Z.of_nat k <= max_retries)%Z /\
     let t := snd (analyze_food_image_with_ai openai json_loads image_bytes api_key model
                     max_retries n) in
     t = retry_trace api_key (image_request image_bytes model) k /\
     ncalls t = (k + 1)%nat /\ sleeps t = backoff k /\
     total_sleep t = (2 ^ Z.of_nat k - 1)%Z).
Proof.
  intros H0.
  assert (Shape : forall (req : request) (t : list event) (k : nat),
            t = retry_trace api_key req k ->
            t = retry_trace api_key req k /\ ncalls t = (k + 1)%nat /\
            sleeps t = backoff k /\ total_sleep t = (2 ^ Z.of_nat k - 1)%Z).
  { intros req t k ->. split; [reflexivity|]. split; [apply ncalls_retry_trace_from|].
    split; [apply sleeps_retry_trace_from|].
    unfold total_sleep, retry_trace. rewrite sleeps_retry_trace_from, sum_backoff_from.
    simpl. lia. }
  split.
  - destruct (loop_then_parse_shape api_key (text_request text model) max_retries n H0)
      as (k & Hk & Ek).
    exists k. split; [exact Hk|]. apply Shape. rewrite analyze_text_with_ai_eq. exact Ek.
  - destruct (loop_then_parse_shape api_key (image_request image_bytes model) max_retries n H0)
      as (k & Hk & Ek).
    exists k. split; [exact Hk|]. apply Shape. rewrite analyze_food_image_with_ai_eq. exact Ek.
Qed.

(** Some transient failures, then an exception that is not transient. *)
Lemma retry_loop_gives_way (api_key : pystr) (req : request) (max_retries : Z) (count : nat) :
  forall (i len n : nat) (e : exn),
  (Z.of_nat (i + len) = max_retries + 1)%Z -> (count < len)%nat ->
  transient_calls openai api_key req n count ->
  openai api_key (n + count)%nat req = inl e -> is_transient e = false ->
  retry_loop openai api_key req max_retries (map Z.of_nat (seq i len)) n
  = (inl e, retry_trace_from api_key req i count).
Proof.
  induction count as [|c IH]; intros i len n e Hlen Hc Hfail Hraise Hfatal.
  - destruct len as [|len]; [lia|]. simpl seq. simpl map.
    rewrite Nat.add_0_r in Hraise.
    rewrite (retry_loop_raise _ _ _ _ _ _ _ _ Hraise Hfatal). reflexivity.
  - destruct len as [|len]; [lia|]. simpl seq. simpl map.
    destruct (Hfail 0%nat ltac:(lia)) as (e0 & E & T). rewrite Nat.add_0_r in E.
    rewrite (retry_loop_again _ _ _ _ _ _ _ _ E T) by lia.
    rewrite (IH (S i) len (S n) e); try lia; try assumption.
    + reflexivity.
    + intros k Hk. destruct (Hfail (S k) ltac:(lia)) as (e' & E' & T').
      exists e'. split; [|exact T']. rewrite <- E'. f_equal. lia.
    + rewrite <- Hraise. f_equal. lia.
Qed.

Lemma loop_then_parse_gives_way (api_key : pystr) (req : request) (max_retries : Z)
    (n count : nat) (e : exn) :
  (Z.of_nat count <= max_retries)%Z ->
  transient_calls openai api_key req n count ->
  openai api_key (n + count)%nat req = inl e -> is_transient e = false ->
  bind (retry_loop openai api_key req max_retries (py_range (max_retries + 1)))
       (after_loop json_loads) n
  = (inl e, retry_trace api_key req count).
Proof.
  intros Hc Hfail Hraise Hfatal. unfold bind. rewrite py_range_succ by lia.
  rewrite (retry_loop_gives_way api_key req max_retries count 0 _ n e);
    try assumption; try lia.
  reflexivity.
Qed.

(** X2.  An exception of the service that is neither [RateLimitError] nor
    [APIConnectionError] is not retried: after [count <= max_retries]
    transient failures, it leaves either analysis function as it is, right
    after the call that raised it, with no sleep after that call. *)
Theorem other_exceptions_leave_the_analysis
    (max_retries : Z) (image_bytes : list N) (text api_key model : pystr)
    (n count : nat) (e : exn) :
  (Z.of_nat count <= max_retries)%Z -> is_transient e = false ->
  (transient_calls openai api_key (text_request text model) n count ->
   openai api_key (n + count)%nat (text_request text model) = inl e ->
   analyze_text_with_ai openai json_loads text api_key model max_retries n
   = (inl e, retry_trace api_key (text_request text model) count))
  /\
  (transient_calls openai api_key (image_request image_bytes model) n count ->
   openai api_key (n + count)%nat (image_request image_bytes model) = inl e ->
   analyze_food_image_with_ai openai json_loads image_bytes api_key model max_retries n
   = (inl e, retry_trace api_key (image_request image_bytes model) count)).
Proof.
  intros Hc Hfatal. split; intros Hfail Hraise.
  - rewrite analyze_text_with_ai_eq. apply loop_then_parse_gives_way; assumption.
  - rewrite analyze_food_image_with_ai_eq. apply loop_then_parse_gives_way; assumption.
Qed.

(** X3.  With a negative [max_retries] the loop body never runs: neither
    analysis function calls the service, and both end in the
    [UnboundLocalError] of [res], which their [except json.JSONDecodeError]
    does not catch. *)
Theorem negative_max_retries_calls_nothing
    (max_retries : Z) (image_bytes : list N) (text api_key model : pystr) (n : nat) :
  (max_retries < 0)%Z ->
  analyze_text_with_ai openai json_loads text api_key model max_retries n
  = (inl (Exn UnboundLocalError (py "res")), [])
  /\
  analyze_food_image_with_ai openai json_loads image_bytes api_key model max_retries n
  = (inl (Exn UnboundLocalError (py "res")), []).
Proof.
  intros H. split.
  - rewrite analyze_text_with_ai_eq. apply loop_then_parse_no_attempt. exact H.
  - rewrite analyze_food_image_with_ai_eq. apply loop_then_parse_no_attempt. exact H.
Qed.

(** X4.  The parse step turns only [JSONDecodeError] into a value.  When the
    first attempt is answered, both analysis functions raise
    [AttributeError] for an answer without content, and raise whatever else
    [json.loads] raises on the span. *)
Theorem parse_step_lets_other_exceptions_out
    (max_retries : Z) (image_bytes : list N) (text api_key model : pystr) (n : nat)
    (reply : option pystr) :
  (0 <= max_retries)%Z ->
  openai api_key n (text_request text model) = inr reply ->
  openai api_key n (image_request image_bytes model) = inr reply ->
  let text_result :=
    fst (analyze_text_with_ai openai json_loads text api_key model max_retries n) in
  let image_result :=
    fst (analyze_food_image_with_ai openai json_loads image_bytes api_key model
           max_retries n) in
  (reply = None ->
   text_result = inl (Exn AttributeError (py "strip")) /\
   image_result = inl (Exn AttributeError (py "strip")))
  /\
  (forall (content pre mid post : pystr) (e : exn),
     reply = Some content ->
     strip content = pre ++ lbrace :: mid ++ rbrace :: post ->
     ~ In lbrace pre -> ~ In rbrace post ->
     json_loads (lbrace :: mid ++ [rbrace]) = inl e -> is_JSONDecodeError e = false ->
     text_result = inl e /\ image_result = inl e).
Proof.
  intros H0 Etext Eimage text_result image_result.
  assert (Rtext : text_result = parse_reply json_loads reply).
  { unfold text_result. rewrite analyze_text_with_ai_eq.
    rewrite (loop_then_parse_first openai json_loads api_key _ max_retries n reply H0 Etext).
    reflexivity. }
  assert (Rimage : image_result = parse_reply json_loads reply).
  { unfold image_result. rewrite analyze_food_image_with_ai_eq.
    rewrite (loop_then_parse_first openai json_loads api_key _ max_retries n reply H0 Eimage).
    reflexivity. }
  rewrite Rtext, Rimage. split.
  - intros ->. split; reflexivity.
  - intros content pre mid post e -> E Hpre Hpost He Hd.
    rewrite (parse_reply_span json_loads content pre mid post E Hpre Hpost), He, Hd.
    split; reflexivity.
Qed.

End RetryShape.

(** * Error markers *)

Lemma error_dict_has_error (msg : pystr) :
  Py.has (py "error") (error_dict msg) = inr true /\
  Py.getitem (error_dict msg) (py "error") = inr (JStr msg) /\
  Py.has (py "raw") (error_dict msg) = inr false /\
  forall default, Py.get (error_dict msg) (py "error") default = inr (JStr msg).
Proof. repeat split. Qed.

Lemma error_raw_dict_has_error (msg content : pystr) :
  Py.has (py "error") (error_raw_dict msg content) = inr true /\
  forall default, Py.get (error_raw_dict msg content) (py "error") default = inr (JStr msg).
Proof. repeat split. Qed.

(** * Medical information *)

Section MedicalInfo.

Variable openai : pystr -> nat -> request -> result (option pystr).
Variable json_loads : pystr -> result json.
Variable json_dumps : json -> pystr.
Variable py_repr : json -> pystr.
Variable exn_str : exn -> pystr.
Variable strftime_now : pystr -> pystr.

Lemma get_medical_info_run (allergen api_key model : pystr) (n : nat) :
  get_medical_info_for_allergen openai json_loads exn_str allergen api_key model n
  = (inr match openai api_key n (medical_request allergen model) with
         | inl e => error_dict (py "의학 정보 생성 실패: " ++ exn_str e)
         | inr None =>
           error_dict (py "의학 정보 생성 실패: " ++ exn_str (Exn AttributeError (py "strip")))
         | inr (Some reply) =>
           match Re.search (strip reply) with
           | None => error_dict (py "의학 정보 파싱 실패")
           | Some json_match =>
             match json_loads json_match with
             | inr v => v
             | inl e => error_dict (py "의학 정보 생성 실패: " ++ exn_str e)
             end
           end
         end,
     [ApiCall api_key (medical_request allergen model)]).
Proof.
  unfold get_medical_info_for_allergen, bind, try, create, lift, stripped_content.
  destruct (openai api_key n _) as [e|[reply|]]; try reflexivity.
  cbn. destruct (Re.search (strip reply)) as [m|]; [|reflexivity].
  cbn. destruct (json_loads m); reflexivity.
Qed.

(** X5.  [get_medical_info_for_allergen] calls the service exactly once, with
    no retry and no sleep even after a transient failure, and never raises.
    Whatever is raised by the call, by an answer without content or by
    [json.loads] (a [JSONDecodeError] too) comes back as
    [{"error": "의학 정보 생성 실패: ..."}]; an answer without a [{]-to-[}] span
    as [{"error": "의학 정보 파싱 실패"}], which has no ["raw"]; otherwise the
    value decoded from the first [{] through the last [}] of the stripped
    answer. *)
Theorem medical_info_is_one_call_and_a_value
    (allergen api_key model : pystr) (n : nat) :
  let req := medical_request allergen model in
  let run := get_medical_info_for_allergen openai json_loads exn_str allergen api_key
               model n in
  let failure := fun e => error_dict (py "의학 정보 생성 실패: " ++ exn_str e) in
  snd run = [ApiCall api_key req] /\
  (forall e, openai api_key n req = inl e -> fst run = inr (failure e)) /\
  (openai api_key n req = inr None ->
   fst run = inr (failure (Exn AttributeError (py "strip")))) /\
  (forall reply, openai api_key n req = inr (Some reply) ->
     (~ has_span reply ->
      fst run = inr (error_dict (py "의학 정보 파싱 실패")) /\
      Py.has (py "raw") (error_dict (py "의학 정보 파싱 실패")) = inr false) /\
     (forall pre mid post,
        strip reply = pre ++ lbrace :: mid ++ rbrace :: post ->
        ~ In lbrace pre -> ~ In rbrace post ->
        fst run = inr match json_loads (lbrace :: mid ++ [rbrace]) with
                      | inr v => v
                      | inl e => failure e
                      end)).
Proof.
  intros req run failure. unfold run. rewrite get_medical_info_run. fold req. cbn [fst snd].
  split; [reflexivity|]. split; [|split].
  - intros e ->. reflexivity.
  - intros ->. reflexivity.
  - intros reply ->. split.
    + intros Hs.
      assert (E : Re.search (strip reply) = None).
      { apply search_none_iff. intros H. apply Hs. apply has_span_strip. exact H. }
      rewrite E. split; reflexivity.
    + intros pre mid post E Hpre Hpost. rewrite E.
      rewrite (search_span _ _ _ Hpre Hpost).
      destruct (json_loads (lbrace :: mid ++ [rbrace])); reflexivity.
Qed.

(** X6.  When the lookup of the sidebar fails in the call, the sidebar shows
    the failure text in place of the information and goes on to the
    emergency guide; the run is not ended. *)
Theorem sidebar_shows_a_failed_lookup
    (api_key : pystr) (s : session) (n : nat) (e : exn) :
  get_medical_info s = true ->
  openai api_key n (medical_request (selected_allergen s) default_model) = inl e ->
  sidebar openai json_loads py_repr exn_str api_key s n
  = (inr tt,
     [ Show st.header (py "📚 알레르기 정보 센터");
       Show st.subheader (py "🔍 알레르기 상세 정보 조회");
       Show st.spinner (selected_allergen s ++ py " 정보를 가져오는 중...");
       ApiCall api_key (medical_request (selected_allergen s) default_model);
       Show st.error (py "의학 정보 생성 실패: " ++ exn_str e);
       Show st.divider [];
       Show st.subheader (py "⚡ 응급 대응 가이드");
       Show st.error emergency_guide ]).
Proof.
  intros Hb He. unfold sidebar. rewrite Hb, !show_then.
  rewrite bind_run, show_then, bind_run, get_medical_info_run, He. cbn [fst snd].
  rewrite lift_then.
  destruct (error_dict_has_error (py "의학 정보 생성 실패: " ++ exn_str e)) as (Hh & Hg & _).
  rewrite Hh. cbn [negb].
  rewrite lift_then, Hg. cbn [fmt]. rewrite !show_then. reflexivity.
Qed.

End MedicalInfo.

(** * What the displays never do *)

Lemma quiet_for_each_from {A} (xs : list A) (body : nat -> A -> M unit) :
  (forall i x, quiet (body i x)) -> forall i, quiet (for_each_from i xs body).
Proof.
  intros H. induction xs as [|x xs IH]; intros i; simpl.
  - apply quiet_ret.
  - apply quiet_bind; [apply H | intros _; apply IH].
Qed.

Lemma quiet_try {A} (m : M A) : quiet m -> quiet (try m).
Proof.
  intros H n. specialize (H n). unfold try. destruct (m n). exact H.
Qed.

Lemma quiet_sleeps (t : list event) :
  Forall (fun ev => is_show ev = true) t -> sleeps t = [].
Proof.
  induction 1 as [|ev t H _ IH]; [reflexivity|].
  destruct ev; try discriminate H. exact IH.
Qed.

Lemma quiet_api_calls (t : list event) :
  Forall (fun ev => is_show ev = true) t -> api_calls t = [].
Proof.
  induction 1 as [|ev t H _ IH]; [reflexivity|].
  destruct ev; try discriminate H. exact IH.
Qed.

Section Displays.

Variable py_repr : json -> pystr.
Variable strftime_now : pystr -> pystr.

Lemma quiet_menu_rows (menu : json) (allergens : list json) :
  forall allergen_data, quiet (menu_rows menu allergens allergen_data).
Proof.
  induction allergens as [|a rest IH]; intros allergen_data; simpl.
  - apply quiet_ret.
  - apply quiet_bind; [unfold allergen_row; quiet | intros row; apply IH].
Qed.

Lemma quiet_all_rows (menus : list json) :
  forall allergen_data, quiet (all_rows menus allergen_data).
Proof.
  induction menus as [|menu rest IH]; intros allergen_data; simpl.
  - apply quiet_ret.
  - apply quiet_bind; [apply quiet_lift|]. intros analysis.
    apply quiet_bind; [apply quiet_lift|]. intros allergens.
    apply quiet_bind; [apply quiet_menu_rows | intros rows; apply IH].
Qed.

Lemma quiet_show_report (report area_key download_key : pystr) :
  quiet (show_report strftime_now report area_key download_key).
Proof. unfold show_report. quiet. Qed.

Lemma quiet_show_medical_info (medical_info : json) (selected : pystr) :
  quiet (show_medical_info py_repr medical_info selected).
Proof. unfold show_medical_info. quiet. Qed.

Lemma quiet_show_text_result (result : json) : quiet (show_text_result py_repr result).
Proof.
  unfold show_text_result, show_menu, show_menu_allergen, show_summary. quiet.
Qed.

Lemma quiet_show_excel_result (result : json) : quiet (show_excel_result result).
Proof.
  unfold show_excel_result.
  apply quiet_bind; [apply quiet_lift|]. intros [|]; [|apply quiet_ret].
  apply quiet_bind; [apply quiet_lift|]. intros menus.
  apply quiet_bind; [apply quiet_lift|]. intros ms.
  apply quiet_bind; [apply quiet_all_rows|]. intros [|row rows]; quiet.
Qed.

Lemma quiet_show_pdf_result (result : json) : quiet (show_pdf_result py_repr result).
Proof. unfold show_pdf_result. quiet. Qed.

(** X7.  Showing a result never calls the service and never sleeps: the
    displays of the medical information, of an image result, of a text
    result, of the Excel table, of a PDF result and of the report leave
    nothing but shown texts, whatever value they are given and whether or
    not they end in an exception. *)
Theorem displays_only_show :
  (forall medical_info selected, quiet (show_medical_info py_repr medical_info selected)) /\
  (forall i result, quiet (show_image_result py_repr i result)) /\
  (forall result, quiet (show_text_result py_repr result)) /\
  (forall result, quiet (show_excel_result result)) /\
  (forall result, quiet (show_pdf_result py_repr result)) /\
  (forall report area_key download_key,
     quiet (show_report strftime_now report area_key download_key)) /\
  (forall (A : Type) (m : M A) (n : nat),
     quiet m -> api_calls (snd (m n)) = [] /\ sleeps (snd (m n)) = []).
Proof.
  repeat split.
  - apply quiet_show_medical_info.
  - apply quiet_show_image_result.
  - apply quiet_show_text_result.
  - apply quiet_show_excel_result.
  - apply quiet_show_pdf_result.
  - apply quiet_show_report.
  - apply quiet_api_calls. apply H.
  - apply quiet_sleeps. apply H.
Qed.

End Displays.

(** * Whole runs *)

Lemma returns_ret {A} (a : A) : returns (ret a).
Proof. intros n. exists a. reflexivity. Qed.

Lemma returns_show (w : st.widget) (shown : pystr) : returns (show w shown).
Proof. intros n. exists tt. reflexivity. Qed.

Lemma returns_try {A} (m : M A) : returns (try m).
Proof. intros n. unfold try. destruct (m n) as [r t]. exists r. reflexivity. Qed.

Lemma returns_bind {A B} (m : M A) (k : A -> M B) :
  returns m -> (forall a, returns (k a)) -> returns (bind m k).
Proof.
  intros Hm Hk n. rewrite bind_run. destruct (Hm n) as (a & Ea). rewrite Ea.
  destruct (Hk a (n + ncalls (snd (m n)))%nat) as (b & Eb). exists b. exact Eb.
Qed.

Lemma returns_lift_bind {A B} (r : result A) (k : A -> M B) (a : A) :
  r = inr a -> returns (k a) -> returns (bind (lift r) k).
Proof. intros E H n. rewrite lift_then, E. apply H. Qed.

Lemma returns_for_each_from {A} (xs : list A) (body : nat -> A -> M unit) :
  (forall i x, In x xs -> returns (body i x)) -> forall i, returns (for_each_from i xs body).
Proof.
  induction xs as [|x xs IH]; intros H i; simpl.
  - apply returns_ret.
  - apply returns_bind; [apply H; left; reflexivity|].
    intros _. apply IH. intros j y Hy. apply H. right. exact Hy.
Qed.

Ltac returning :=
  repeat match goal with
  | |- returns (ret _) => apply returns_ret
  | |- returns (show _ _) => apply returns_show
  | |- returns (try _) => apply returns_try
  | |- returns (bind _ _) => apply returns_bind; [|intros]
  | |- returns (match ?x with _ => _ end) => destruct x
  end.

Ltac hushed :=
  repeat match goal with
  | |- quiet (ret _) => apply quiet_ret
  | |- quiet (lift _) => apply quiet_lift
  | |- quiet (show _ _) => apply quiet_show
  | |- quiet (try _) => apply quiet_try
  | |- quiet (for_each_from _ _ _) => apply quiet_for_each_from; intros
  | |- quiet (bind _ _) => apply quiet_bind; [|intros]
  | |- quiet (match ?x with _ => _ end) => destruct x
  end.

Lemma always_quiet {A} (key : option pystr) (m : M A) :
  quiet m -> always (within_limits key) m.
Proof.
  intros H n. specialize (H n). induction H as [|ev t Hev _ IH]; constructor; [|exact IH].
  destruct ev; try discriminate Hev. exact I.
Qed.

Lemma always_bind {A B} (P : event -> Prop) (m : M A) (k : A -> M B) :
  always P m -> (forall a, always P (k a)) -> always P (bind m k).
Proof.
  intros Hm Hk n. rewrite bind_run. destruct (fst (m n)) as [e|a]; simpl.
  - apply Hm.
  - apply Forall_app. split; [apply Hm | apply Hk].
Qed.

Lemma always_lift_bind {A B} (P : event -> Prop) (r : result A) (k : A -> M B) :
  (forall a, r = inr a -> always P (k a)) -> always P (bind (lift r) k).
Proof.
  intros H n. rewrite lift_then. destruct r as [e|a]; [constructor|].
  apply H. reflexivity.
Qed.

Lemma always_try {A} (P : event -> Prop) (m : M A) : always P m -> always P (try m).
Proof.
  intros H n. specialize (H n). unfold try. destruct (m n). exact H.
Qed.

Lemma getitem_configured_key (secrets : secrets_file) (api_key : pystr) :
  Secrets.getitem secrets (py "OPENAI_API_KEY") = inr api_key ->
  configured_key secrets = Some api_key.
Proof.
  unfold Secrets.getitem, configured_key. destruct secrets as [e|fields]; [discriminate|].
  destruct (Secrets.lookup (py "OPENAI_API_KEY") fields); [|discriminate].
  intros H. injection H as ->. reflexivity.
Qed.

Lemma configured_key_getitem (secrets : secrets_file) (api_key : pystr) :
  configured_key secrets = Some api_key ->
  Secrets.contains (py "OPENAI_API_KEY") secrets = inr true /\
  Secrets.getitem secrets (py "OPENAI_API_KEY") = inr api_key.
Proof.
  unfold Secrets.getitem, Secrets.contains, configured_key.
  destruct secrets as [e|fields]; [discriminate|].
  intros ->. split; reflexivity.
Qed.

Section Limits.

Variable openai : pystr -> nat -> request -> result (option pystr).
Variable json_loads : pystr -> result json.
Variable json_dumps : json -> pystr.
Variable py_repr : json -> pystr.
Variable exn_str : exn -> pystr.
Variable strftime_now : pystr -> pystr.
Variable image_open : list N -> result unit.

Lemma retry_trace_within_limits (api_key : pystr) (req : request) (k : nat) :
  model req = default_model -> (k <= 2)%nat ->
  Forall (within_limits (Some api_key)) (retry_trace api_key req k).
Proof.
  intros Hm Hk.
  assert (Hcall : within_limits (Some api_key) (ApiCall api_key req))
    by (split; [reflexivity | exact Hm]).
  assert (H1 : within_limits (Some api_key) (Sleep (2 ^ Z.of_nat 0))) by (left; reflexivity).
  assert (H2 : within_limits (Some api_key) (Sleep (2 ^ Z.of_nat 1))) by (right; reflexivity).
  destruct k as [|[|[|k]]]; [| | |lia]; unfold retry_trace, retry_trace_from;
    cbn [seq flat_map app]; repeat (apply Forall_cons; [assumption|]); apply Forall_nil.
Qed.

Lemma always_loop_then_parse (api_key : pystr) (req : request) :
  model req = default_model ->
  always (within_limits (Some api_key))
    (bind (retry_loop openai api_key req default_max_retries
             (py_range (default_max_retries + 1)))
          (after_loop json_loads)).
Proof.
  intros Hm n.
  destruct (loop_then_parse_shape openai json_loads api_key req default_max_retries n)
    as (k & Hk & Ek); [unfold default_max_retries; lia|].
  rewrite Ek. apply retry_trace_within_limits; [exact Hm|].
  unfold default_max_retries in Hk. lia.
Qed.

Lemma always_analyze_text (text api_key : pystr) :
  always (within_limits (Some api_key))
    (analyze_text_with_ai openai json_loads text api_key default_model default_max_retries).
Proof.
  intros n. rewrite analyze_text_with_ai_eq.
  apply (always_loop_then_parse api_key (text_request text default_model)). reflexivity.
Qed.

Lemma always_analyze_image (image_bytes : list N) (api_key : pystr) :
  always (within_limits (Some api_key))
    (analyze_food_image_with_ai openai json_loads image_bytes api_key default_model
       default_max_retries).
Proof.
  intros n. rewrite analyze_food_image_with_ai_eq.
  apply (always_loop_then_parse api_key (image_request image_bytes default_model)).
  reflexivity.
Qed.

Lemma always_report (analysis_results : list json) (source_type api_key : pystr) :
  always (within_limits (Some api_key))
    (generate_ai_report openai json_dumps exn_str strftime_now analysis_results source_type
       api_key default_model).
Proof.
  intros n. rewrite generate_ai_report_run. cbn [snd].
  apply Forall_cons; [|apply Forall_nil]. split; reflexivity.
Qed.

Lemma always_medical (allergen api_key : pystr) :
  always (within_limits (Some api_key))
    (get_medical_info_for_allergen openai json_loads exn_str allergen api_key default_model).
Proof.
  intros n. rewrite get_medical_info_run. cbn [snd].
  apply Forall_cons; [|apply Forall_nil]. split; reflexivity.
Qed.

Ltac limits :=
  repeat match goal with
  | |- always _ (analyze_text_with_ai _ _ _ _ _ _) => apply always_analyze_text
  | |- always _ (analyze_food_image_with_ai _ _ _ _ _ _) => apply always_analyze_image
  | |- always _ (generate_ai_report _ _ _ _ _ _ _ _) => apply always_report
  | |- always _ (get_medical_info_for_allergen _ _ _ _ _ _) => apply always_medical
  | |- always _ (ret _) => apply always_quiet, quiet_ret
  | |- always _ (lift _) => apply always_quiet, quiet_lift
  | |- always _ (show _ _) => apply always_quiet, quiet_show
  | |- always _ (show_report _ _ _ _) => apply always_quiet, quiet_show_report
  | |- always _ (show_medical_info _ _ _) => apply always_quiet, quiet_show_medical_info
  | |- always _ (show_image_result _ _ _) => apply always_quiet, quiet_show_image_result
  | |- always _ (show_text_result _ _) => apply always_quiet, quiet_show_text_result
  | |- always _ (show_excel_result _) => apply always_quiet, quiet_show_excel_result
  | |- always _ (show_pdf_result _ _) => apply always_quiet, quiet_show_pdf_result
  | |- always _ (for_each_from _ _ _) => apply always_quiet; hushed
  | |- always _ (try _) => apply always_try
  | |- always _ (bind _ _) => apply always_bind; [|intros]
  | |- always _ (match ?x with _ => _ end) => destruct x
  end.

Lemma always_image_loop (api_key : pystr) (total : nat) (images : list (list N)) :
  forall i analysis_results,
  always (within_limits (Some api_key))
    (image_loop openai json_loads py_repr api_key total i images analysis_results).
Proof.
  induction images as [|image rest IH]; intros i acc; cbn [image_loop].
  - limits.
  - limits; apply IH.
Qed.

Lemma always_sidebar (api_key : pystr) (s : session) :
  always (within_limits (Some api_key)) (sidebar openai json_loads py_repr exn_str api_key s).
Proof. unfold sidebar. limits. Qed.

Lemma always_image_tab (api_key : pystr) (s : session) :
  always (within_limits (Some api_key))
    (image_tab openai json_loads json_dumps py_repr exn_str strftime_now image_open api_key s).
Proof.
  unfold image_tab, analyze_images_handler.
  repeat first
    [ match goal with
      | |- always _ (image_loop _ _ _ _ _ _ _ _) => apply always_image_loop
      end
    | progress limits ].
Qed.

Lemma always_text_tab (api_key : pystr) (s : session) :
  always (within_limits (Some api_key))
    (text_tab openai json_loads json_dumps py_repr exn_str strftime_now api_key s).
Proof. unfold text_tab, analyze_text_handler. limits. Qed.

Lemma always_excel_tab (api_key : pystr) (s : session) :
  always (within_limits (Some api_key))
    (excel_tab openai json_loads json_dumps py_repr exn_str strftime_now api_key s).
Proof. unfold excel_tab, analyze_excel_handler. limits. Qed.

Lemma always_pdf_tab (api_key : pystr) (s : session) :
  always (within_limits (Some api_key))
    (pdf_tab openai json_loads json_dumps py_repr exn_str strftime_now api_key s).
Proof. unfold pdf_tab, analyze_pdf_handler. limits. Qed.

Lemma quiet_lift_bind {A B} (r : result A) (k : A -> M B) :
  (forall a, r = inr a -> quiet (k a)) -> quiet (bind (lift r) k).
Proof.
  intros H n. rewrite lift_then. destruct r as [e|a]; [constructor|].
  apply H. reflexivity.
Qed.

(** X9.  In every run of the script, whatever the secrets hold, whatever is
    uploaded or pressed and whatever the service does: every call to the
    service is made with the key of the secrets and with the model
    gpt-4o-mini, and every sleep lasts one second or two. *)
Theorem every_run_stays_within_limits (s : session) (n : nat) :
  Forall (within_limits (configured_key (secrets s)))
    (snd (app openai json_loads json_dumps py_repr exn_str strftime_now image_open s n)).
Proof.
  revert n.
  change (always (within_limits (configured_key (secrets s)))
            (app openai json_loads json_dumps py_repr exn_str strftime_now image_open s)).
  unfold app. apply always_bind; [apply always_quiet; unfold page_head; hushed|].
  intros _. apply always_lift_bind. intros has_key _. destruct has_key; cbn [negb].
  - apply always_lift_bind. intros api_key Hkey.
    rewrite (getitem_configured_key (secrets s) api_key Hkey).
    repeat match goal with
    | |- always _ (bind _ _) => apply always_bind; [|intros]
    | |- always _ (sidebar _ _ _ _ _ _) => apply always_sidebar
    | |- always _ (image_tab _ _ _ _ _ _ _ _ _) => apply always_image_tab
    | |- always _ (text_tab _ _ _ _ _ _ _ _) => apply always_text_tab
    | |- always _ (excel_tab _ _ _ _ _ _ _ _) => apply always_excel_tab
    | |- always _ (pdf_tab _ _ _ _ _ _ _ _) => apply always_pdf_tab
    | |- always _ page_foot => apply always_quiet; unfold page_foot; hushed
    end.
  - apply always_bind; [apply always_quiet, quiet_show|].
    intros _ n. apply Forall_cons; [exact I | apply Forall_nil].
Qed.

Lemma returns_previews (images : list (list N)) :
  Forall (fun image => image_open image = inr tt) images ->
  forall i,
  returns (for_each_from i images
             (fun i image =>
                lift (image_open image) ;;
                show st.image (py "이미지 " ++ str_of_nat (i + 1)))).
Proof.
  intros H. induction H as [|image images Himage _ IH]; intros i; cbn [for_each_from].
  - apply returns_ret.
  - apply returns_bind; [|intros _; apply IH].
    apply (returns_lift_bind (image_open image) _ tt Himage). apply returns_show.
Qed.

(** X8.  With the key in the secrets and no button pressed, a run neither
    calls the service nor sleeps, whatever is uploaded or typed; and when
    every uploaded image can be opened for its preview the run ends
    normally: a spreadsheet that cannot be read is shown as an error, and a
    PDF is not even opened. *)
Theorem idle_run_calls_nothing (s : session) (api_key : pystr) (n : nat) :
  configured_key (secrets s) = Some api_key -> idle s ->
  let run := app openai json_loads json_dumps py_repr exn_str strftime_now image_open s n in
  api_calls (snd run) = [] /\ sleeps (snd run) = [] /\
  (Forall (fun image => image_open image = inr tt) (uploaded_images s) ->
   fst run = inr tt).
Proof.
  intros Hkey (Hm & Hi & Ht & He & Hp) run.
  destruct (configured_key_getitem (secrets s) api_key Hkey) as [Hc Hg].
  assert (Q : quiet (app openai json_loads json_dumps py_repr exn_str strftime_now
                       image_open s)).
  { unfold app. rewrite Hc, Hg.
    apply quiet_bind; [unfold page_head; hushed | intros _].
    apply quiet_lift_bind. intros has_key E. injection E as <-. cbn [negb].
    apply quiet_lift_bind. intros k _.
    unfold page_foot, sidebar, image_tab, text_tab, excel_tab, pdf_tab.
    rewrite Hm, Hi, Ht, He, Hp. cbv iota. hushed. }
  split; [apply quiet_api_calls, Q | split; [apply quiet_sleeps, Q|]].
  intros Himages.
  assert (R : returns (app openai json_loads json_dumps py_repr exn_str strftime_now
                         image_open s)).
  { unfold app. rewrite Hc, Hg.
    apply returns_bind; [unfold page_head; returning | intros _].
    apply (returns_lift_bind _ _ true eq_refl). cbn [negb].
    apply (returns_lift_bind _ _ api_key eq_refl).
    unfold page_foot, sidebar, image_tab, text_tab, excel_tab, pdf_tab.
    rewrite Hm, Hi, Ht, He, Hp. cbv iota.
    repeat match goal with
    | |- returns (for_each_from _ (uploaded_images s) _) =>
        apply returns_previews; exact Himages
    | |- returns (ret _) => apply returns_ret
    | |- returns (show _ _) => apply returns_show
    | |- returns (try _) => apply returns_try
    | |- returns (bind _ _) => apply returns_bind; [|intros]
    | |- returns (match uploaded_images s with _ => _ end) =>
        destruct (uploaded_images s) eqn:Eimages;
          [|rewrite <- Eimages; rewrite <- Eimages in Himages]
    | |- returns (match ?x with _ => _ end) => destruct x
    end. }
  destruct (R n) as ([] & E). exact E.
Qed.

End Limits.

(** * The handlers of the text, Excel and PDF tabs *)

Lemma startswith_app (s t prefix : pystr) :
  startswith s prefix = true -> startswith (s ++ t) prefix = true.
Proof.
  revert s. induction prefix as [|p prefix IH]; intros s H.
  - destruct (s ++ t); reflexivity.
  - destruct s as [|c s]; [discriminate H|]. cbn [startswith app] in *.
    apply andb_prop in H. destruct H as [Hc Hs].
    apply andb_true_intro. split; [exact Hc | apply IH; exact Hs].
Qed.

Lemma contains_app (needle s t : pystr) :
  contains needle s = true -> contains needle (s ++ t) = true.
Proof.
  induction s as [|c s IH]; intros H.
  - cbn [contains] in H. rewrite orb_false_r in H.
    destruct needle; [|discriminate H]. destruct t; reflexivity.
  - change (contains needle ((c :: s) ++ t))
      with (startswith ((c :: s) ++ t) needle || contains needle (s ++ t)).
    change (contains needle (c :: s))
      with (startswith (c :: s) needle || contains needle s) in H.
    apply orb_prop in H. destruct H as [H|H].
    + rewrite (startswith_app (c :: s) t needle H). reflexivity.
    + rewrite (IH H). apply orb_true_r.
Qed.

Lemma read_error_has_the_error_word (about : pystr) :
  contains (py "오류") (py "PDF 읽기 오류: " ++ about) = true.
Proof. apply contains_app. vm_compute. reflexivity. Qed.

Lemma all_text_from_skips (df : dataframe) (text : pystr) :
  forallb (fun col => negb (is_object (col_dtype col))) df = true ->
  all_text_from text df = text.
Proof.
  induction df as [|col df IH]; intros H; [reflexivity|].
  cbn [forallb] in H. apply andb_prop in H. destruct H as [Hcol Hdf].
  cbn [all_text_from]. destruct (is_object (col_dtype col)); [discriminate Hcol|].
  apply IH. exact Hdf.
Qed.

Section Handlers.

Variable openai : pystr -> nat -> request -> result (option pystr).
Variable json_loads : pystr -> result json.
Variable json_dumps : json -> pystr.
Variable py_repr : json -> pystr.
Variable exn_str : exn -> pystr.
Variable strftime_now : pystr -> pystr.

Lemma analyze_text_gives_up (text api_key : pystr) (n : nat) :
  transient_calls openai api_key (text_request text default_model) n 3 ->
  analyze_text_with_ai openai json_loads text api_key default_model default_max_retries n
  = (inr (error_dict (py "API 호출 실패")),
     retry_trace api_key (text_request text default_model) 2).
Proof.
  intros H. rewrite analyze_text_with_ai_eq.
  apply (loop_then_parse_gives_up openai json_loads api_key
           (text_request text default_model) default_max_retries n).
  - unfold default_max_retries. lia.
  - exact H.
Qed.

(** X10.  The text tab sends nothing for a text that is empty or only
    whitespace: the handler shows a warning and that is all.  Any other text
    is sent as it was typed, not stripped, right after the spinner. *)
Theorem blank_text_is_never_sent (api_key text : pystr) (n : nat) :
  let run := analyze_text_handler openai json_loads json_dumps py_repr exn_str
               strftime_now api_key text n in
  (strip text = [] ->
   run = (inr tt, [Show st.warning (py "분석할 텍스트를 입력해주세요.")]))
  /\
  (strip text <> [] ->
   exists rest,
     snd run = Show st.spinner (py "AI가 메뉴를 분석하고 있습니다...")
               :: ApiCall api_key (text_request text default_model) :: rest).
Proof.
  intros run. unfold run, analyze_text_handler. split; intros H.
  - rewrite H. reflexivity.
  - destruct (strip text) as [|c rest] eqn:E; [contradiction|].
    rewrite show_then, bind_run. cbn [snd].
    destruct (analyze_text_starts_with_call openai json_loads text api_key n) as (t & Et).
    rewrite Et. destruct (fst _); cbn [snd]; eexists; reflexivity.
Qed.

Lemma analyze_text_rejected (text api_key : pystr) (n : nat) (e : exn) :
  openai api_key n (text_request text default_model) = inl e -> is_transient e = false ->
  analyze_text_with_ai openai json_loads text api_key default_model default_max_retries n
  = (inl e, [ApiCall api_key (text_request text default_model)]).
Proof.
  intros Hcall Hfatal. rewrite analyze_text_with_ai_eq.
  apply (loop_then_parse_gives_way openai json_loads api_key
           (text_request text default_model) default_max_retries n 0 e).
  - unfold default_max_retries. lia.
  - intros k Hk. lia.
  - rewrite Nat.add_0_r. exact Hcall.
  - exact Hfatal.
Qed.

(** A result with an ["error"] is shown as a failed analysis, and that ends
    the handler. *)
Lemma failed_analysis_is_shown (api_key text : pystr) (n : nat)
    (k : json -> M unit) :
  transient_calls openai api_key (text_request text default_model) n 3 ->
  (forall m, k (error_dict (py "API 호출 실패")) m
             = (inr tt, [Show st.error (py "분석 실패: " ++ py "API 호출 실패")])) ->
  bind (analyze_text_with_ai openai json_loads text api_key default_model
          default_max_retries) k n
  = (inr tt, retry_trace api_key (text_request text default_model) 2
             ++ [Show st.error (py "분석 실패: " ++ py "API 호출 실패")]).
Proof.
  intros H Hk. rewrite bind_run, (analyze_text_gives_up text api_key n H). cbn [fst snd].
  rewrite Hk. reflexivity.
Qed.

(** X11.  When the service stays unreachable or rate-limited for three calls
    in a row, the handlers of the text, Excel and PDF tabs end normally:
    three calls with sleeps of one and two seconds between them, then the
    failure shown as an error, and no report requested. *)
Theorem unreachable_service_is_reported (api_key text : pystr) (n : nat) :
  transient_calls openai api_key (text_request text default_model) n 3 ->
  let failed := retry_trace api_key (text_request text default_model) 2
                ++ [Show st.error (py "분석 실패: " ++ py "API 호출 실패")] in
  (strip text <> [] ->
   analyze_text_handler openai json_loads json_dumps py_repr exn_str strftime_now
     api_key text n
   = (inr tt, Show st.spinner (py "AI가 메뉴를 분석하고 있습니다...") :: failed))
  /\
  (forall df : dataframe,
     all_text df = text ->
     analyze_excel_handler openai json_loads json_dumps py_repr exn_str strftime_now
       api_key df n
     = (inr tt, Show st.spinner (py "AI가 Excel 데이터를 분석하고 있습니다...") :: failed))
  /\
  (forall pdf : pdf_file,
     extract_pdf_text exn_str pdf = text -> contains (py "오류") text = false ->
     analyze_pdf_handler openai json_loads json_dumps py_repr exn_str strftime_now
       api_key pdf n
     = (inr tt, Show st.spinner (py "PDF에서 텍스트를 추출하고 있습니다...")
                :: Show st.write (py "📄 추출된 텍스트 미리보기:")
                :: Show (st.text_area (py "pdf_preview")) (firstn 1000 text ++ py "...")
                :: Show st.spinner (py "AI가 내용을 분석하고 있습니다...")
                :: failed)).
Proof.
  intros H failed. split; [|split].
  - intros Hs. unfold analyze_text_handler.
    destruct (strip text) as [|c rest]; [contradiction|].
    rewrite show_then, (failed_analysis_is_shown api_key text n _ H); [reflexivity|].
    intros m. reflexivity.
  - intros df <-. unfold analyze_excel_handler.
    rewrite show_then, (failed_analysis_is_shown api_key (all_text df) n _ H); [reflexivity|].
    intros m. reflexivity.
  - intros pdf <- Hc. unfold analyze_pdf_handler. rewrite Hc. cbn [negb].
    rewrite !show_then,
      (failed_analysis_is_shown api_key (extract_pdf_text exn_str pdf) n _ H);
      [reflexivity|].
    intros m. reflexivity.
Qed.

(** X13.  A PDF that cannot be read, whether [PdfReader] or a page raises,
    is never sent to the service: the handler shows the reading error and
    that is all. *)
Theorem unreadable_pdf_is_never_analysed (api_key : pystr) (pdf : pdf_file) (e : exn)
    (n : nat) :
  read_pdf pdf = inl e ->
  analyze_pdf_handler openai json_loads json_dumps py_repr exn_str strftime_now
    api_key pdf n
  = (inr tt, [ Show st.spinner (py "PDF에서 텍스트를 추출하고 있습니다...");
               Show st.error (py "PDF 읽기 오류: " ++ exn_str e) ]).
Proof.
  intros H. unfold analyze_pdf_handler, extract_pdf_text. rewrite H.
  rewrite (read_error_has_the_error_word (exn_str e)). reflexivity.
Qed.

(** X14.  The Excel tab has no guard like the text tab's: a table without
    an object-dtype column gives the empty text, and the handler sends it
    all the same. *)
Theorem table_without_text_is_still_sent (api_key : pystr) (df : dataframe) (n : nat) :
  forallb (fun col => negb (is_object (col_dtype col))) df = true ->
  all_text df = [] /\
  exists rest,
    snd (analyze_excel_handler openai json_loads json_dumps py_repr exn_str strftime_now
           api_key df n)
    = Show st.spinner (py "AI가 Excel 데이터를 분석하고 있습니다...")
      :: ApiCall api_key (text_request [] default_model) :: rest.
Proof.
  intros H. assert (E : all_text df = []) by (apply all_text_from_skips; exact H).
  split; [exact E|]. unfold analyze_excel_handler. rewrite E, show_then, bind_run.
  cbn [snd].
  destruct (analyze_text_starts_with_call openai json_loads [] api_key n) as (t & Et).
  rewrite Et. destruct (fst _); cbn [snd]; eexists; reflexivity.
Qed.

(** X12.  Nothing raised under the [try] of the Excel tab ends the run.  A
    file that cannot be read is shown as a reading error; and so is an
    exception of the service that the analysis does not retry, although the
    file was read. *)
Theorem excel_tab_shows_every_failure (api_key : pystr) (s : session) (n : nat) :
  let run := excel_tab openai json_loads json_dumps py_repr exn_str strftime_now
               api_key s n in
  let head := [ Show st.subheader (py "Excel 식단표 AI 분석");
                Show st.info (py "Excel 형식의 급식 식단표를 업로드하면 AI가 전체 내용을 분석합니다.") ] in
  fst run = inr tt /\
  (forall e : exn,
     uploaded_excel s = Some (inl e) ->
     snd run = head ++ [Show st.error (py "Excel 파일 읽기 오류: " ++ exn_str e)]) /\
  (forall (df : dataframe) (e : exn),
     uploaded_excel s = Some (inr df) -> analyze_excel s = true ->
     openai api_key n (text_request (all_text df) default_model) = inl e ->
     is_transient e = false ->
     snd run = head ++
               [ Show st.write (py "📊 Excel 데이터 미리보기:");
                 Show st.dataframe [];
                 Show st.spinner (py "AI가 Excel 데이터를 분석하고 있습니다...");
                 ApiCall api_key (text_request (all_text df) default_model);
                 Show st.error (py "Excel 파일 읽기 오류: " ++ exn_str e) ]).
Proof.
  intros run head. split; [|split].
  - assert (R : returns (excel_tab openai json_loads json_dumps py_repr exn_str
                           strftime_now api_key s)).
    { unfold excel_tab. returning. }
    destruct (R n) as ([] & E). exact E.
  - intros e He. unfold run, excel_tab. rewrite He. reflexivity.
  - intros df e Hdf Hb Hcall Hfatal. unfold run, excel_tab. rewrite Hdf, Hb.
    rewrite !show_then. cbn [fst snd]. rewrite bind_run.
    assert (T : try (df0 <- lift (inr df) ;;
                     show st.write (py "📊 Excel 데이터 미리보기:") ;;
                     show st.dataframe [] ;;
                     analyze_excel_handler openai json_loads json_dumps py_repr exn_str
                       strftime_now api_key df0) n
                = (inr (inl e),
                   [ Show st.write (py "📊 Excel 데이터 미리보기:");
                     Show st.dataframe [];
                     Show st.spinner (py "AI가 Excel 데이터를 분석하고 있습니다...");
                     ApiCall api_key (text_request (all_text df) default_model) ])).
    { unfold try. rewrite lift_then, !show_then. unfold analyze_excel_handler.
      rewrite show_then, bind_run.
      rewrite (analyze_text_rejected (all_text df) api_key n e Hcall Hfatal).
      reflexivity. }
    rewrite T. reflexivity.
Qed.





End Handlers.

(** * The properties at work *)

(** A service that is rate-limited, then unreachable, then answers: both
    analysis functions stay within two retries. *)
Lemma analysis_attempts_are_bounded_witness :
  (exists k : nat,
     (Z.of_nat k <= 2)%Z /\
     let t := snd (analyze_text_with_ai Sample.flaky Sample.json_loads (py "쌀밥, 우유")
                     Sample.api_key default_model 2 0) in
     t = retry_trace Sample.api_key (text_request (py "쌀밥, 우유") default_model) k /\
     ncalls t = (k + 1)%nat /\ sleeps t = backoff k /\
     total_sleep t = (2 ^ Z.of_nat k - 1)%Z)
  /\
  (exists k : nat,
     (Z.of_nat k <= 2)%Z /\
     let t := snd (analyze_food_image_with_ai Sample.flaky Sample.json_loads Sample.png
                     Sample.api_key default_model 2 0) in
     t = retry_trace Sample.api_key (image_request Sample.png default_model) k /\
     ncalls t = (k + 1)%nat /\ sleeps t = backoff k /\
     total_sleep t = (2 ^ Z.of_nat k - 1)%Z).
Proof.
  apply (analysis_attempts_are_bounded Sample.flaky Sample.json_loads 2 Sample.png
           (py "쌀밥, 우유") Sample.api_key default_model 0).
  lia.
Defined.

(** One rate limit, then a refused key: the refusal leaves both functions
    after the second call. *)
Lemma other_exceptions_leave_the_analysis_witness :
  analyze_text_with_ai Scenario.throttled_then_refused Sample.json_loads (py "쌀밥, 우유")
    Sample.api_key default_model 2 0
  = (inl (Exn OtherException (py "401 invalid api key")),
     retry_trace Sample.api_key (text_request (py "쌀밥, 우유") default_model) 1)
  /\
  analyze_food_image_with_ai Scenario.throttled_then_refused Sample.json_loads Sample.png
    Sample.api_key default_model 2 0
  = (inl (Exn OtherException (py "401 invalid api key")),
     retry_trace Sample.api_key (image_request Sample.png default_model) 1).
Proof.
  destruct (other_exceptions_leave_the_analysis Scenario.throttled_then_refused
              Sample.json_loads 2 Sample.png (py "쌀밥, 우유") Sample.api_key default_model
              0 1 (Exn OtherException (py "401 invalid api key")) ltac:(lia) eq_refl)
    as [A B].
  split; [apply A | apply B]; try reflexivity;
    intros k Hk; exists (Exn RateLimitError (py "429"));
    (destruct k as [|k]; [split; reflexivity | lia]).
Defined.

Lemma negative_max_retries_calls_nothing_witness :
  analyze_text_with_ai (Sample.says (py "{}")) Sample.json_loads (py "쌀밥, 우유")
    Sample.api_key default_model (-1) 0
  = (inl (Exn UnboundLocalError (py "res")), [])
  /\
  analyze_food_image_with_ai (Sample.says (py "{}")) Sample.json_loads Sample.png
    Sample.api_key default_model (-1) 0
  = (inl (Exn UnboundLocalError (py "res")), []).
Proof.
  apply (negative_max_retries_calls_nothing (Sample.says (py "{}")) Sample.json_loads (-1)
           Sample.png (py "쌀밥, 우유") Sample.api_key default_model 0).
  lia.
Defined.

(** An answer without content. *)
Lemma parse_step_lets_other_exceptions_out_witness :
  fst (analyze_text_with_ai Scenario.silent Sample.json_loads (py "쌀밥, 우유")
         Sample.api_key default_model 2 0)
  = inl (Exn AttributeError (py "strip"))
  /\
  fst (analyze_food_image_with_ai Scenario.silent Sample.json_loads Sample.png
         Sample.api_key default_model 2 0)
  = inl (Exn AttributeError (py "strip")).
Proof.
  destruct (parse_step_lets_other_exceptions_out Scenario.silent Sample.json_loads 2
              Sample.png (py "쌀밥, 우유") Sample.api_key default_model 0 None
              ltac:(lia) eq_refl eq_refl)
    as [A _].
  apply A. reflexivity.
Defined.

(** The sidebar with the service down. *)
Lemma sidebar_shows_a_failed_lookup_witness :
  let s := Sample.busy_session Sample.secrets_with_key in
  sidebar Sample.down Sample.json_loads Sample.py_repr Sample.exn_str Sample.api_key s 0
  = (inr tt,
     [ Show st.header (py "📚 알레르기 정보 센터");
       Show st.subheader (py "🔍 알레르기 상세 정보 조회");
       Show st.spinner (selected_allergen s ++ py " 정보를 가져오는 중...");
       ApiCall Sample.api_key (medical_request (selected_allergen s) default_model);
       Show st.error (py "의학 정보 생성 실패: "
                        ++ Sample.exn_str (Exn APIConnectionError (py "unreachable")));
       Show st.divider [];
       Show st.subheader (py "⚡ 응급 대응 가이드");
       Show st.error emergency_guide ]).
Proof.
  cbv zeta.
  apply (sidebar_shows_a_failed_lookup Sample.down Sample.json_loads Sample.py_repr
           Sample.exn_str Sample.api_key (Sample.busy_session Sample.secrets_with_key) 0
           (Exn APIConnectionError (py "unreachable")));
    reflexivity.
Defined.

(** Everything uploaded, nothing pressed. *)
Lemma idle_run_calls_nothing_witness :
  let run := app Sample.down Sample.json_loads Sample.json_dumps Sample.py_repr
               Sample.exn_str Sample.strftime_now Sample.image_open
               Scenario.idle_session 0 in
  api_calls (snd run) = [] /\ sleeps (snd run) = [] /\ fst run = inr tt.
Proof.
  cbv zeta.
  destruct (idle_run_calls_nothing Sample.down Sample.json_loads Sample.json_dumps
              Sample.py_repr Sample.exn_str Sample.strftime_now Sample.image_open
              Scenario.idle_session Sample.api_key 0)
    as (A & B & C).
  - vm_compute. reflexivity.
  - repeat split.
  - split; [exact A | split; [exact B | apply C]].
    apply Forall_cons; [vm_compute; reflexivity | apply Forall_nil].
Defined.

(** The service down for the text of the example table, typed or uploaded. *)
Lemma unreachable_service_is_reported_witness :
  let text := all_text (lunch_table NA) in
  let failed := retry_trace Sample.api_key (text_request text default_model) 2
                ++ [Show st.error (py "분석 실패: " ++ py "API 호출 실패")] in
  sleeps failed = [1; 2]%Z /\ ncalls failed = 3%nat /\
  analyze_text_handler Sample.down Sample.json_loads Sample.json_dumps Sample.py_repr
    Sample.exn_str Sample.strftime_now Sample.api_key text 0
  = (inr tt, Show st.spinner (py "AI가 메뉴를 분석하고 있습니다...") :: failed)
  /\
  analyze_excel_handler Sample.down Sample.json_loads Sample.json_dumps Sample.py_repr
    Sample.exn_str Sample.strftime_now Sample.api_key (lunch_table NA) 0
  = (inr tt, Show st.spinner (py "AI가 Excel 데이터를 분석하고 있습니다...") :: failed).
Proof.
  cbv zeta.
  destruct (unreachable_service_is_reported Sample.down Sample.json_loads Sample.json_dumps
              Sample.py_repr Sample.exn_str Sample.strftime_now Sample.api_key
              (all_text (lunch_table NA)) 0)
    as (A & B & _).
  - intros k _. exists (Exn APIConnectionError (py "unreachable")). split; reflexivity.
  - split; [reflexivity | split; [reflexivity|]].
    split; [apply A; vm_compute; discriminate | apply B; reflexivity].
Defined.

Lemma unreadable_pdf_is_never_analysed_witness :
  analyze_pdf_handler (Sample.says (py "{}")) Sample.json_loads Sample.json_dumps
    Sample.py_repr Sample.exn_str Sample.strftime_now Sample.api_key Scenario.broken_pdf 0
  = (inr tt, [ Show st.spinner (py "PDF에서 텍스트를 추출하고 있습니다...");
               Show st.error (py "PDF 읽기 오류: "
                                ++ Sample.exn_str (Exn OtherException (py "broken stream"))) ]).
Proof.
  apply (unreadable_pdf_is_never_analysed (Sample.says (py "{}")) Sample.json_loads
           Sample.json_dumps Sample.py_repr Sample.exn_str Sample.strftime_now
           Sample.api_key Scenario.broken_pdf (Exn OtherException (py "broken stream")) 0).
  reflexivity.
Defined.

Lemma table_without_text_is_still_sent_witness :
  all_text Scenario.calorie_table = [] /\
  exists rest,
    snd (analyze_excel_handler (Sample.says (py "{}")) Sample.json_loads Sample.json_dumps
           Sample.py_repr Sample.exn_str Sample.strftime_now Sample.api_key
           Scenario.calorie_table 0)
    = Show st.spinner (py "AI가 Excel 데이터를 분석하고 있습니다...")
      :: ApiCall Sample.api_key (text_request [] default_model) :: rest.
Proof.
  apply (table_without_text_is_still_sent (Sample.says (py "{}")) Sample.json_loads
           Sample.json_dumps Sample.py_repr Sample.exn_str Sample.strftime_now
           Sample.api_key Scenario.calorie_table 0).
  reflexivity.
Defined.


